(** * Class-Timetable: the data derivations of [frontend/src/App.js]

    A shallow embedding of the timetable viewer's client logic: the time
    utilities, the today's-classes, next-class, weekly and search
    derivations, the fetch boundary with its [try]/[catch] blocks, and the
    debounced search effect of the [App] component.

    Conventions of the embedding.
    - A JavaScript string is a [string]: a sequence of code units, each below
      256 (the Latin-1 range), one [ascii] per code unit.
    - A JavaScript number is a [JsNum]: NaN, an infinity, or a rational (every
      finite double is one).  [Number(...)], [*] and [+] round to doubles, so
      they are operations of the [JsNumerics] interface, with the laws of
      IEEE-754 arithmetic that the proofs use.
    - A parsed JSON document is a [JsVal]; reading a property of [null] or
      [undefined], calling something that is not a function and iterating
      something that is not iterable throw, which is the [Throw] case of
      [Res]. *)

From Stdlib Require Import List String Ascii Bool Arith ZArith NArith QArith Lia.
From Stdlib Require Import Sorting.Sorted Sorting.Permutation.
Import ListNotations.

Local Open Scope string_scope.
Local Open Scope Z_scope.

(** ** JavaScript strings *)

Module JsString.

(** [String.prototype.toLowerCase] on one code unit of the Latin-1 range:
    [A]-[Z] and U+00C0-U+00DE (the multiplication sign U+00D7 apart) move up
    by 32, everything else is unchanged. *)
Definition is_upper (c : ascii) : bool :=
  let n := N_of_ascii c in
  ((65 <=? n) && (n <=? 90)
   || (192 <=? n) && (n <=? 222) && negb (n =? 215))%N.

Definition lower_char (c : ascii) : ascii :=
  if is_upper c then ascii_of_N (N_of_ascii c + 32) else c.

Fixpoint toLowerCase (s : string) : string :=
  match s with
  | EmptyString => EmptyString
  | String c r => String (lower_char c) (toLowerCase r)
  end.

(** [String.prototype.includes]: [q] occurs in [s] at some position. *)
Fixpoint includes (s q : string) : bool :=
  prefix q s
  || match s with
     | EmptyString => false
     | String _ r => includes r q
     end.

(** The white space and line terminators [String.prototype.trim] strips,
    among the code units below 256: TAB, LF, VT, FF, CR, SPACE and NBSP. *)
Definition is_space (c : ascii) : bool :=
  let n := N_of_ascii c in
  ((9 <=? n) && (n <=? 13) || (n =? 32) || (n =? 160))%N.

(** [s.trim()] is the empty string: every code unit of [s] is stripped. *)
Fixpoint blank (s : string) : bool :=
  match s with
  | EmptyString => true
  | String c r => is_space c && blank r
  end.

(** Truthiness of a string: only the empty string is falsy. *)
Definition truthy_string (s : string) : bool :=
  match s with EmptyString => false | String _ _ => true end.

(** [s.split(":")]: the pieces between the colons, always at least one. *)
Fixpoint split_colon (s : string) : list string :=
  match s with
  | EmptyString => [EmptyString]
  | String c r =>
      if Ascii.eqb c ":" then EmptyString :: split_colon r
      else match split_colon r with
           | piece :: rest => String c piece :: rest
           | [] => [String c EmptyString]
           end
  end.

(** One code unit as a string, as [for ... of] over a string yields them. *)
Fixpoint code_units (s : string) : list string :=
  match s with
  | EmptyString => []
  | String c r => String c EmptyString :: code_units r
  end.

(** Equality up to letter case, code unit by code unit: the two code units
    are the same, or one is the upper-case form of the other. *)
Definition same_letter (a b : ascii) : Prop :=
  a = b
  \/ (is_upper a = true /\ N_of_ascii b = (N_of_ascii a + 32)%N)
  \/ (is_upper b = true /\ N_of_ascii a = (N_of_ascii b + 32)%N).

Inductive eq_nocase : string -> string -> Prop :=
| eq_nocase_nil : eq_nocase EmptyString EmptyString
| eq_nocase_cons a b s t :
    same_letter a b -> eq_nocase s t -> eq_nocase (String a s) (String b t).

(** [q] is a substring of [s]. *)
Definition substring_of (q s : string) : Prop :=
  exists pre post, s = pre ++ q ++ post.

(** The format of a time of day: two digits, a colon, two digits. *)
Definition is_digit (c : ascii) : bool :=
  let n := N_of_ascii c in ((48 <=? n) && (n <=? 57))%N.

Definition digit_value (c : ascii) : Z := Z.of_N (N_of_ascii c) - 48.

Definition is_hhmm (s : string) : bool :=
  match s with
  | String h1 (String h2 (String c (String m1 (String m2 EmptyString)))) =>
      is_digit h1 && is_digit h2 && Ascii.eqb c ":" && is_digit m1 && is_digit m2
  | _ => false
  end.

(** A non-empty run of decimal digits, and the integer it denotes. *)
Fixpoint all_digits (s : string) : bool :=
  match s with
  | EmptyString => true
  | String c r => is_digit c && all_digits r
  end.

Definition is_decimal (s : string) : bool := truthy_string s && all_digits s.

Fixpoint decimal_value_from (acc : Z) (s : string) : Z :=
  match s with
  | EmptyString => acc
  | String c r => decimal_value_from (10 * acc + digit_value c) r
  end.

Definition decimal_value (s : string) : Z := decimal_value_from 0 s.

(** [s] contains a colon. *)
Fixpoint has_colon (s : string) : bool :=
  match s with
  | EmptyString => false
  | String c r => Ascii.eqb c ":" || has_colon r
  end.

(** The code units a numeric string literal is made of: digits, white
    space, signs, the decimal point, and the letters of exponents, of the
    prefixes [0x], [0o], [0b], of hexadecimal digits and of [Infinity]. *)
Definition numeric_char (c : ascii) : bool :=
  is_digit c || is_space c
  || existsb (Ascii.eqb c) (list_ascii_of_string "+-.eExXoObBaAcCdDfFInity").

Fixpoint all_numeric_chars (s : string) : bool :=
  match s with
  | EmptyString => true
  | String c r => numeric_char c && all_numeric_chars r
  end.

(** Minutes since midnight denoted by an ["HH:MM"] string. *)
Definition hhmm_minutes (s : string) : Z :=
  match s with
  | String h1 (String h2 (String _ (String m1 (String m2 _)))) =>
      (10 * digit_value h1 + digit_value h2) * 60
      + (10 * digit_value m1 + digit_value m2)
  | _ => 0
  end.

End JsString.

Import JsString.

(** ** JavaScript numbers *)

(** The values of the Number type, the sign of zero apart. *)
Inductive JsNum : Type :=
| NaN
| NegInf
| PosInf
| Fin (q : Q).

Definition of_Z (z : Z) : JsNum := Fin (inject_Z z).

(** [a <= b] and [a < b] on numbers: false as soon as one side is NaN. *)
Definition js_le (a b : JsNum) : bool :=
  match a, b with
  | NaN, _ | _, NaN => false
  | NegInf, _ => true
  | _, PosInf => true
  | PosInf, _ => false
  | Fin _, NegInf => false
  | Fin x, Fin y => Qle_bool x y
  end.

Definition js_lt (a b : JsNum) : bool :=
  match a, b with
  | NaN, _ | _, NaN => false
  | NegInf, NegInf => false
  | NegInf, _ => true
  | PosInf, _ => false
  | Fin _, NegInf => false
  | Fin _, PosInf => true
  | Fin x, Fin y => negb (Qle_bool y x)
  end.

Definition js_ge (a b : JsNum) : bool := js_le b a.
Definition js_gt (a b : JsNum) : bool := js_lt b a.

(** ToNumber of a destructured array element: a missing element is
    [undefined], which arithmetic converts to NaN. *)
Definition to_number (v : option JsNum) : JsNum :=
  match v with
  | Some n => n
  | None => NaN
  end.

(** [Number(s)], [x * y] and [x + y] produce doubles.  The interface fixes
    what the program relies on: a run of at most 15 decimal digits denotes
    its integer, the empty string denotes 0, a string with a code unit that
    no numeric literal contains denotes NaN, NaN is absorbing, and
    arithmetic on small integers is exact. *)
Class JsNumerics : Type := {
  Number : string -> JsNum;
  js_mul : JsNum -> JsNum -> JsNum;
  js_add : JsNum -> JsNum -> JsNum;
  Number_decimal :
    forall s, is_decimal s = true -> (String.length s <= 15)%nat ->
              Number s = of_Z (decimal_value s);
  Number_empty : Number "" = of_Z 0;
  Number_foreign : forall s, all_numeric_chars s = false -> Number s = NaN;
  js_mul_NaN_l : forall y, js_mul NaN y = NaN;
  js_add_NaN_l : forall y, js_add NaN y = NaN;
  js_add_NaN_r : forall x, js_add x NaN = NaN;
  js_mul_exact :
    forall a b, Z.abs a <= 2 ^ 26 -> Z.abs b <= 2 ^ 26 ->
                js_mul (of_Z a) (of_Z b) = of_Z (a * b);
  js_add_exact :
    forall a b, Z.abs a <= 2 ^ 52 -> Z.abs b <= 2 ^ 52 ->
                js_add (of_Z a) (of_Z b) = of_Z (a + b)
}.

(** [String.prototype.localeCompare] follows the host's collation.  On two
    ["HH:MM"] strings its sign is that of the code-unit comparison: digits
    collate in increasing order and the colons stand at the same place. *)
Class Collation : Type := {
  localeCompare : string -> string -> Z;
  localeCompare_hhmm :
    forall a b, is_hhmm a = true -> is_hhmm b = true ->
                (localeCompare a b ?= 0) = String.compare a b
}.

(** ** Data model: the documents the offline generator writes *)

Record TimeSlot : Type := {
  start_time : string;
  end_time : string;
  duration_minutes : Z
}.

Record CourseRef : Type := {
  course_name : string;
  course_code : string;
  instructor : string;
  credits : Z
}.

Record ScheduleEntry : Type := {
  day : string;
  time_slot : TimeSlot;
  room : string;
  entry_type : string;
  course : CourseRef
}.

Record GroupDataset : Type := {
  group : string;
  entries : list ScheduleEntry
}.

Record AggregateDataset : Type := {
  data : list GroupDataset
}.

(** One search hit: [{ group: groupData.group, entry: entry }]. *)
Record SearchResult : Type := {
  result_group : string;
  result_entry : ScheduleEntry
}.

(** The wall clock as [new Date()] exposes it: [getHours()] in 0..23 and
    [getMinutes()] in 0..59, both integers, so [getHours() * 60 +
    getMinutes()] is computed exactly. *)
Record Clock : Type := {
  getHours : Z;
  getMinutes : Z
}.

Definition currentTime (now : Clock) : Z := getHours now * 60 + getMinutes now.

(** ** Time utilities and the derivations computed while rendering *)

Section TimeUtilities.
Context {numerics : JsNumerics}.

(** [const [h, m] = t.split(":").map(Number); h * 60 + m] *)
Definition minutesOf (t : string) : JsNum :=
  let parts := map Number (split_colon t) in
  js_add (js_mul (to_number (nth_error parts 0)) (of_Z 60))
         (to_number (nth_error parts 1)).

(** A time string whose parsing yields NaN: it has no colon (the minutes
    are [undefined]), or one of its first two pieces is mapped to NaN by
    [Number], as every piece is that holds a code unit foreign to numeric
    literals. *)
Definition not_a_time (t : string) : Prop :=
  has_colon t = false
  \/ exists h m rest,
       split_colon t = h :: m :: rest
       /\ (Number h = NaN \/ Number m = NaN
           \/ all_numeric_chars h = false \/ all_numeric_chars m = false).

(** [isCurrentClass], App.js lines 21-32. *)
Definition isCurrentClass (now : Clock) (startTime endTime : string) : bool :=
  let currentTime := of_Z (currentTime now) in
  let startMinutes := minutesOf startTime in
  let endMinutes := minutesOf endTime in
  js_ge currentTime startMinutes && js_le currentTime endMinutes.

(** [nextClass] of [HomePage], App.js lines 75-85: [Array.prototype.find]
    returns the first element the callback accepts, [undefined] (here
    [None]) when there is none. *)
Definition nextClass (now : Clock) (todayClasses : list ScheduleEntry)
  : option ScheduleEntry :=
  let currentTime := of_Z (currentTime now) in
  find (fun classItem =>
          let startMinutes := minutesOf (start_time (time_slot classItem)) in
          js_gt startMinutes currentTime)
       todayClasses.

End TimeUtilities.

(** The start of a class in minutes since midnight, for a start time in the
    ["HH:MM"] format of the data model, and the order it induces. *)
Definition has_hhmm_start (e : ScheduleEntry) : Prop :=
  is_hhmm (start_time (time_slot e)) = true.

Definition start_minutes (e : ScheduleEntry) : Z :=
  hhmm_minutes (start_time (time_slot e)).

Definition starts_no_later (a b : ScheduleEntry) : Prop :=
  start_minutes a <= start_minutes b.

(** [a] does not start after [b], the start times compared as strings,
    code unit by code unit. *)
Definition start_lex_le (a b : ScheduleEntry) : Prop :=
  String.leb (start_time (time_slot a)) (start_time (time_slot b)) = true.

(** ** The weekly view of [TimetablePage] *)

Definition days : list string :=
  ["Monday"; "Tuesday"; "Wednesday"; "Thursday"; "Friday"].

Section Sort.
Context {A : Type}.
Variable compareFn : A -> A -> Z.

(** [Array.prototype.sort(compareFn)], which puts [a] before [b] when
    [compareFn(a, b)] is negative, is stable; with a comparator that is a
    total preorder its result is the stable sorted arrangement, computed here
    by insertion from the right. *)
Fixpoint sort_insert (x : A) (l : list A) : list A :=
  match l with
  | [] => [x]
  | y :: r => if compareFn x y <=? 0 then x :: y :: r else y :: sort_insert x r
  end.

Fixpoint js_sort (l : list A) : list A :=
  match l with
  | [] => []
  | x :: r => sort_insert x (js_sort r)
  end.

End Sort.

Section WeeklyView.
Context {collation : Collation}.

(** [timetableData.entries.filter((entry) => entry.day === day)] *)
Definition dayClasses (timetableData : GroupDataset) (day_name : string)
  : list ScheduleEntry :=
  filter (fun entry => String.eqb (day entry) day_name) (entries timetableData).

(** [(a, b) => a.time_slot.start_time.localeCompare(b.time_slot.start_time)] *)
Definition by_start_time (a b : ScheduleEntry) : Z :=
  localeCompare (start_time (time_slot a)) (start_time (time_slot b)).

(** One card per element of [days], lines 234-296: the day's name, the
    count shown in the card's header ([dayClasses.length]) and the classes
    listed below it, which are [dayClasses.sort(...)] (the filter made a
    fresh array, so sorting in place touches nothing else; for an empty
    array the card shows a notice instead of the empty list). *)
Record DayCard : Type := {
  card_day : string;
  card_count : nat;
  card_classes : list ScheduleEntry
}.

Definition weeklyView (timetableData : GroupDataset) : list DayCard :=
  map (fun day_name =>
         let dayClasses := dayClasses timetableData day_name in
         {| card_day := day_name;
            card_count := List.length dayClasses;
            card_classes := js_sort by_start_time dayClasses |})
      days.

End WeeklyView.

(** ** The derivations computed inside the fetchers, on well-formed documents *)

(** [groupData.entries.filter(entry => entry.day.toLowerCase() ===
    currentDay.toLowerCase())], App.js lines 698-700. *)
Definition todaysClasses (groupData : GroupDataset) (currentDay : string)
  : list ScheduleEntry :=
  filter (fun entry =>
            String.eqb (toLowerCase (day entry)) (toLowerCase currentDay))
         (entries groupData).

(** The four lower-case fields a query is looked up in, lines 764-769. *)
Definition searchFields (entry : ScheduleEntry) : list string :=
  [ toLowerCase (course_name (course entry));
    toLowerCase (instructor (course entry));
    toLowerCase (room entry);
    toLowerCase (course_code (course entry)) ].

(** [selectedGroup] is [null] or a string; [selectedGroup && ...] takes the
    right-hand side only for a non-empty string. *)
Definition truthy_group (selectedGroup : option string) : bool :=
  match selectedGroup with
  | Some g => truthy_string g
  | None => false
  end.

(** [selectedGroup && groupData.group.toLowerCase() !==
    selectedGroup.toLowerCase()]: the test that [continue]s, line 758. *)
Definition skips_group (selectedGroup : option string) (groupData : GroupDataset)
  : bool :=
  match selectedGroup with
  | Some g =>
      truthy_string g
      && negb (String.eqb (toLowerCase (group groupData)) (toLowerCase g))
  | None => false
  end.

(** The inner loop, lines 762-777: [results.push] appends at the end. *)
Fixpoint search_entries (query : string) (groupData : GroupDataset)
  (results : list SearchResult) (es : list ScheduleEntry) : list SearchResult :=
  match es with
  | [] => results
  | entry :: rest =>
      let results' :=
        if existsb (fun field => includes field query) (searchFields entry)
        then (results ++ [{| result_group := group groupData;
                             result_entry := entry |}])%list
        else results in
      search_entries query groupData results' rest
  end.

(** The outer loop, lines 757-778. *)
Fixpoint search_groups (query : string) (selectedGroup : option string)
  (results : list SearchResult) (gs : list GroupDataset) : list SearchResult :=
  match gs with
  | [] => results
  | groupData :: rest =>
      if skips_group selectedGroup groupData
      then search_groups query selectedGroup results rest
      else search_groups query selectedGroup
             (search_entries query groupData results (entries groupData)) rest
  end.

(** [handleSearch] on a fetched aggregate, lines 741-786: the guard on the
    trimmed query, then the two loops. *)
Definition searchTimetable (timetable : AggregateDataset) (searchQuery : string)
  (selectedGroup : option string) : list SearchResult :=
  if blank searchQuery then []
  else search_groups (toLowerCase searchQuery) selectedGroup [] (data timetable).

(** What the claims say of the search, in their words: the datasets that are
    not skipped, each entry that matches tagged with its group, dataset by
    dataset and entry by entry. *)
Definition group_selected (selectedGroup : option string)
  (groupData : GroupDataset) : Prop :=
  truthy_group selectedGroup = true ->
  exists g, selectedGroup = Some g /\ eq_nocase (group groupData) g.

Definition query_matches (searchQuery : string) (entry : ScheduleEntry) : Prop :=
  substring_of (toLowerCase searchQuery) (toLowerCase (course_name (course entry)))
  \/ substring_of (toLowerCase searchQuery) (toLowerCase (instructor (course entry)))
  \/ substring_of (toLowerCase searchQuery) (toLowerCase (room entry))
  \/ substring_of (toLowerCase searchQuery) (toLowerCase (course_code (course entry))).

Definition tag (groupData : GroupDataset) (entry : ScheduleEntry) : SearchResult :=
  {| result_group := group groupData; result_entry := entry |}.

(** ** Dynamic values: what [response.json()] can return *)

Inductive Exn : Type :=
| TypeError      (* property of null/undefined, not a function, not iterable *)
| SyntaxError    (* [response.json()] on a body that is not JSON *)
| FetchError.    (* [fetch] rejected: the request did not complete *)

Inductive Res (A : Type) : Type :=
| Ok (a : A)
| Throw (e : Exn).
Arguments Ok {A} a.
Arguments Throw {A} e.

Definition bind {A B : Type} (m : Res A) (k : A -> Res B) : Res B :=
  match m with
  | Ok a => k a
  | Throw e => Throw e
  end.

Notation "x <- m ;; k" := (bind m (fun x => k))
  (at level 61, m at next level, right associativity).

(** [try { body } catch (error) { handler }] *)
Definition try_catch {A : Type} (body : Res A) (handler : Exn -> Res A) : Res A :=
  match body with
  | Ok a => Ok a
  | Throw e => handler e
  end.

#[local] Set Warnings "-register-all".
Inductive JsVal : Type :=
| VUndefined
| VNull
| VBool (b : bool)
| VNum (n : JsNum)
| VStr (s : string)
| VArr (items : list JsVal)
| VObj (fields : list (string * JsVal))
| VBuiltin.      (* a method found on a prototype, such as [[].entries] *)
#[local] Set Warnings "register-all".

Fixpoint own_property (k : string) (fields : list (string * JsVal)) : JsVal :=
  match fields with
  | [] => VUndefined
  | (k', v) :: rest => if String.eqb k k' then v else own_property k rest
  end.

(** [v.k] for the property names the program reads ([entries], [day],
    [data], [courses], [group], [course], [room], ...).  None of them is
    inherited by an object, a string, a number or a boolean; an array
    inherits [entries], the iterator method. *)
Definition get (v : JsVal) (k : string) : Res JsVal :=
  match v with
  | VUndefined | VNull => Throw TypeError
  | VObj fields => Ok (own_property k fields)
  | VArr _ => Ok (if String.eqb k "entries" then VBuiltin else VUndefined)
  | VBool _ | VNum _ | VStr _ | VBuiltin => Ok VUndefined
  end.

(** [v.toLowerCase()]: only a string has the method. *)
Definition js_toLowerCase (v : JsVal) : Res string :=
  match v with
  | VStr s => Ok (toLowerCase s)
  | _ => Throw TypeError
  end.

(** [for (const x of v)]: arrays and strings are the iterable JSON values. *)
Definition iterate (v : JsVal) : Res (list JsVal) :=
  match v with
  | VArr items => Ok items
  | VStr s => Ok (map VStr (code_units s))
  | _ => Throw TypeError
  end.

Definition truthy (v : JsVal) : bool :=
  match v with
  | VUndefined | VNull => false
  | VBool b => b
  | VNum NaN => false
  | VNum (Fin q) => negb (Qeq_bool q 0)
  | VNum _ => true
  | VStr s => truthy_string s
  | VArr _ | VObj _ | VBuiltin => true
  end.

(** [a || b] *)
Definition js_or (a b : JsVal) : JsVal := if truthy a then a else b.

Fixpoint filterM (keep : JsVal -> Res bool) (items : list JsVal)
  : Res (list JsVal) :=
  match items with
  | [] => Ok []
  | x :: rest =>
      b <- keep x ;;
      kept <- filterM keep rest ;;
      Ok (if b then x :: kept else kept)
  end.

(** [v.filter(callback)]: only an array has the method. *)
Definition js_filter (v : JsVal) (keep : JsVal -> Res bool) : Res (list JsVal) :=
  match v with
  | VArr items => filterM keep items
  | _ => Throw TypeError
  end.

(** A loop over [items] that updates [acc] and stops at the first throw. *)
Fixpoint for_of {B : Type} (body : B -> JsVal -> Res B) (acc : B)
  (items : list JsVal) : Res B :=
  match items with
  | [] => Ok acc
  | x :: rest => acc' <- body acc x ;; for_of body acc' rest
  end.

(** The JSON documents of well-formed datasets. *)
Definition json_of_time_slot (t : TimeSlot) : JsVal :=
  VObj [ ("start_time", VStr (start_time t));
         ("end_time", VStr (end_time t));
         ("duration_minutes", VNum (of_Z (duration_minutes t))) ].

Definition json_of_course (c : CourseRef) : JsVal :=
  VObj [ ("course_name", VStr (course_name c));
         ("course_code", VStr (course_code c));
         ("instructor", VStr (instructor c));
         ("credits", VNum (of_Z (credits c))) ].

Definition json_of_entry (e : ScheduleEntry) : JsVal :=
  VObj [ ("day", VStr (day e));
         ("time_slot", json_of_time_slot (time_slot e));
         ("room", VStr (room e));
         ("entry_type", VStr (entry_type e));
         ("course", json_of_course (course e)) ].

Definition json_of_group (g : GroupDataset) : JsVal :=
  VObj [ ("group", VStr (group g));
         ("entries", VArr (map json_of_entry (entries g))) ].

Definition json_of_aggregate (t : AggregateDataset) : JsVal :=
  VObj [ ("data", VArr (map json_of_group (data t))) ].

Definition json_of_result (r : SearchResult) : JsVal :=
  VObj [ ("group", VStr (result_group r));
         ("entry", json_of_entry (result_entry r)) ].

(** ** The fetch boundary *)

(** How a request for a static file ends: [fetch] rejects, or it resolves
    with a response whose body [response.json()] parses ([Some]) or rejects
    ([None]).  The fetchers never read [response.ok] or [response.status]. *)
Inductive FetchOutcome : Type :=
| NetworkFailure
| Responded (body : option JsVal).

Definition Network : Type := string -> FetchOutcome.

(** [const response = await fetch(url); const data = await response.json();] *)
Definition fetch_json (net : Network) (url : string) : Res JsVal :=
  match net url with
  | NetworkFailure => Throw FetchError
  | Responded None => Throw SyntaxError
  | Responded (Some doc) => Ok doc
  end.

(** The state of the [App] component, one field per [useState]. *)
Record AppState : Type := {
  currentPage : string;
  selectedGroup : option string;
  timetableData : JsVal;
  todayClasses : list JsVal;
  loading : bool;
  loadingToday : bool;
  loadingTimetable : bool;
  loadingCourses : bool;
  darkMode : bool;
  searchQuery : string;
  searchResults : list JsVal;
  courses : JsVal
}.

Definition setCurrentPage (v : string) (st : AppState) : AppState :=
  {| currentPage := v; selectedGroup := selectedGroup st;
     timetableData := timetableData st; todayClasses := todayClasses st;
     loading := loading st; loadingToday := loadingToday st;
     loadingTimetable := loadingTimetable st; loadingCourses := loadingCourses st;
     darkMode := darkMode st; searchQuery := searchQuery st;
     searchResults := searchResults st; courses := courses st |}.

Definition setSelectedGroup (v : option string) (st : AppState) : AppState :=
  {| currentPage := currentPage st; selectedGroup := v;
     timetableData := timetableData st; todayClasses := todayClasses st;
     loading := loading st; loadingToday := loadingToday st;
     loadingTimetable := loadingTimetable st; loadingCourses := loadingCourses st;
     darkMode := darkMode st; searchQuery := searchQuery st;
     searchResults := searchResults st; courses := courses st |}.

Definition setTimetableData (v : JsVal) (st : AppState) : AppState :=
  {| currentPage := currentPage st; selectedGroup := selectedGroup st;
     timetableData := v; todayClasses := todayClasses st;
     loading := loading st; loadingToday := loadingToday st;
     loadingTimetable := loadingTimetable st; loadingCourses := loadingCourses st;
     darkMode := darkMode st; searchQuery := searchQuery st;
     searchResults := searchResults st; courses := courses st |}.

Definition setTodayClasses (v : list JsVal) (st : AppState) : AppState :=
  {| currentPage := currentPage st; selectedGroup := selectedGroup st;
     timetableData := timetableData st; todayClasses := v;
     loading := loading st; loadingToday := loadingToday st;
     loadingTimetable := loadingTimetable st; loadingCourses := loadingCourses st;
     darkMode := darkMode st; searchQuery := searchQuery st;
     searchResults := searchResults st; courses := courses st |}.

Definition setLoading (v : bool) (st : AppState) : AppState :=
  {| currentPage := currentPage st; selectedGroup := selectedGroup st;
     timetableData := timetableData st; todayClasses := todayClasses st;
     loading := v; loadingToday := loadingToday st;
     loadingTimetable := loadingTimetable st; loadingCourses := loadingCourses st;
     darkMode := darkMode st; searchQuery := searchQuery st;
     searchResults := searchResults st; courses := courses st |}.

Definition setLoadingToday (v : bool) (st : AppState) : AppState :=
  {| currentPage := currentPage st; selectedGroup := selectedGroup st;
     timetableData := timetableData st; todayClasses := todayClasses st;
     loading := loading st; loadingToday := v;
     loadingTimetable := loadingTimetable st; loadingCourses := loadingCourses st;
     darkMode := darkMode st; searchQuery := searchQuery st;
     searchResults := searchResults st; courses := courses st |}.

Definition setLoadingTimetable (v : bool) (st : AppState) : AppState :=
  {| currentPage := currentPage st; selectedGroup := selectedGroup st;
     timetableData := timetableData st; todayClasses := todayClasses st;
     loading := loading st; loadingToday := loadingToday st;
     loadingTimetable := v; loadingCourses := loadingCourses st;
     darkMode := darkMode st; searchQuery := searchQuery st;
     searchResults := searchResults st; courses := courses st |}.

Definition setLoadingCourses (v : bool) (st : AppState) : AppState :=
  {| currentPage := currentPage st; selectedGroup := selectedGroup st;
     timetableData := timetableData st; todayClasses := todayClasses st;
     loading := loading st; loadingToday := loadingToday st;
     loadingTimetable := loadingTimetable st; loadingCourses := v;
     darkMode := darkMode st; searchQuery := searchQuery st;
     searchResults := searchResults st; courses := courses st |}.

Definition setSearchQuery (v : string) (st : AppState) : AppState :=
  {| currentPage := currentPage st; selectedGroup := selectedGroup st;
     timetableData := timetableData st; todayClasses := todayClasses st;
     loading := loading st; loadingToday := loadingToday st;
     loadingTimetable := loadingTimetable st; loadingCourses := loadingCourses st;
     darkMode := darkMode st; searchQuery := v;
     searchResults := searchResults st; courses := courses st |}.

Definition setSearchResults (v : list JsVal) (st : AppState) : AppState :=
  {| currentPage := currentPage st; selectedGroup := selectedGroup st;
     timetableData := timetableData st; todayClasses := todayClasses st;
     loading := loading st; loadingToday := loadingToday st;
     loadingTimetable := loadingTimetable st; loadingCourses := loadingCourses st;
     darkMode := darkMode st; searchQuery := searchQuery st;
     searchResults := v; courses := courses st |}.

Definition setCourses (v : JsVal) (st : AppState) : AppState :=
  {| currentPage := currentPage st; selectedGroup := selectedGroup st;
     timetableData := timetableData st; todayClasses := todayClasses st;
     loading := loading st; loadingToday := loadingToday st;
     loadingTimetable := loadingTimetable st; loadingCourses := loadingCourses st;
     darkMode := darkMode st; searchQuery := searchQuery st;
     searchResults := searchResults st; courses := v |}.

(** The [useState] initial values of [App]; [stored] is what
    [localStorage.getItem("selectedGroup") || null] evaluates to. *)
Definition initialState (stored : option string) (dark : bool) : AppState :=
  {| currentPage := "home";
     selectedGroup := if truthy_group stored then stored else None;
     timetableData := VNull; todayClasses := [];
     loading := false; loadingToday := false;
     loadingTimetable := false; loadingCourses := false;
     darkMode := dark; searchQuery := ""; searchResults := [];
     courses := VArr [] |}.

(** The derivations as the fetchers run them, on any parsed document. *)

(** Lines 698-700 on the parsed [groupData]. *)
Definition todaysClasses_js (groupData : JsVal) (currentDay : string)
  : Res (list JsVal) :=
  es <- get groupData "entries" ;;
  js_filter es (fun entry =>
    d <- get entry "day" ;;
    lowered <- js_toLowerCase d ;;
    Ok (String.eqb lowered (toLowerCase currentDay))).

(** Lines 764-769: the array literal evaluates all four fields. *)
Definition searchFields_js (entry : JsVal) : Res (list string) :=
  c1 <- get entry "course" ;;
  n <- get c1 "course_name" ;;
  f1 <- js_toLowerCase n ;;
  c2 <- get entry "course" ;;
  i <- get c2 "instructor" ;;
  f2 <- js_toLowerCase i ;;
  r <- get entry "room" ;;
  f3 <- js_toLowerCase r ;;
  c3 <- get entry "course" ;;
  k <- get c3 "course_code" ;;
  f4 <- js_toLowerCase k ;;
  Ok [f1; f2; f3; f4].

(** Line 758: the group is read only when a group is selected. *)
Definition skips_group_js (selectedGroup : option string) (groupData : JsVal)
  : Res bool :=
  match selectedGroup with
  | Some g =>
      if truthy_string g
      then grp <- get groupData "group" ;;
           lowered <- js_toLowerCase grp ;;
           Ok (negb (String.eqb lowered (toLowerCase g)))
      else Ok false
  | None => Ok false
  end.

(** Lines 762-777, one entry of the inner loop. *)
Definition search_entry_js (query : string) (groupData : JsVal)
  (results : list JsVal) (entry : JsVal) : Res (list JsVal) :=
  fields <- searchFields_js entry ;;
  if existsb (fun field => includes field query) fields
  then grp <- get groupData "group" ;;
       Ok (results ++ [VObj [("group", grp); ("entry", entry)]])%list
  else Ok results.

(** Lines 757-778, one dataset of the outer loop. *)
Definition search_group_js (query : string) (selectedGroup : option string)
  (results : list JsVal) (groupData : JsVal) : Res (list JsVal) :=
  skip <- skips_group_js selectedGroup groupData ;;
  if skip then Ok results
  else es <- get groupData "entries" ;;
       items <- iterate es ;;
       for_of (search_entry_js query groupData) results items.

(** Lines 753-778 on the parsed [data]. *)
Definition search_js (timetable : JsVal) (searchQuery : string)
  (selectedGroup : option string) : Res (list JsVal) :=
  let query := toLowerCase searchQuery in
  groups <- get timetable "data" ;;
  items <- iterate groups ;;
  for_of (search_group_js query selectedGroup) [] items.

(** Line 235-237 of [TimetablePage], on the stored [timetableData]:
    [entry.day === day] holds for the string [day] itself only. *)
Definition dayClasses_js (timetableData : JsVal) (day_name : string)
  : Res (list JsVal) :=
  es <- get timetableData "entries" ;;
  js_filter es (fun entry =>
    d <- get entry "day" ;;
    Ok (match d with VStr s => String.eqb s day_name | _ => false end)).

(** What [TimetablePage] shows once loading is over: the cards when
    [timetableData] is truthy, the failure notice otherwise. *)
Inductive TimetableView : Type :=
| TimetableLoading
| TimetableCards (cards : list (string * list JsVal))
| TimetableFailed.

Fixpoint day_cards_js (timetableData : JsVal) (ds : list string)
  : Res (list (string * list JsVal)) :=
  match ds with
  | [] => Ok []
  | d :: rest =>
      classes <- dayClasses_js timetableData d ;;
      cards <- day_cards_js timetableData rest ;;
      Ok ((d, classes) :: cards)
  end.

(** The filtering step of rendering [TimetablePage], lines 224-303. *)
Definition renderTimetableFilter (st : AppState) : Res TimetableView :=
  if loadingTimetable st then Ok TimetableLoading
  else if truthy (timetableData st)
       then cards <- day_cards_js (timetableData st) days ;;
            Ok (TimetableCards cards)
       else Ok TimetableFailed.

Section Fetchers.
Variable DATA_BASE_URL : string.

Definition group_url (g : string) : string :=
  DATA_BASE_URL ++ "/group_" ++ toLowerCase g ++ ".json".

Definition timetable_url : string := DATA_BASE_URL ++ "/timetable.json".
Definition courses_url : string := DATA_BASE_URL ++ "/courses.json".

(** [fetchTodayClasses], lines 689-708.  The filter returns an array, so
    [todayClasses || []] is that array. *)
Definition fetchTodayClasses (net : Network) (currentDay : string)
  (st : AppState) : Res AppState :=
  match selectedGroup st with
  | Some g =>
      if truthy_string g then
        let st1 := setLoadingToday true st in
        st2 <- try_catch
                 (groupData <- fetch_json net (group_url g) ;;
                  found <- todaysClasses_js groupData currentDay ;;
                  Ok (setTodayClasses found st1))
                 (fun _ => Ok (setTodayClasses [] st1)) ;;
        Ok (setLoadingToday false st2)
      else Ok st
  | None => Ok st
  end.

(** [fetchTimetableData], lines 711-724. *)
Definition fetchTimetableData (net : Network) (st : AppState) : Res AppState :=
  match selectedGroup st with
  | Some g =>
      if truthy_string g then
        let st1 := setLoadingTimetable true st in
        st2 <- try_catch
                 (doc <- fetch_json net (group_url g) ;;
                  Ok (setTimetableData doc st1))
                 (fun _ => Ok (setTimetableData VNull st1)) ;;
        Ok (setLoadingTimetable false st2)
      else Ok st
  | None => Ok st
  end.

(** [fetchCourses], lines 727-738. *)
Definition fetchCourses (net : Network) (st : AppState) : Res AppState :=
  let st1 := setLoadingCourses true st in
  st2 <- try_catch
           (doc <- fetch_json net courses_url ;;
            cs <- get doc "courses" ;;
            Ok (setCourses (js_or cs (VArr [])) st1))
           (fun _ => Ok (setCourses (VArr []) st1)) ;;
  Ok (setLoadingCourses false st2).

(** What one call of [handleSearch] closed over: the [searchQuery] and the
    [selectedGroup] of the render that created it. *)
Record SearchCall : Type := {
  call_query : string;
  call_group : option string
}.

(** [handleSearch] from [setLoading(true)] on, lines 747-785: it runs once
    the fetch has settled, on the state of that moment. *)
Definition handleSearch_settle (call : SearchCall) (outcome : FetchOutcome)
  (st : AppState) : Res AppState :=
  st1 <- try_catch
           (doc <- fetch_json (fun _ => outcome) timetable_url ;;
            results <- search_js doc (call_query call) (call_group call) ;;
            Ok (setSearchResults results st))
           (fun _ => Ok (setSearchResults [] st)) ;;
  Ok (setLoading false st1).

(** [handleSearch], lines 741-786, run without interruption. *)
Definition handleSearch (net : Network) (st : AppState) : Res AppState :=
  if blank (searchQuery st) then Ok (setSearchResults [] st)
  else handleSearch_settle
         {| call_query := searchQuery st; call_group := selectedGroup st |}
         (net timetable_url) (setLoading true st).

End Fetchers.

(** ** The search page and the debounced search effect *)

(** The branch of [SearchPage] below the input, lines 409-457. *)
Inductive SearchView : Type :=
| Searching
| ShowResults (results : list JsVal)
| NoResultsFor (query : string)      (* No results found for "query" *)
| StartTyping.                       (* Start typing to search for classes... *)

Definition searchPageView (st : AppState) : SearchView :=
  if loading st then Searching
  else if (0 <? List.length (searchResults st))%nat
       then ShowResults (searchResults st)
       else if truthy_string (searchQuery st) then NoResultsFor (searchQuery st)
            else StartTyping.

(** The component together with what the browser holds for it: the pending
    debounce timer (with the closure of its callback) and the searches whose
    fetch has not settled yet, oldest first. *)
Record World : Type := {
  app : AppState;
  timer : option SearchCall;
  inflight : list SearchCall
}.

Definition with_app (f : AppState -> AppState) (w : World) : World :=
  {| app := f (app w); timer := timer w; inflight := inflight w |}.

(** The search effect, lines 669-686, run because [searchQuery] or
    [currentPage] changed: first the cleanup of its previous run
    ([clearTimeout]), then its body. *)
Definition searchEffect (w : World) : World :=
  if negb (String.eqb (currentPage (app w)) "search")
  then {| app := setSearchResults [] (app w);
          timer := None;
          inflight := inflight w |}
  else {| app := app w;
          timer := Some {| call_query := searchQuery (app w);
                           call_group := selectedGroup (app w) |};
          inflight := inflight w |}.

(** The group effect, lines 653-660, run because [selectedGroup] changed. *)
Definition groupEffect (st : AppState) : AppState :=
  if truthy_group (selectedGroup st) then setCurrentPage "home" st
  else setCurrentPage "groupSelect" st.

Definition option_string_eqb (a b : option string) : bool :=
  match a, b with
  | Some x, Some y => String.eqb x y
  | None, None => true
  | _, _ => false
  end.

(** Effects run after a render, each when one of its dependencies differs
    from the render [before]: the group effect on [selectedGroup], then
    the search effect on [searchQuery] and [currentPage], the page that the
    group effect set included. *)
Definition commit (before : AppState) (w : World) : World :=
  let w1 :=
    if option_string_eqb (selectedGroup before) (selectedGroup (app w))
    then w else with_app groupEffect w in
  if String.eqb (searchQuery before) (searchQuery (app w1))
     && String.eqb (currentPage before) (currentPage (app w1))
  then w1 else searchEffect w1.

(** The first render: both effects run. *)
Definition mount (stored : option string) (dark : bool) : World :=
  searchEffect
    {| app := groupEffect (initialState stored dark);
       timer := None; inflight := [] |}.

Inductive Event : Type :=
| TypeQuery (q : string)        (* the search input changes *)
| Navigate (page : string)      (* a button of the navigation bar *)
| SwitchGroup                   (* the header's Switch button *)
| SelectGroup (g : string)      (* a button of the group selection page *)
| TimerFires                    (* 300 ms after the timer was set *)
| FetchSettles (n : nat) (outcome : FetchOutcome).
                                (* the fetch of the n-th search in flight *)

Definition nav_ids : list string :=
  ["home"; "timetable"; "courses"; "search"; "admin"].

Fixpoint remove_nth {A : Type} (n : nat) (l : list A) : list A :=
  match n, l with
  | _, [] => []
  | O, _ :: r => r
  | S m, x :: r => x :: remove_nth m r
  end.

Section SearchEffect.
Variable DATA_BASE_URL : string.

(** One event handled to completion, effects included.  An event whose
    control is not on the page leaves the world as it is. *)
Definition step (w : World) (ev : Event) : World :=
  let st := app w in
  let on_group_select := String.eqb (currentPage st) "groupSelect" in
  match ev with
  | TypeQuery q =>
      if String.eqb (currentPage st) "search"
      then commit st (with_app (setSearchQuery q) w)
      else w
  | Navigate page =>
      if negb on_group_select && existsb (String.eqb page) nav_ids
      then commit st (with_app (setCurrentPage page) w)
      else w
  | SwitchGroup =>
      if negb on_group_select && truthy_group (selectedGroup st)
      then commit st
             (with_app (fun s => setCurrentPage "groupSelect"
                                   (setSelectedGroup None s)) w)
      else w
  | SelectGroup g =>
      if on_group_select
      then commit st (with_app (setSelectedGroup (Some g)) w)
      else w
  | TimerFires =>
      match timer w with
      | None => w
      | Some call =>
          if negb (blank (call_query call))
          then {| app := setLoading true st;
                  timer := None;
                  inflight := (inflight w ++ [call])%list |}
          else {| app := setSearchResults [] st;
                  timer := None;
                  inflight := inflight w |}
      end
  | FetchSettles n outcome =>
      match nth_error (inflight w) n with
      | None => w
      | Some call =>
          {| app := match handleSearch_settle DATA_BASE_URL call outcome st with
                    | Ok st' => st'
                    | Throw _ => st
                    end;
             timer := timer w;
             inflight := remove_nth n (inflight w) |}
      end
  end.

Definition run (evs : list Event) (w : World) : World := fold_left step evs w.

End SearchEffect.

(** The event does not open the search page. *)
Definition stays_away (ev : Event) : bool :=
  match ev with
  | Navigate page => negb (String.eqb page "search")
  | _ => true
  end.

(** The search view has been left and nothing of a search remains: no
    timer, no search in flight, no results. *)
Definition search_at_rest (w : World) : Prop :=
  currentPage (app w) <> "search"
  /\ timer w = None
  /\ inflight w = []
  /\ searchResults (app w) = [].

(** ** Reference instances and sample data *)

(** Arithmetic without rounding on the finite values, NaN elsewhere, and a
    [Number] that reads runs of digits: one implementation of the interface. *)
Definition Number_digits (s : string) : JsNum :=
  if is_decimal s then of_Z (decimal_value s)
  else if truthy_string s then NaN else of_Z 0.

Definition mul_exact (a b : JsNum) : JsNum :=
  match a, b with
  | Fin x, Fin y => Fin (x * y)
  | _, _ => NaN
  end.

Definition add_exact (a b : JsNum) : JsNum :=
  match a, b with
  | Fin x, Fin y => Fin (x + y)
  | _, _ => NaN
  end.

Definition compare_units (a b : string) : Z :=
  match String.compare a b with
  | Lt => -1
  | Eq => 0
  | Gt => 1
  end.

Module Samples.

Definition algorithms : CourseRef :=
  {| course_name := "Algorithms"; course_code := "CS201";
     instructor := "Dr. Rao"; credits := 4 |}.

Definition networks : CourseRef :=
  {| course_name := "Computer Networks"; course_code := "CS305";
     instructor := "Prof. Iyer"; credits := 3 |}.

Definition slot (s e : string) (d : Z) : TimeSlot :=
  {| start_time := s; end_time := e; duration_minutes := d |}.

Definition mon_0900 : ScheduleEntry :=
  {| day := "Monday"; time_slot := slot "09:00" "10:30" 90;
     room := "Room 204"; entry_type := "Lecture"; course := algorithms |}.

Definition mon_1100 : ScheduleEntry :=
  {| day := "Monday"; time_slot := slot "11:00" "12:00" 60;
     room := "Room 205"; entry_type := "Lecture"; course := networks |}.

Definition mon_1400 : ScheduleEntry :=
  {| day := "Monday"; time_slot := slot "14:00" "15:00" 60;
     room := "Room 205"; entry_type := "Lab"; course := networks |}.

Definition tue_1100 : ScheduleEntry :=
  {| day := "Tuesday"; time_slot := slot "11:00" "12:00" 60;
     room := "Lab 1"; entry_type := "Lab"; course := algorithms |}.

Definition lower_monday : ScheduleEntry :=
  {| day := "monday"; time_slot := slot "16:00" "17:00" 60;
     room := "Room 101"; entry_type := "Tutorial"; course := algorithms |}.

Definition sat_1000 : ScheduleEntry :=
  {| day := "Saturday"; time_slot := slot "10:00" "11:00" 60;
     room := "Hall"; entry_type := "Seminar"; course := networks |}.

Definition group_a : GroupDataset :=
  {| group := "A";
     entries := [mon_1400; tue_1100; mon_0900; lower_monday; sat_1000] |}.

Definition group_b : GroupDataset :=
  {| group := "B"; entries := [mon_1100; mon_0900] |}.

Definition timetable : AggregateDataset := {| data := [group_a; group_b] |}.

(** Every file is served, with the document of its dataset. *)
Definition served (url : string) : FetchOutcome :=
  if String.eqb url "/data/timetable.json"
  then Responded (Some (json_of_aggregate timetable))
  else if String.eqb url "/data/group_b.json"
       then Responded (Some (json_of_group group_b))
       else Responded (Some (json_of_group group_a)).

Definition in_group_a : AppState :=
  setCurrentPage "home" (initialState (Some "A") false).

End Samples.

(** ** Failures at the fetch boundary *)

(** The request failed: [fetch] rejected, or the body is not JSON. *)
Definition failed (outcome : FetchOutcome) : Prop :=
  outcome = NetworkFailure \/ outcome = Responded None.

(** The parsed document does not hold the dataset [field]: it is [null], or
    an object without that property. *)
Definition lacks (field : string) (doc : JsVal) : Prop :=
  doc = VNull
  \/ exists fields, doc = VObj fields /\ own_property field fields = VUndefined.

(** ** Selections, in the words of the specification *)

(** [kept] holds exactly the elements of [l] that satisfy [P], each as often
    as it occurs in [l] and in the order of [l]. *)
Inductive keeps {A : Type} (P : A -> Prop) : list A -> list A -> Prop :=
| keeps_nil : keeps P [] []
| keeps_take x l kept : P x -> keeps P l kept -> keeps P (x :: l) (x :: kept)
| keeps_drop x l kept : ~ P x -> keeps P l kept -> keeps P (x :: l) kept.

(** The search results over the datasets [gs]: dataset by dataset, a dataset
    that is not selected contributes nothing, a selected one contributes its
    matching entries, in its order, each tagged with its group. *)
Inductive collects (searchQuery : string) (selectedGroup : option string)
  : list GroupDataset -> list SearchResult -> Prop :=
| collects_nil : collects searchQuery selectedGroup [] []
| collects_skip g gs rs :
    ~ group_selected selectedGroup g ->
    collects searchQuery selectedGroup gs rs ->
    collects searchQuery selectedGroup (g :: gs) rs
| collects_keep g gs es rs :
    group_selected selectedGroup g ->
    keeps (query_matches searchQuery) (entries g) es ->
    collects searchQuery selectedGroup gs rs ->
    collects searchQuery selectedGroup (g :: gs) (map (tag g) es ++ rs)%list.

(** ** Further parts of [App.js] *)

(** [searchFields.some(field => field.includes(query))], line 771, for the
    query as typed. *)
Definition entry_matches (searchQuery : string) (entry : ScheduleEntry) : bool :=
  existsb (fun field => includes field (toLowerCase searchQuery))
          (searchFields entry).

(** The result was found in a dataset of group [g], up to letter case. *)
Definition result_in_group (g : string) (r : SearchResult) : bool :=
  String.eqb (toLowerCase (result_group r)) (toLowerCase g).

(** Two group filters that select the same datasets: both unset (or
    falsy), or both set to names equal up to letter case. *)
Definition same_filter (a b : option string) : Prop :=
  match a, b with
  | Some x, Some y => eq_nocase x y
  | None, None => True
  | _, _ => False
  end.

(** The entry's [day] is one of the five names of [days], letter for
    letter. *)
Definition on_weekday (e : ScheduleEntry) : bool :=
  existsb (String.eqb (day e)) days.

(** The entry starts at [t]. *)
Definition starts_at (t : string) (e : ScheduleEntry) : bool :=
  String.eqb (start_time (time_slot e)) t.

Definition start_of (e : ScheduleEntry) : string := start_time (time_slot e).

(** The end of a class in minutes since midnight, for an end time in the
    ["HH:MM"] format, and classes one after the other without overlap. *)
Definition has_hhmm_times (e : ScheduleEntry) : Prop :=
  is_hhmm (start_time (time_slot e)) = true
  /\ is_hhmm (end_time (time_slot e)) = true.

Definition end_minutes (e : ScheduleEntry) : Z :=
  hhmm_minutes (end_time (time_slot e)).

Definition ends_before (a b : ScheduleEntry) : Prop :=
  end_minutes a < start_minutes b.

Section HomePage.
Context {numerics : JsNumerics}.

(** The [isCurrent] flag of every row of today's classes, [HomePage] lines
    143-147: the row is highlighted and carries the Live badge. *)
Definition liveFlags (now : Clock) (todayClasses : list ScheduleEntry)
  : list bool :=
  map (fun classItem =>
         isCurrentClass now (start_time (time_slot classItem))
                            (end_time (time_slot classItem)))
      todayClasses.

End HomePage.

(** What [App] renders, lines 804-883: the group selection page alone
    when [currentPage] is ["groupSelect"], otherwise the header, the page
    that [renderPage] picks (the home page for an unknown name) and the
    navigation bar. *)
Inductive PageShown : Type :=
| GroupSelectShown
| HomeShown
| TimetableShown
| CoursesShown
| SearchShown
| AdminShown.

Definition renderPage (st : AppState) : PageShown :=
  let page := currentPage st in
  if String.eqb page "groupSelect" then GroupSelectShown
  else if String.eqb page "home" then HomeShown
  else if String.eqb page "timetable" then TimetableShown
  else if String.eqb page "courses" then CoursesShown
  else if String.eqb page "search" then SearchShown
  else if String.eqb page "admin" then AdminShown
  else HomeShown.


(** The names [currentPage] takes. *)
Definition pages : list string :=
  ["groupSelect"; "home"; "timetable"; "courses"; "search"; "admin"].

(** What holds of the component and its pending work after any sequence
    of events. *)
Definition world_invariant (w : World) : Prop :=
  In (currentPage (app w)) pages
  /\ (currentPage (app w) = "groupSelect"
      <-> truthy_group (selectedGroup (app w)) = false)
  /\ (forall c, timer w = Some c ->
                currentPage (app w) = "search"
                /\ c = {| call_query := searchQuery (app w);
                          call_group := selectedGroup (app w) |})
  /\ (loading (app w) = true -> inflight w <> [])
  /\ Forall (fun c => blank (call_query c) = false) (inflight w).

(** ** [localStorage] and the theme *)

(** The two items the program keeps in [localStorage]; [None] is the
    [null] that [getItem] returns for an item that is not there. *)
Record Storage : Type := {
  item_selectedGroup : option string;
  item_darkMode : option string
}.

Definition setItem_selectedGroup (v : string) (s : Storage) : Storage :=
  {| item_selectedGroup := Some v; item_darkMode := item_darkMode s |}.

Definition removeItem_selectedGroup (s : Storage) : Storage :=
  {| item_selectedGroup := None; item_darkMode := item_darkMode s |}.

Definition setItem_darkMode (v : string) (s : Storage) : Storage :=
  {| item_selectedGroup := item_selectedGroup s; item_darkMode := Some v |}.

(** [setItem] stores the string of its argument: ["true"] or ["false"]. *)
Definition string_of_bool (b : bool) : string := if b then "true" else "false".

(** [localStorage.getItem("darkMode") === "true"], line 646. *)
Definition stored_darkMode (s : Storage) : bool :=
  match item_darkMode s with
  | Some v => String.eqb v "true"
  | None => false
  end.

Definition setDarkMode (v : bool) (st : AppState) : AppState :=
  {| currentPage := currentPage st; selectedGroup := selectedGroup st;
     timetableData := timetableData st; todayClasses := todayClasses st;
     loading := loading st; loadingToday := loadingToday st;
     loadingTimetable := loadingTimetable st; loadingCourses := loadingCourses st;
     darkMode := v; searchQuery := searchQuery st;
     searchResults := searchResults st; courses := courses st |}.

(** What the group effect writes, lines 654-657. *)
Definition groupEffect_storage (st : AppState) (s : Storage) : Storage :=
  match selectedGroup st with
  | Some g => if truthy_string g then setItem_selectedGroup g s else s
  | None => s
  end.

(** What the dark mode effect writes, line 665. *)
Definition darkEffect_storage (st : AppState) (s : Storage) : Storage :=
  setItem_darkMode (string_of_bool (darkMode st)) s.

(** The writes of the effects that run after a render, each when its
    dependency differs from the render [before]. *)
Definition commit_storage (before after : AppState) (s : Storage) : Storage :=
  let s1 :=
    if option_string_eqb (selectedGroup before) (selectedGroup after)
    then s else groupEffect_storage after s in
  if Bool.eqb (darkMode before) (darkMode after)
  then s1 else darkEffect_storage after s1.

(** The page in its browser: the component with its pending work, and the
    storage, which outlives the page. *)
Record Browser : Type := {
  world : World;
  storage : Storage
}.

(** Loading the page: the first render reads the storage, lines 636-647,
    and both storing effects run. *)
Definition boot (s : Storage) : Browser :=
  let w := mount (item_selectedGroup s) (stored_darkMode s) in
  {| world := w;
     storage := darkEffect_storage (app w) (groupEffect_storage (app w) s) |}.

Inductive BrowserEvent : Type :=
| AppEvent (ev : Event)
| ToggleDarkMode                (* the header's theme button, line 613 *)
| Reload.                       (* the page is loaded again *)

Section Persistence.
Variable DATA_BASE_URL : string.

Definition browser_step (b : Browser) (ev : BrowserEvent) : Browser :=
  let w := world b in
  let st := app w in
  let on_group_select := String.eqb (currentPage st) "groupSelect" in
  match ev with
  | AppEvent ev =>
      let s0 :=
        match ev with
        | SwitchGroup =>
            if negb on_group_select && truthy_group (selectedGroup st)
            then removeItem_selectedGroup (storage b)       (* line 869 *)
            else storage b
        | _ => storage b
        end in
      let w' := step DATA_BASE_URL w ev in
      {| world := w'; storage := commit_storage st (app w') s0 |}
  | ToggleDarkMode =>
      if on_group_select then b
      else
        let w' := commit st (with_app (setDarkMode (negb (darkMode st))) w) in
        {| world := w'; storage := commit_storage st (app w') (storage b) |}
  | Reload => boot (storage b)
  end.

Definition browser_run (evs : list BrowserEvent) (b : Browser) : Browser :=
  fold_left browser_step evs b.

End Persistence.

(** [stored || null], line 637: a falsy item counts as no group. *)
Definition or_null (stored : option string) : option string :=
  if truthy_group stored then stored else None.

(** The storage holds what the component shows. *)
Definition browser_invariant (b : Browser) : Prop :=
  world_invariant (world b)
  /\ or_null (item_selectedGroup (storage b))
     = or_null (selectedGroup (app (world b)))
  /\ item_darkMode (storage b)
     = Some (string_of_bool (darkMode (app (world b)))).

(** * Properties *)

(** ** Strings *)

Lemma is_upper_spec (c : ascii) :
  is_upper c = true <->
  ((65 <= N_of_ascii c <= 90) \/
   (192 <= N_of_ascii c <= 222 /\ N_of_ascii c <> 215))%N.
Proof.
  unfold is_upper; cbv zeta.
  rewrite orb_true_iff, !andb_true_iff, negb_true_iff, !N.leb_le, N.eqb_neq.
  tauto.
Qed.

Lemma lower_char_upper (c : ascii) :
  is_upper c = true ->
  N_of_ascii (lower_char c) = (N_of_ascii c + 32)%N
  /\ is_upper (lower_char c) = false.
Proof.
  intros Hu. unfold lower_char. rewrite Hu.
  apply is_upper_spec in Hu.
  assert (Hn : N_of_ascii (ascii_of_N (N_of_ascii c + 32)) = (N_of_ascii c + 32)%N)
    by (apply N_ascii_embedding; lia).
  split; [exact Hn|].
  destruct (is_upper (ascii_of_N (N_of_ascii c + 32))) eqn:E; [|reflexivity].
  apply is_upper_spec in E. rewrite Hn in E. lia.
Qed.

Lemma N_of_ascii_inj (a b : ascii) : N_of_ascii a = N_of_ascii b -> a = b.
Proof.
  intros H. rewrite <- (ascii_N_embedding a), <- (ascii_N_embedding b).
  now rewrite H.
Qed.

Lemma same_letter_lower (a b : ascii) :
  same_letter a b <-> lower_char a = lower_char b.
Proof.
  split.
  - intros [-> | [[Hu Hb] | [Hu Ha]]]; [reflexivity| |].
    + destruct (lower_char_upper a Hu) as [Hn _].
      assert (b = lower_char a) by (apply N_of_ascii_inj; congruence).
      subst b. destruct (lower_char_upper a Hu) as [_ Hl].
      unfold lower_char at 2. now rewrite Hl.
    + destruct (lower_char_upper b Hu) as [Hn _].
      assert (a = lower_char b) by (apply N_of_ascii_inj; congruence).
      subst a. destruct (lower_char_upper b Hu) as [_ Hl].
      unfold lower_char at 1. now rewrite Hl.
  - intros H. unfold same_letter.
    destruct (is_upper a) eqn:Ea, (is_upper b) eqn:Eb.
    + left. apply N_of_ascii_inj.
      destruct (lower_char_upper a Ea) as [Ha _].
      destruct (lower_char_upper b Eb) as [Hb _].
      rewrite H in Ha. lia.
    + right; left. split; [reflexivity|].
      destruct (lower_char_upper a Ea) as [Ha _].
      rewrite H in Ha. unfold lower_char in Ha. now rewrite Eb in Ha.
    + right; right. split; [reflexivity|].
      destruct (lower_char_upper b Eb) as [Hb _].
      rewrite <- H in Hb. unfold lower_char in Hb. now rewrite Ea in Hb.
    + left. unfold lower_char in H. now rewrite Ea, Eb in H.
Qed.

Lemma eq_nocase_lower (s t : string) :
  eq_nocase s t <-> toLowerCase s = toLowerCase t.
Proof.
  split.
  - induction 1 as [|a b s t Hab _ IH]; simpl; [reflexivity|].
    apply same_letter_lower in Hab. congruence.
  - revert t. induction s as [|a s IH]; intros [|b t] H; simpl in H;
      try discriminate; [constructor|].
    injection H as Hc Hr. constructor; [now apply same_letter_lower | now apply IH].
Qed.

Lemma eqb_lower_nocase (s t : string) :
  String.eqb (toLowerCase s) (toLowerCase t) = true <-> eq_nocase s t.
Proof. rewrite String.eqb_eq. symmetry. apply eq_nocase_lower. Qed.

Lemma prefix_app (q s : string) :
  prefix q s = true <-> exists post, s = q ++ post.
Proof.
  revert s. induction q as [|a q IH]; intros s; simpl.
  - split; [intros _; now exists s | intros _; now destruct s].
  - destruct s as [|b s]; simpl.
    + split; [discriminate | intros [post H]; discriminate].
    + destruct (ascii_dec a b) as [->|Hne].
      * rewrite IH. split; intros [post H]; exists post; congruence.
      * split; [discriminate | intros [post H]; congruence].
Qed.

Lemma includes_substring (s q : string) :
  includes s q = true <-> substring_of q s.
Proof.
  unfold substring_of. induction s as [|c s IH].
  - cbn [includes]. rewrite orb_false_r, prefix_app. split.
    + intros [post H]. now exists EmptyString, post.
    + intros [[|a pre] [post H]]; [now exists post | discriminate].
  - cbn [includes]. rewrite orb_true_iff, IH, prefix_app. split.
    + intros [[post H] | [pre [post H]]].
      * now exists EmptyString, post.
      * exists (String c pre), post. simpl. now rewrite H.
    + intros [[|a pre] [post H]].
      * left. now exists post.
      * right. simpl in H. injection H as _ H. now exists pre, post.
Qed.

(** ** The reference instances satisfy the interfaces *)

Lemma Number_digits_decimal (s : string) :
  is_decimal s = true -> (String.length s <= 15)%nat ->
  Number_digits s = of_Z (decimal_value s).
Proof. intros H _. unfold Number_digits. now rewrite H. Qed.

Lemma all_digits_numeric (s : string) :
  all_digits s = true -> all_numeric_chars s = true.
Proof.
  induction s as [|c s IH]; cbn [all_digits all_numeric_chars]; [easy|].
  rewrite andb_true_iff. intros [Hc Hs].
  unfold numeric_char. now rewrite Hc, IH.
Qed.

Lemma Number_digits_foreign (s : string) :
  all_numeric_chars s = false -> Number_digits s = NaN.
Proof.
  intros H. unfold Number_digits, is_decimal.
  destruct s as [|c s]; [discriminate|]. cbn [truthy_string andb].
  destruct (all_digits (String c s)) eqn:E; [|reflexivity].
  apply all_digits_numeric in E. congruence.
Qed.

Lemma mul_exact_Z (a b : Z) :
  Z.abs a <= 2 ^ 26 -> Z.abs b <= 2 ^ 26 ->
  mul_exact (of_Z a) (of_Z b) = of_Z (a * b).
Proof. reflexivity. Qed.

Lemma add_exact_Z (a b : Z) :
  Z.abs a <= 2 ^ 52 -> Z.abs b <= 2 ^ 52 ->
  add_exact (of_Z a) (of_Z b) = of_Z (a + b).
Proof.
  intros _ _. unfold add_exact, of_Z. f_equal.
  unfold Qplus, inject_Z; cbn [Qnum Qden].
  now rewrite !Z.mul_1_r.
Qed.

Lemma add_exact_NaN_r (x : JsNum) : add_exact x NaN = NaN.
Proof. now destruct x. Qed.

#[export] Instance exact_numerics : JsNumerics := {|
  Number := Number_digits;
  js_mul := mul_exact;
  js_add := add_exact;
  Number_decimal := Number_digits_decimal;
  Number_empty := eq_refl;
  Number_foreign := Number_digits_foreign;
  js_mul_NaN_l := fun _ => eq_refl;
  js_add_NaN_l := fun _ => eq_refl;
  js_add_NaN_r := add_exact_NaN_r;
  js_mul_exact := mul_exact_Z;
  js_add_exact := add_exact_Z
|}.

Lemma compare_units_hhmm (a b : string) :
  is_hhmm a = true -> is_hhmm b = true ->
  (compare_units a b ?= 0) = String.compare a b.
Proof. intros _ _. unfold compare_units. now destruct (String.compare a b). Qed.

#[export] Instance unit_collation : Collation := {|
  localeCompare := compare_units;
  localeCompare_hhmm := compare_units_hhmm
|}.

(** ** Selections *)

Lemma filter_keeps {A : Type} (P : A -> Prop) (f : A -> bool) (l : list A) :
  (forall x, f x = true <-> P x) -> keeps P l (filter f l).
Proof.
  intros Hf. induction l as [|x l IH]; simpl; [constructor|].
  destruct (f x) eqn:E.
  - apply keeps_take; [now apply Hf | exact IH].
  - apply keeps_drop; [|exact IH]. intros HP. apply Hf in HP. congruence.
Qed.

Lemma keeps_functional {A : Type} (P : A -> Prop) (l k1 k2 : list A) :
  keeps P l k1 -> keeps P l k2 -> k1 = k2.
Proof.
  intros H1. revert k2.
  induction H1 as [|x l k Hx _ IH|x l k Hx _ IH]; intros k2 H2;
    inversion H2; subst; try contradiction; [reflexivity| |now apply IH].
  f_equal. now apply IH.
Qed.

Lemma keeps_In {A : Type} (P : A -> Prop) (l kept : list A) :
  keeps P l kept -> forall x, In x kept <-> In x l /\ P x.
Proof.
  induction 1 as [|y l k Hy _ IH|y l k Hy _ IH]; intros x; simpl.
  - tauto.
  - rewrite IH. split.
    + intros [->|[H1 H2]]; auto.
    + intros [[->|H1] H2]; auto.
  - rewrite IH. split.
    + intros [H1 H2]; auto.
    + intros [[->|H1] H2]; [contradiction | auto].
Qed.

(** ** Today's classes *)

Lemma todaysClasses_keeps (G : GroupDataset) (d : string) :
  keeps (fun e => eq_nocase (day e) d) (entries G) (todaysClasses G d).
Proof.
  unfold todaysClasses. apply filter_keeps.
  intros e. apply eqb_lower_nocase.
Qed.

Lemma filterM_today (d : string) (es : list ScheduleEntry) :
  filterM (fun entry =>
             v <- get entry "day" ;;
             lowered <- js_toLowerCase v ;;
             Ok (String.eqb lowered (toLowerCase d)))
          (map json_of_entry es)
  = Ok (map json_of_entry
          (filter (fun e => String.eqb (toLowerCase (day e)) (toLowerCase d)) es)).
Proof.
  induction es as [|e es IH]; [reflexivity|].
  cbn [map filterM]. rewrite IH. cbn.
  now destruct (String.eqb (toLowerCase (day e)) (toLowerCase d)).
Qed.

(** On the document of a dataset the fetcher's filter is [todaysClasses]. *)
Lemma todaysClasses_js_typed (G : GroupDataset) (d : string) :
  todaysClasses_js (json_of_group G) d
  = Ok (map json_of_entry (todaysClasses G d)).
Proof. unfold todaysClasses_js. cbn. apply filterM_today. Qed.

Lemma filter_idem {A : Type} (f : A -> bool) (l : list A) :
  filter f (filter f l) = filter f l.
Proof.
  induction l as [|x l IH]; simpl; [reflexivity|].
  destruct (f x) eqn:E; simpl; rewrite ?E, IH; reflexivity.
Qed.

(** C1.  For a dataset [G] and a weekday name [d], [todaysClasses] holds
    exactly the entries of [G] whose day equals [d] up to letter case, in the
    order of [G]; applying it again, to its own result, changes nothing; and
    [fetchTodayClasses], when the group's file is the document of [G], stores
    that list, and invoked again with the same inputs ends in the same
    state. *)
Theorem todays_classes_exact_and_idempotent
  (base : string) (net : Network) (st : AppState) (g d : string)
  (G : GroupDataset) :
  selectedGroup st = Some g ->
  truthy_string g = true ->
  net (group_url base g) = Responded (Some (json_of_group G)) ->
  keeps (fun e => eq_nocase (day e) d) (entries G) (todaysClasses G d)
  /\ (forall e, In e (todaysClasses G d)
                <-> In e (entries G) /\ eq_nocase (day e) d)
  /\ todaysClasses {| group := group G; entries := todaysClasses G d |} d
     = todaysClasses G d
  /\ exists st',
       fetchTodayClasses base net d st = Ok st'
       /\ todayClasses st' = map json_of_entry (todaysClasses G d)
       /\ fetchTodayClasses base net d st' = Ok st'.
Proof.
  intros Hsel Hg Hnet.
  split; [apply todaysClasses_keeps|].
  split; [apply keeps_In, todaysClasses_keeps|].
  split; [unfold todaysClasses; cbn [entries]; apply filter_idem|].
  unfold fetchTodayClasses. rewrite Hsel, Hg.
  unfold fetch_json. rewrite Hnet. cbn [bind try_catch].
  rewrite todaysClasses_js_typed. cbn [bind try_catch].
  eexists. split; [reflexivity|]. split; [reflexivity|].
  cbn [selectedGroup setLoadingToday setTodayClasses]. rewrite Hsel, Hg, Hnet.
  cbn [bind try_catch]. rewrite todaysClasses_js_typed. cbn [bind try_catch].
  reflexivity.
Qed.

Lemma todays_classes_exact_and_idempotent_witness :
  keeps (fun e => eq_nocase (day e) "Monday") (entries Samples.group_a)
        (todaysClasses Samples.group_a "Monday")
  /\ (forall e, In e (todaysClasses Samples.group_a "Monday")
                <-> In e (entries Samples.group_a) /\ eq_nocase (day e) "Monday")
  /\ todaysClasses {| group := group Samples.group_a;
                      entries := todaysClasses Samples.group_a "Monday" |} "Monday"
     = todaysClasses Samples.group_a "Monday"
  /\ exists st',
       fetchTodayClasses "/data" Samples.served "Monday" Samples.in_group_a = Ok st'
       /\ todayClasses st'
          = map json_of_entry (todaysClasses Samples.group_a "Monday")
       /\ fetchTodayClasses "/data" Samples.served "Monday" st' = Ok st'.
Proof.
  apply (todays_classes_exact_and_idempotent
           "/data" Samples.served Samples.in_group_a "A" "Monday" Samples.group_a);
    reflexivity.
Defined.

(** ** Time utilities *)

Lemma is_digit_spec (c : ascii) :
  is_digit c = true <-> (48 <= N_of_ascii c <= 57)%N.
Proof.
  unfold is_digit; cbv zeta. now rewrite andb_true_iff, !N.leb_le.
Qed.

Lemma digit_value_range (c : ascii) :
  is_digit c = true -> 0 <= digit_value c <= 9.
Proof. intros H. apply is_digit_spec in H. unfold digit_value. lia. Qed.

Lemma digit_not_colon (c : ascii) :
  is_digit c = true -> Ascii.eqb c ":" = false.
Proof.
  intros H. destruct (Ascii.eqb_spec c ":") as [->|]; [discriminate|reflexivity].
Qed.

Lemma is_hhmm_inv (s : string) :
  is_hhmm s = true ->
  exists h1 h2 m1 m2,
    s = String h1 (String h2 (String ":" (String m1 (String m2 EmptyString))))
    /\ is_digit h1 = true /\ is_digit h2 = true
    /\ is_digit m1 = true /\ is_digit m2 = true.
Proof.
  destruct s as [|h1 [|h2 [|c [|m1 [|m2 [|x r]]]]]]; try discriminate.
  cbn [is_hhmm]. rewrite !andb_true_iff. intros [[[[H1 H2] Hc] H3] H4].
  apply Ascii.eqb_eq in Hc. subst c.
  exists h1, h2, m1, m2. auto.
Qed.

Lemma js_le_of_Z (a b : Z) : js_le (of_Z a) (of_Z b) = (a <=? b).
Proof.
  unfold js_le, of_Z, Qle_bool, inject_Z; cbn [Qnum Qden].
  now rewrite !Z.mul_1_r.
Qed.

Lemma js_lt_of_Z (a b : Z) : js_lt (of_Z a) (of_Z b) = (a <? b).
Proof.
  unfold js_lt, of_Z, Qle_bool, inject_Z; cbn [Qnum Qden].
  rewrite !Z.mul_1_r. symmetry. apply Z.ltb_antisym.
Qed.

Lemma js_le_NaN_r (a : JsNum) : js_le a NaN = false.
Proof. now destruct a. Qed.

Lemma js_lt_not_le (a b : JsNum) : js_lt a b = true -> js_le b a = false.
Proof.
  destruct a as [| | |x], b as [| | |y]; cbn; try discriminate; try reflexivity.
  now rewrite negb_true_iff.
Qed.

Section TimeProperties.
Context {numerics : JsNumerics}.

Lemma Number_two_digits (a b : ascii) :
  is_digit a = true -> is_digit b = true ->
  Number (String a (String b EmptyString))
  = of_Z (10 * digit_value a + digit_value b).
Proof.
  intros Ha Hb. rewrite Number_decimal.
  - reflexivity.
  - unfold is_decimal. cbn [truthy_string all_digits]. now rewrite Ha, Hb.
  - cbn. lia.
Qed.

(** On an ["HH:MM"] string the parsing yields the minutes since midnight. *)
Lemma minutesOf_hhmm (s : string) :
  is_hhmm s = true -> minutesOf s = of_Z (hhmm_minutes s).
Proof.
  intros H. destruct (is_hhmm_inv s H) as (h1 & h2 & m1 & m2 & -> & H1 & H2 & H3 & H4).
  unfold minutesOf. cbn [split_colon].
  rewrite (digit_not_colon h1 H1), (digit_not_colon h2 H2),
    (digit_not_colon m1 H3), (digit_not_colon m2 H4).
  cbn [Ascii.eqb Bool.eqb split_colon map nth_error to_number].
  rewrite !Number_two_digits by assumption.
  apply digit_value_range in H1, H2, H3, H4.
  rewrite js_mul_exact by lia. rewrite js_add_exact by lia.
  reflexivity.
Qed.

Lemma isCurrentClass_hhmm (now : Clock) (s e : string) :
  is_hhmm s = true -> is_hhmm e = true ->
  isCurrentClass now s e
  = (hhmm_minutes s <=? currentTime now) && (currentTime now <=? hhmm_minutes e).
Proof.
  intros Hs He. unfold isCurrentClass, js_ge.
  now rewrite !minutesOf_hhmm, !js_le_of_Z by assumption.
Qed.

End TimeProperties.

(** C4.  For ["HH:MM"] strings [startTime] and [endTime] and every time of
    day, [isCurrentClass] is true exactly when the current time in minutes
    since midnight lies between the start and the end minutes, both
    included; with 09:00 and 10:30 it is true at 09:00, 09:45 and 10:30 and
    false at 08:59 and 10:31. *)
Theorem isCurrentClass_inclusive_range
  (numerics : JsNumerics) (now : Clock) (startTime endTime : string) :
  is_hhmm startTime = true ->
  is_hhmm endTime = true ->
  (isCurrentClass now startTime endTime = true
   <-> hhmm_minutes startTime <= currentTime now <= hhmm_minutes endTime)
  /\ isCurrentClass {| getHours := 9; getMinutes := 0 |} "09:00" "10:30" = true
  /\ isCurrentClass {| getHours := 9; getMinutes := 45 |} "09:00" "10:30" = true
  /\ isCurrentClass {| getHours := 10; getMinutes := 30 |} "09:00" "10:30" = true
  /\ isCurrentClass {| getHours := 8; getMinutes := 59 |} "09:00" "10:30" = false
  /\ isCurrentClass {| getHours := 10; getMinutes := 31 |} "09:00" "10:30" = false.
Proof.
  intros Hs He. split.
  - rewrite isCurrentClass_hhmm by assumption.
    rewrite andb_true_iff, !Z.leb_le. tauto.
  - repeat split; rewrite isCurrentClass_hhmm by reflexivity; reflexivity.
Qed.

Lemma isCurrentClass_inclusive_range_witness :
  isCurrentClass {| getHours := 9; getMinutes := 45 |} "09:00" "10:30" = true
  <-> hhmm_minutes "09:00"
      <= currentTime {| getHours := 9; getMinutes := 45 |}
      <= hhmm_minutes "10:30".
Proof.
  exact (proj1 (isCurrentClass_inclusive_range exact_numerics
                  {| getHours := 9; getMinutes := 45 |} "09:00" "10:30"
                  eq_refl eq_refl)).
Defined.

(** ** Malformed time strings *)

Lemma split_colon_no_colon (s : string) :
  has_colon s = false -> split_colon s = [s].
Proof.
  induction s as [|c s IH]; cbn [has_colon split_colon]; [reflexivity|].
  rewrite orb_false_iff. intros [Hc Hs]. now rewrite Hc, IH.
Qed.

(** [Number] of a short run of digits, by the interface's law. *)
Ltac number_literal :=
  rewrite Number_decimal; [reflexivity | reflexivity | cbn; lia].

Section MalformedTimes.
Context {numerics : JsNumerics}.

Lemma minutesOf_not_a_time (t : string) : not_a_time t -> minutesOf t = NaN.
Proof.
  unfold minutesOf. intros [Hc | (h & m & rest & -> & H)].
  - rewrite (split_colon_no_colon t Hc). cbn [map nth_error to_number].
    apply js_add_NaN_r.
  - cbn [map nth_error to_number].
    destruct H as [H | [H | [H | H]]].
    + now rewrite H, js_mul_NaN_l, js_add_NaN_l.
    + now rewrite H, js_add_NaN_r.
    + now rewrite (Number_foreign h H), js_mul_NaN_l, js_add_NaN_l.
    + now rewrite (Number_foreign m H), js_add_NaN_r.
Qed.

Lemma minutesOf_small (h m : string) (a b : Z) :
  Number h = of_Z a -> Number m = of_Z b ->
  0 <= a <= 99 -> 0 <= b <= 99 ->
  has_colon h = false -> has_colon m = false ->
  minutesOf (h ++ ":" ++ m) = of_Z (a * 60 + b).
Proof.
  intros Hh Hm Ha Hb Hch Hcm. unfold minutesOf.
  assert (Hs : split_colon (h ++ ":" ++ m) = [h; m]).
  { clear Hh. induction h as [|c h IH].
    - cbn. now rewrite (split_colon_no_colon m Hcm).
    - cbn [has_colon] in Hch. apply orb_false_iff in Hch as [Hc Hr].
      cbn [append split_colon]. rewrite Hc. cbn [append] in IH.
      now rewrite (IH Hr). }
  rewrite Hs. cbn [map nth_error to_number]. rewrite Hh, Hm.
  rewrite js_mul_exact by lia. now rewrite js_add_exact by lia.
Qed.

End MalformedTimes.

(** C10, as the code has it.  [isCurrentClass] returns [false] whenever the
    start or the end string yields NaN minutes: the string has no colon, or
    one of its first two colon-separated pieces is mapped to NaN by
    [Number], as is every piece with a code unit that no numeric literal
    contains.  (It is a total function: no input makes it raise.) *)
Theorem isCurrentClass_false_on_NaN
  (numerics : JsNumerics) (now : Clock) (startTime endTime : string) :
  not_a_time startTime \/ not_a_time endTime ->
  isCurrentClass now startTime endTime = false.
Proof.
  intros [H | H]; unfold isCurrentClass, js_ge;
    rewrite (minutesOf_not_a_time _ H).
  - cbn. reflexivity.
  - rewrite js_le_NaN_r. apply andb_false_r.
Qed.

Lemma isCurrentClass_false_on_NaN_witness :
  isCurrentClass {| getHours := 9; getMinutes := 30 |} "0900" "ab:cd" = false.
Proof.
  apply (isCurrentClass_false_on_NaN exact_numerics).
  left. left. reflexivity.
Defined.

(** C10 as stated fails: strings that are not ["HH:MM"] times need not
    yield NaN.  With any implementation of the numeric interface, [":"] to
    [":30"] is live at 00:15 (an empty piece is the number 0) and ["9:00"] to
    ["9:59"] is live at 09:30. *)
Lemma isCurrentClass_true_on_malformed :
  is_hhmm ":" = false /\ is_hhmm ":30" = false
  /\ is_hhmm "9:00" = false /\ is_hhmm "9:59" = false
  /\ (forall numerics : JsNumerics,
        isCurrentClass {| getHours := 0; getMinutes := 15 |} ":" ":30" = true)
  /\ (forall numerics : JsNumerics,
        isCurrentClass {| getHours := 9; getMinutes := 30 |} "9:00" "9:59" = true).
Proof.
  repeat split; intros numerics; unfold isCurrentClass, js_ge.
  - rewrite (minutesOf_small "" "" 0 0), (minutesOf_small "" "30" 0 30);
      try reflexivity; try lia; try apply Number_empty; number_literal.
  - rewrite (minutesOf_small "9" "00" 9 0), (minutesOf_small "9" "59" 9 59);
      try reflexivity; try lia; number_literal.
Qed.

(** ** The next class *)

Section NextClass.
Context {numerics : JsNumerics}.

Lemma is_future_hhmm (now : Clock) (e : ScheduleEntry) :
  has_hhmm_start e ->
  js_gt (minutesOf (start_time (time_slot e))) (of_Z (currentTime now))
  = (currentTime now <? start_minutes e).
Proof.
  intros H. unfold js_gt. rewrite minutesOf_hhmm by exact H. apply js_lt_of_Z.
Qed.

Lemma nextClass_cons (now : Clock) (e : ScheduleEntry) (l : list ScheduleEntry) :
  nextClass now (e :: l)
  = if js_gt (minutesOf (start_time (time_slot e))) (of_Z (currentTime now))
    then Some e else nextClass now l.
Proof. reflexivity. Qed.

Lemma nextClass_sorted (now : Clock) (l : list ScheduleEntry) :
  Forall has_hhmm_start l ->
  StronglySorted starts_no_later l ->
  match nextClass now l with
  | Some e =>
      In e l /\ currentTime now < start_minutes e
      /\ forall e', In e' l -> currentTime now < start_minutes e' ->
                    start_minutes e <= start_minutes e'
  | None => forall e', In e' l -> start_minutes e' <= currentTime now
  end.
Proof.
  intros Hwf Hs. induction l as [|a l IH].
  - cbn. intros e' [].
  - rewrite nextClass_cons.
    inversion Hwf as [|? ? Ha Hl]; subst.
    inversion Hs as [|? ? Hs' Hall]; subst.
    rewrite (is_future_hhmm now a Ha).
    destruct (currentTime now <? start_minutes a) eqn:E.
    + apply Z.ltb_lt in E. split; [now left|]. split; [exact E|].
      intros e' [<- | Hin] _; [lia|].
      rewrite Forall_forall in Hall. exact (Hall e' Hin).
    + apply Z.ltb_ge in E. specialize (IH Hl Hs').
      destruct (nextClass now l) as [e|].
      * destruct IH as (Hin & Hgt & Hmin). split; [now right|]. split; [exact Hgt|].
        intros e' [<- | Hin'] Hlt; [lia | now apply Hmin].
      * intros e' [<- | Hin]; [exact E | now apply IH].
Qed.

End NextClass.

Lemma starts_no_later_trans : Relations_1.Transitive starts_no_later.
Proof. intros a b c. unfold starts_no_later. lia. Qed.

(** C2.  For a list of today's classes sorted ascending by start time and a
    current time [now], [nextClass] returns an entry with the smallest start
    time strictly greater than the current time, and no entry ([None], not
    an error) when no start time is greater; with classes at 09:00 and 11:00
    and the clock at 10:00 it returns the 11:00 class. *)
Theorem nextClass_earliest_future
  (numerics : JsNumerics) (now : Clock) (todayClasses : list ScheduleEntry) :
  Forall has_hhmm_start todayClasses ->
  Sorted starts_no_later todayClasses ->
  match nextClass now todayClasses with
  | Some e =>
      In e todayClasses /\ currentTime now < start_minutes e
      /\ forall e', In e' todayClasses -> currentTime now < start_minutes e' ->
                    start_minutes e <= start_minutes e'
  | None =>
      forall e', In e' todayClasses -> start_minutes e' <= currentTime now
  end
  /\ nextClass {| getHours := 10; getMinutes := 0 |}
               [Samples.mon_0900; Samples.mon_1100]
     = Some Samples.mon_1100.
Proof.
  intros Hwf Hs. split.
  - apply nextClass_sorted; [exact Hwf|].
    apply Sorted_StronglySorted; [exact starts_no_later_trans | exact Hs].
  - rewrite !nextClass_cons, !is_future_hhmm by reflexivity. reflexivity.
Qed.

Lemma nextClass_earliest_future_witness :
  match nextClass {| getHours := 10; getMinutes := 0 |}
                  [Samples.mon_0900; Samples.mon_1100; Samples.mon_1400] with
  | Some e =>
      In e [Samples.mon_0900; Samples.mon_1100; Samples.mon_1400]
      /\ currentTime {| getHours := 10; getMinutes := 0 |} < start_minutes e
      /\ forall e',
           In e' [Samples.mon_0900; Samples.mon_1100; Samples.mon_1400] ->
           currentTime {| getHours := 10; getMinutes := 0 |} < start_minutes e' ->
           start_minutes e <= start_minutes e'
  | None =>
      forall e',
        In e' [Samples.mon_0900; Samples.mon_1100; Samples.mon_1400] ->
        start_minutes e' <= currentTime {| getHours := 10; getMinutes := 0 |}
  end
  /\ nextClass {| getHours := 10; getMinutes := 0 |}
               [Samples.mon_0900; Samples.mon_1100]
     = Some Samples.mon_1100.
Proof.
  apply (nextClass_earliest_future exact_numerics).
  - repeat constructor.
  - repeat constructor; unfold starts_no_later; cbn; lia.
Defined.

(** C9.  For any list of today's classes, sorted or not, and any current
    time, an entry returned by [nextClass] is a member of the list and its
    start in minutes since midnight is strictly greater than the current
    time: the class has not started ([startMinutes <= currentTime] is
    false) and is not in progress ([isCurrentClass] is false). *)
Theorem nextClass_member_not_started
  (numerics : JsNumerics) (now : Clock) (todayClasses : list ScheduleEntry)
  (e : ScheduleEntry) :
  nextClass now todayClasses = Some e ->
  In e todayClasses
  /\ js_gt (minutesOf (start_time (time_slot e))) (of_Z (currentTime now)) = true
  /\ js_le (minutesOf (start_time (time_slot e))) (of_Z (currentTime now)) = false
  /\ isCurrentClass now (start_time (time_slot e)) (end_time (time_slot e)) = false
  /\ (has_hhmm_start e -> currentTime now < start_minutes e).
Proof.
  intros H. unfold nextClass in H. apply find_some in H as [Hin Hgt].
  assert (Hle : js_le (minutesOf (start_time (time_slot e)))
                      (of_Z (currentTime now)) = false)
    by (apply js_lt_not_le; exact Hgt).
  repeat split; try assumption.
  - unfold isCurrentClass, js_ge. now rewrite Hle.
  - intros Hwf. rewrite (is_future_hhmm now e Hwf) in Hgt. now apply Z.ltb_lt.
Qed.

Lemma nextClass_member_not_started_witness :
  In Samples.mon_1400 [Samples.mon_1400; Samples.mon_0900]
  /\ js_gt (minutesOf "14:00") (of_Z (currentTime {| getHours := 8; getMinutes := 0 |}))
     = true
  /\ js_le (minutesOf "14:00") (of_Z (currentTime {| getHours := 8; getMinutes := 0 |}))
     = false
  /\ isCurrentClass {| getHours := 8; getMinutes := 0 |} "14:00" "15:00" = false
  /\ (has_hhmm_start Samples.mon_1400 ->
      currentTime {| getHours := 8; getMinutes := 0 |}
      < start_minutes Samples.mon_1400).
Proof.
  apply (nextClass_member_not_started exact_numerics
           {| getHours := 8; getMinutes := 0 |}
           [Samples.mon_1400; Samples.mon_0900] Samples.mon_1400).
  reflexivity.
Defined.

(** ** The weekly view *)

Lemma string_leb_trans (a b c : string) :
  String.leb a b = true -> String.leb b c = true -> String.leb a c = true.
Proof.
  unfold String.leb. revert b c.
  induction a as [|x a IH]; intros [|y b] [|z c]; cbn [String.compare];
    try easy.
  unfold Ascii.compare.
  destruct (N.compare_spec (N_of_ascii x) (N_of_ascii y));
    destruct (N.compare_spec (N_of_ascii y) (N_of_ascii z));
    destruct (N.compare_spec (N_of_ascii x) (N_of_ascii z));
    try easy; try lia.
  apply IH.
Qed.

Lemma start_lex_le_trans : Relations_1.Transitive start_lex_le.
Proof. intros a b c. apply string_leb_trans. Qed.

Section SortProperties.
Context {A : Type}.
Variable compareFn : A -> A -> Z.

Lemma sort_insert_perm (x : A) (l : list A) :
  Permutation (sort_insert compareFn x l) (x :: l).
Proof.
  induction l as [|y l IH]; cbn [sort_insert]; [reflexivity|].
  destruct (compareFn x y <=? 0); [reflexivity|].
  rewrite IH. apply perm_swap.
Qed.

Lemma js_sort_perm (l : list A) : Permutation (js_sort compareFn l) l.
Proof.
  induction l as [|x l IH]; cbn [js_sort]; [reflexivity|].
  rewrite sort_insert_perm. now constructor.
Qed.

(** With a comparator that decides a total relation [R] on the elements
    that satisfy [W], sorting yields a list sorted for [R]. *)
Variable W : A -> Prop.
Variable R : A -> A -> Prop.
Hypothesis compareFn_R :
  forall a b, W a -> W b -> ((compareFn a b <=? 0) = true <-> R a b).
Hypothesis R_total : forall a b, W a -> W b -> R a b \/ R b a.

Lemma sort_insert_sorted (x : A) (l : list A) :
  W x -> Forall W l -> Sorted R l -> Sorted R (sort_insert compareFn x l).
Proof.
  intros Hx Hl Hs. induction l as [|y l IH]; cbn [sort_insert].
  - repeat constructor.
  - inversion Hl as [|? ? Hy Hl']; subst.
    inversion Hs as [|? ? Hs' Hhd]; subst.
    destruct (compareFn x y <=? 0) eqn:E.
    + constructor; [exact Hs|]. constructor. now apply compareFn_R.
    + constructor; [now apply IH|].
      assert (Ryx : R y x).
      { destruct (R_total x y Hx Hy) as [Rxy|Ryx]; [|exact Ryx].
        apply compareFn_R in Rxy; [congruence | exact Hx | exact Hy]. }
      destruct l as [|z l]; cbn [sort_insert].
      * now constructor.
      * destruct (compareFn x z <=? 0); constructor; [exact Ryx|].
        now inversion Hhd.
Qed.

Lemma js_sort_sorted (l : list A) :
  Forall W l -> Sorted R (js_sort compareFn l).
Proof.
  induction l as [|x l IH]; intros Hl; cbn [js_sort]; [constructor|].
  inversion Hl as [|? ? Hx Hl']; subst.
  apply sort_insert_sorted; [exact Hx| |now apply IH].
  rewrite Forall_forall in *. intros y Hy. apply Hl'.
  now apply (Permutation_in _ (js_sort_perm l)).
Qed.

End SortProperties.

Section WeeklyProperties.
Context {collation : Collation}.

Lemma by_start_time_leb (a b : ScheduleEntry) :
  has_hhmm_start a -> has_hhmm_start b ->
  (by_start_time a b <=? 0)
  = String.leb (start_time (time_slot a)) (start_time (time_slot b)).
Proof.
  intros Ha Hb. unfold by_start_time, Z.leb, String.leb.
  now rewrite (localeCompare_hhmm _ _ Ha Hb).
Qed.

Lemma by_start_time_lex (a b : ScheduleEntry) :
  has_hhmm_start a -> has_hhmm_start b ->
  ((by_start_time a b <=? 0) = true <-> start_lex_le a b).
Proof.
  intros Ha Hb. rewrite (by_start_time_leb a b Ha Hb). reflexivity.
Qed.

Lemma dayClasses_keeps (G : GroupDataset) (d : string) :
  keeps (fun e => day e = d) (entries G) (dayClasses G d).
Proof.
  unfold dayClasses. apply filter_keeps. intros e. apply String.eqb_eq.
Qed.

Lemma weekly_bucket (G : GroupDataset) (d : string) :
  Forall has_hhmm_start (entries G) ->
  Permutation (dayClasses G d) (js_sort by_start_time (dayClasses G d))
  /\ StronglySorted start_lex_le (js_sort by_start_time (dayClasses G d)).
Proof.
  intros Hwf. split; [symmetry; apply js_sort_perm|].
  apply Sorted_StronglySorted; [exact start_lex_le_trans|].
  apply (js_sort_sorted by_start_time has_hhmm_start start_lex_le).
  - exact by_start_time_lex.
  - intros a b _ _. apply String.leb_total.
  - unfold dayClasses. rewrite Forall_forall in *.
    intros e He. apply filter_In in He. now apply Hwf.
Qed.

Lemma sort_two_classes (a b : ScheduleEntry) :
  has_hhmm_start a -> has_hhmm_start b ->
  js_sort by_start_time [a; b]
  = if String.leb (start_time (time_slot a)) (start_time (time_slot b))
    then [a; b] else [b; a].
Proof.
  intros Ha Hb. cbn [js_sort sort_insert].
  now rewrite (by_start_time_leb a b Ha Hb).
Qed.

End WeeklyProperties.

(** C5.  For a dataset whose start times are ["HH:MM"] strings, the weekly
    view has exactly five buckets, named Monday to Friday in this order;
    the bucket of a day holds exactly the entries whose [day] is that name,
    compared case-sensitively (so an entry of any other day is in no
    bucket), sorted ascending by [start_time] in the code-unit order of
    strings; Monday entries starting at 14:00 and 09:00 come out as 09:00,
    14:00 whichever comes first in the dataset. *)
Theorem weekly_view_five_sorted_buckets
  (collation : Collation) (G : GroupDataset) :
  Forall has_hhmm_start (entries G) ->
  map card_day (weeklyView G)
  = ["Monday"; "Tuesday"; "Wednesday"; "Thursday"; "Friday"]
  /\ (forall card, In card (weeklyView G) ->
       exists of_day,
         keeps (fun e => day e = card_day card) (entries G) of_day
         /\ Permutation of_day (card_classes card)
         /\ StronglySorted start_lex_le (card_classes card)
         /\ card_count card = List.length of_day)
  /\ (forall e card,
        ~ In (day e) ["Monday"; "Tuesday"; "Wednesday"; "Thursday"; "Friday"] ->
        In card (weeklyView G) -> ~ In e (card_classes card))
  /\ map card_classes
         (weeklyView {| group := "A";
                        entries := [Samples.mon_1400; Samples.mon_0900] |})
     = [[Samples.mon_0900; Samples.mon_1400]; []; []; []; []]
  /\ map card_classes
         (weeklyView {| group := "A";
                        entries := [Samples.mon_0900; Samples.mon_1400] |})
     = [[Samples.mon_0900; Samples.mon_1400]; []; []; []; []].
Proof.
  intros Hwf.
  assert (Hcards : forall card, In card (weeklyView G) ->
            In (card_day card) days
            /\ card_count card = List.length (dayClasses G (card_day card))
            /\ card_classes card
               = js_sort by_start_time (dayClasses G (card_day card))).
  { intros card Hin. unfold weeklyView in Hin. apply in_map_iff in Hin.
    destruct Hin as (d & <- & Hd). cbn. auto. }
  split; [reflexivity|]. split; [|split].
  - intros card Hin. destruct (Hcards card Hin) as (_ & Hcount & Hclasses).
    destruct (weekly_bucket G (card_day card) Hwf) as [Hperm Hsorted].
    exists (dayClasses G (card_day card)).
    rewrite Hclasses. auto using dayClasses_keeps.
  - intros e card Hday Hin He.
    destruct (Hcards card Hin) as (Hd & _ & Hclasses).
    rewrite Hclasses in He.
    apply (Permutation_in _ (js_sort_perm _ _)) in He.
    apply (keeps_In _ _ _ (dayClasses_keeps G (card_day card))) in He.
    destruct He as [_ He]. apply Hday. rewrite He. exact Hd.
  - split; unfold weeklyView; cbn [map days card_classes];
      repeat match goal with
        | |- context [dayClasses ?g ?d] =>
            let l := eval cbv in (dayClasses g d) in
            change (dayClasses g d) with l
        end;
      fold Samples.algorithms Samples.networks;
      fold (Samples.slot "09:00" "10:30" 90) (Samples.slot "14:00" "15:00" 60);
      fold Samples.mon_0900 Samples.mon_1400.
    + now rewrite (sort_two_classes Samples.mon_1400 Samples.mon_0900).
    + now rewrite (sort_two_classes Samples.mon_0900 Samples.mon_1400).
Qed.

Lemma weekly_view_five_sorted_buckets_witness :
  map card_day (weeklyView Samples.group_a)
  = ["Monday"; "Tuesday"; "Wednesday"; "Thursday"; "Friday"]
  /\ (forall card, In card (weeklyView Samples.group_a) ->
       exists of_day,
         keeps (fun e => day e = card_day card) (entries Samples.group_a) of_day
         /\ Permutation of_day (card_classes card)
         /\ StronglySorted start_lex_le (card_classes card)
         /\ card_count card = List.length of_day)
  /\ (forall e card,
        ~ In (day e) ["Monday"; "Tuesday"; "Wednesday"; "Thursday"; "Friday"] ->
        In card (weeklyView Samples.group_a) -> ~ In e (card_classes card))
  /\ map card_classes
         (weeklyView {| group := "A";
                        entries := [Samples.mon_1400; Samples.mon_0900] |})
     = [[Samples.mon_0900; Samples.mon_1400]; []; []; []; []]
  /\ map card_classes
         (weeklyView {| group := "A";
                        entries := [Samples.mon_0900; Samples.mon_1400] |})
     = [[Samples.mon_0900; Samples.mon_1400]; []; []; []; []].
Proof.
  apply (weekly_view_five_sorted_buckets unit_collation Samples.group_a).
  repeat constructor.
Defined.

(** ** Search *)

Lemma matches_query (searchQuery : string) (entry : ScheduleEntry) :
  existsb (fun field => includes field (toLowerCase searchQuery))
          (searchFields entry) = true
  <-> query_matches searchQuery entry.
Proof.
  unfold searchFields, query_matches. cbn [existsb].
  rewrite !orb_true_iff, !includes_substring. intuition discriminate.
Qed.

Lemma skips_group_selected (selectedGroup : option string) (g : GroupDataset) :
  skips_group selectedGroup g = false <-> group_selected selectedGroup g.
Proof.
  unfold skips_group, group_selected, truthy_group.
  destruct selectedGroup as [s|].
  - destruct (truthy_string s); cbn [andb].
    + rewrite negb_false_iff, eqb_lower_nocase. split.
      * intros H _. now exists s.
      * intros H. destruct (H eq_refl) as (s' & Hs & Hg). now injection Hs as ->.
    + split; [discriminate | reflexivity].
  - split; [discriminate | reflexivity].
Qed.

Lemma search_entries_filter (query : string) (g : GroupDataset)
  (results : list SearchResult) (es : list ScheduleEntry) :
  search_entries query g results es
  = (results
     ++ map (tag g)
          (filter (fun entry =>
                     existsb (fun field => includes field query)
                             (searchFields entry)) es))%list.
Proof.
  revert results. induction es as [|e es IH]; intros results; cbn [search_entries filter map].
  - now rewrite app_nil_r.
  - rewrite IH.
    destruct (existsb (fun field => includes field query) (searchFields e));
      [|reflexivity].
    cbn [map]. now rewrite <- app_assoc.
Qed.

Lemma search_groups_collects (searchQuery : string)
  (selectedGroup : option string) (gs : list GroupDataset) :
  forall results,
  exists rs,
    search_groups (toLowerCase searchQuery) selectedGroup results gs
    = (results ++ rs)%list
    /\ collects searchQuery selectedGroup gs rs.
Proof.
  induction gs as [|g gs IH]; intros results; cbn [search_groups].
  - exists []. split; [now rewrite app_nil_r | constructor].
  - destruct (skips_group selectedGroup g) eqn:E.
    + destruct (IH results) as (rs & Hrs & Hc). exists rs. split; [exact Hrs|].
      apply collects_skip; [|exact Hc].
      intros Hsel. apply skips_group_selected in Hsel. congruence.
    + rewrite search_entries_filter.
      destruct (IH (results
                    ++ map (tag g)
                         (filter (fun entry =>
                                    existsb (fun field =>
                                               includes field (toLowerCase searchQuery))
                                            (searchFields entry)) (entries g)))%list)
        as (rs & Hrs & Hc).
      eexists. split; [rewrite Hrs, <- app_assoc; reflexivity|].
      apply collects_keep; [now apply skips_group_selected | | exact Hc].
      apply filter_keeps. intros e. apply matches_query.
Qed.

Lemma collects_In (searchQuery : string) (selectedGroup : option string)
  (gs : list GroupDataset) (rs : list SearchResult) :
  collects searchQuery selectedGroup gs rs ->
  forall r,
    In r rs <->
    exists g e, In g gs /\ group_selected selectedGroup g
                /\ In e (entries g) /\ query_matches searchQuery e
                /\ r = tag g e.
Proof.
  induction 1 as [|g gs rs Hn _ IH|g gs es rs Hsel Hk _ IH]; intros r.
  - split; [intros [] | intros (g & e & [] & _)].
  - rewrite IH. split.
    + intros (g' & e & Hg & H'). exists g', e. split; [now right | exact H'].
    + intros (g' & e & [<- | Hg] & Hs & H'); [contradiction|].
      exists g', e. auto.
  - rewrite in_app_iff, in_map_iff, IH. split.
    + intros [(e & <- & He) | (g' & e & Hg & H')].
      * apply (keeps_In _ _ _ Hk) in He as [He Hm].
        exists g, e. repeat split; auto. now left.
      * exists g', e. split; [now right | exact H'].
    + intros (g' & e & [<- | Hg] & Hs & He & Hm & ->).
      * left. exists e. split; [reflexivity|]. now apply (keeps_In _ _ _ Hk).
      * right. exists g', e. auto.
Qed.

(** On the document of an aggregate the loops of the fetcher are the typed
    loops. *)
Lemma search_entries_js_typed (query : string) (g : GroupDataset)
  (es : list ScheduleEntry) (results : list SearchResult) :
  for_of (search_entry_js query (json_of_group g))
         (map json_of_result results) (map json_of_entry es)
  = Ok (map json_of_result (search_entries query g results es)).
Proof.
  revert results. induction es as [|e es IH]; intros results; [reflexivity|].
  cbn [map for_of search_entries].
  assert (Hstep : search_entry_js query (json_of_group g)
                    (map json_of_result results) (json_of_entry e)
                  = Ok (map json_of_result
                          (if existsb (fun field => includes field query)
                                      (searchFields e)
                           then (results ++ [{| result_group := group g;
                                                result_entry := e |}])%list
                           else results))).
  { unfold search_entry_js, searchFields. cbn.
    match goal with |- context [if ?b then _ else _] => destruct b end;
      [|reflexivity].
    now rewrite map_app. }
  rewrite Hstep. cbn [bind]. apply IH.
Qed.

Lemma skips_group_js_typed (selectedGroup : option string) (g : GroupDataset) :
  skips_group_js selectedGroup (json_of_group g)
  = Ok (skips_group selectedGroup g).
Proof.
  unfold skips_group_js, skips_group.
  destruct selectedGroup as [s|]; [|reflexivity].
  now destruct (truthy_string s).
Qed.

Lemma search_groups_js_typed (query : string) (selectedGroup : option string)
  (gs : list GroupDataset) (results : list SearchResult) :
  for_of (search_group_js query selectedGroup)
         (map json_of_result results) (map json_of_group gs)
  = Ok (map json_of_result (search_groups query selectedGroup results gs)).
Proof.
  revert results. induction gs as [|g gs IH]; intros results; [reflexivity|].
  cbn [map for_of search_groups]. unfold search_group_js at 1.
  rewrite skips_group_js_typed. cbn [bind].
  destruct (skips_group selectedGroup g).
  - cbn [bind]. apply IH.
  - change (get (json_of_group g) "entries")
      with (Ok (A := JsVal) (VArr (map json_of_entry (entries g)))).
    cbn [bind iterate]. rewrite search_entries_js_typed. cbn [bind]. apply IH.
Qed.

Lemma search_js_typed (T : AggregateDataset) (searchQuery : string)
  (selectedGroup : option string) :
  search_js (json_of_aggregate T) searchQuery selectedGroup
  = Ok (map json_of_result
          (search_groups (toLowerCase searchQuery) selectedGroup [] (data T))).
Proof.
  unfold search_js. cbn [json_of_aggregate get own_property String.eqb
    Ascii.eqb Bool.eqb bind iterate].
  cbn. apply (search_groups_js_typed _ _ _ []).
Qed.

(** C3, as the code has it.  For an aggregate, a query that is not blank
    (it has a code unit that [trim] keeps) and an optional group filter,
    the search results are collected dataset by dataset and, within a
    dataset, entry by entry, with no reordering: a dataset is skipped
    exactly when a filter is set and its group differs from the filter up to
    letter case; an entry of a dataset that is not skipped is included,
    tagged with the group, exactly when the lower-cased query is a substring
    of the lower-cased course name, instructor, room or course code.  On the
    document of the aggregate the fetcher computes the same list.  The query
    ["room 204"] finds the entry in "Room 204" and not the one in
    "Room 205". *)
Theorem search_results_in_dataset_order
  (T : AggregateDataset) (searchQuery : string) (selectedGroup : option string) :
  blank searchQuery = false ->
  collects searchQuery selectedGroup (data T)
           (searchTimetable T searchQuery selectedGroup)
  /\ (forall r,
        In r (searchTimetable T searchQuery selectedGroup) <->
        exists g e, In g (data T) /\ group_selected selectedGroup g
                    /\ In e (entries g) /\ query_matches searchQuery e
                    /\ r = tag g e)
  /\ search_js (json_of_aggregate T) searchQuery selectedGroup
     = Ok (map json_of_result (searchTimetable T searchQuery selectedGroup))
  /\ searchTimetable {| data := [Samples.group_b] |} "room 204" None
     = [tag Samples.group_b Samples.mon_0900]
  /\ query_matches "room 204" Samples.mon_0900
  /\ ~ query_matches "room 204" Samples.mon_1100.
Proof.
  intros Hq.
  assert (Hc : collects searchQuery selectedGroup (data T)
                 (searchTimetable T searchQuery selectedGroup)).
  { unfold searchTimetable. rewrite Hq.
    destruct (search_groups_collects searchQuery selectedGroup (data T) [])
      as (rs & -> & Hrs).
    exact Hrs. }
  split; [exact Hc|]. split; [exact (collects_In _ _ _ _ Hc)|].
  split; [rewrite search_js_typed; unfold searchTimetable; now rewrite Hq|].
  split; [reflexivity|].
  split; [now apply matches_query|].
  intros H. apply matches_query in H. discriminate H.
Qed.

Lemma search_results_in_dataset_order_witness :
  collects "room" (Some "b") (data Samples.timetable)
           (searchTimetable Samples.timetable "room" (Some "b"))
  /\ (forall r,
        In r (searchTimetable Samples.timetable "room" (Some "b")) <->
        exists g e, In g (data Samples.timetable)
                    /\ group_selected (Some "b") g
                    /\ In e (entries g) /\ query_matches "room" e
                    /\ r = tag g e)
  /\ search_js (json_of_aggregate Samples.timetable) "room" (Some "b")
     = Ok (map json_of_result
             (searchTimetable Samples.timetable "room" (Some "b")))
  /\ searchTimetable {| data := [Samples.group_b] |} "room 204" None
     = [tag Samples.group_b Samples.mon_0900]
  /\ query_matches "room 204" Samples.mon_0900
  /\ ~ query_matches "room 204" Samples.mon_1100.
Proof.
  apply (search_results_in_dataset_order Samples.timetable "room" (Some "b")).
  reflexivity.
Defined.

(** C3 as stated fails for a query that is not empty but blank: the query
    [" "] occurs in the room "Room 204", and the search returns nothing. *)
Lemma search_returns_nothing_for_blank_query :
  " " <> ""
  /\ In Samples.mon_0900 (entries Samples.group_b)
  /\ query_matches " " Samples.mon_0900
  /\ searchTimetable {| data := [Samples.group_b] |} " " None = [].
Proof.
  split; [discriminate|]. split; [right; left; reflexivity|].
  split; [now apply matches_query | reflexivity].
Qed.

(** ** The fetch boundary *)

Lemma try_catch_returns {A : Type} (body : Res A) (handler : Exn -> Res A) :
  (forall e, exists a, handler e = Ok a) ->
  exists a, try_catch body handler = Ok a.
Proof.
  intros H. destruct body as [a|e]; cbn; [now exists a | apply H].
Qed.

(** No fetcher lets an exception out, whatever the network answers and
    whatever the document holds: each one returns a state. *)
Theorem fetchers_return (base : string) (net : Network) (currentDay : string)
  (st : AppState) :
  (exists st', fetchTodayClasses base net currentDay st = Ok st')
  /\ (exists st', fetchTimetableData base net st = Ok st')
  /\ (exists st', fetchCourses base net st = Ok st')
  /\ (exists st', handleSearch base net st = Ok st').
Proof.
  repeat split.
  - unfold fetchTodayClasses.
    destruct (selectedGroup st) as [g|]; [|now exists st].
    destruct (truthy_string g); [|now exists st].
    edestruct (try_catch_returns (A := AppState)) as [st2 ->];
      [|cbn [bind]; eexists; reflexivity].
    intros e. eexists. reflexivity.
  - unfold fetchTimetableData.
    destruct (selectedGroup st) as [g|]; [|now exists st].
    destruct (truthy_string g); [|now exists st].
    edestruct (try_catch_returns (A := AppState)) as [st2 ->];
      [|cbn [bind]; eexists; reflexivity].
    intros e. eexists. reflexivity.
  - unfold fetchCourses.
    edestruct (try_catch_returns (A := AppState)) as [st2 ->];
      [|cbn [bind]; eexists; reflexivity].
    intros e. eexists. reflexivity.
  - unfold handleSearch, handleSearch_settle.
    destruct (blank (searchQuery st)); [eexists; reflexivity|].
    edestruct (try_catch_returns (A := AppState)) as [st2 ->];
      [|cbn [bind]; eexists; reflexivity].
    intros e. eexists. reflexivity.
Qed.

Lemma fetch_json_failed (net : Network) (url : string) :
  failed (net url) -> exists e, fetch_json net url = Throw e.
Proof.
  unfold fetch_json. intros [-> | ->]; eexists; reflexivity.
Qed.

Lemma get_lacks (field : string) (doc : JsVal) :
  lacks field doc ->
  get doc field = Throw TypeError \/ get doc field = Ok VUndefined.
Proof.
  intros [-> | (fields & -> & H)]; [now left | right]. cbn. now rewrite H.
Qed.

(** A failed request (the network, or a body that is not JSON) leaves the
    empty collection: the empty list, or [null] for the timetable; so does,
    for the three list fetchers, a document without the dataset. *)
Theorem fetch_failures_yield_empty (base : string) (net : Network)
  (currentDay g : string) (st : AppState) :
  selectedGroup st = Some g -> truthy_string g = true ->
  blank (searchQuery st) = false ->
  (failed (net (group_url base g))
   \/ (exists doc, net (group_url base g) = Responded (Some doc)
                   /\ lacks "entries" doc) ->
   exists st', fetchTodayClasses base net currentDay st = Ok st'
               /\ todayClasses st' = [] /\ loadingToday st' = false)
  /\ (failed (net (group_url base g)) ->
      exists st', fetchTimetableData base net st = Ok st'
                  /\ timetableData st' = VNull /\ loadingTimetable st' = false)
  /\ (failed (net (courses_url base))
      \/ (exists doc, net (courses_url base) = Responded (Some doc)
                      /\ lacks "courses" doc) ->
      exists st', fetchCourses base net st = Ok st'
                  /\ courses st' = VArr [] /\ loadingCourses st' = false)
  /\ (failed (net (timetable_url base))
      \/ (exists doc, net (timetable_url base) = Responded (Some doc)
                      /\ lacks "data" doc) ->
      exists st', handleSearch base net st = Ok st'
                  /\ searchResults st' = [] /\ loading st' = false).
Proof.
  intros Hsel Hg Hq. repeat split.
  - intros H. unfold fetchTodayClasses. rewrite Hsel, Hg.
    destruct H as [H | (doc & Hdoc & Hl)].
    + destruct (fetch_json_failed _ _ H) as [e ->]. cbn. eauto.
    + unfold fetch_json. rewrite Hdoc. cbn [bind]. unfold todaysClasses_js.
      destruct (get_lacks _ _ Hl) as [-> | ->]; cbn; eauto.
  - intros H. unfold fetchTimetableData. rewrite Hsel, Hg.
    destruct (fetch_json_failed _ _ H) as [e ->]. cbn. eauto.
  - intros H. unfold fetchCourses.
    destruct H as [H | (doc & Hdoc & Hl)].
    + destruct (fetch_json_failed _ _ H) as [e ->]. cbn. eauto.
    + unfold fetch_json. rewrite Hdoc. cbn [bind].
      destruct (get_lacks _ _ Hl) as [-> | ->]; cbn; eauto.
  - intros H. unfold handleSearch, handleSearch_settle. rewrite Hq.
    destruct H as [H | (doc & Hdoc & Hl)].
    + unfold fetch_json. destruct H as [-> | ->]; cbn; eauto.
    + unfold fetch_json. rewrite Hdoc. cbn [bind]. unfold search_js.
      destruct (get_lacks _ _ Hl) as [-> | ->]; cbn; eauto.
Qed.

Lemma fetch_failures_yield_empty_witness :
  let net := fun url : string =>
               if String.eqb url "/data/courses.json" then Responded None
               else if String.eqb url "/data/timetable.json"
                    then Responded (Some (VObj [("success", VBool true)]))
                    else NetworkFailure in
  let st := setSearchQuery "room" Samples.in_group_a in
  (exists st', fetchTodayClasses "/data" net "Monday" st = Ok st'
               /\ todayClasses st' = [] /\ loadingToday st' = false)
  /\ (exists st', fetchTimetableData "/data" net st = Ok st'
                  /\ timetableData st' = VNull /\ loadingTimetable st' = false)
  /\ (exists st', fetchCourses "/data" net st = Ok st'
                  /\ courses st' = VArr [] /\ loadingCourses st' = false)
  /\ (exists st', handleSearch "/data" net st = Ok st'
                  /\ searchResults st' = [] /\ loading st' = false).
Proof.
  cbv zeta.
  destruct (fetch_failures_yield_empty "/data"
              (fun url : string =>
                 if String.eqb url "/data/courses.json" then Responded None
                 else if String.eqb url "/data/timetable.json"
                      then Responded (Some (VObj [("success", VBool true)]))
                      else NetworkFailure)
              "Monday" "A" (setSearchQuery "room" Samples.in_group_a)
              eq_refl eq_refl eq_refl) as (H1 & H2 & H3 & H4).
  split; [apply H1; left; left; reflexivity|].
  split; [apply H2; left; reflexivity|].
  split; [apply H3; left; right; reflexivity|].
  apply H4. right. eexists. split; [reflexivity|].
  right. eexists. split; reflexivity.
Defined.

(** C7 at the input where the code departs from it: the group file is
    served with the JSON document [{}], which holds no entries.
    [fetchTimetableData] stores the document (not [null]), and rendering
    [TimetablePage] then throws on [timetableData.entries.filter]; on the
    same document [fetchTodayClasses] ends with the empty list. *)
Theorem timetable_document_without_entries_is_stored :
  exists st',
    fetchTimetableData "/data" (fun _ => Responded (Some (VObj [])))
                       Samples.in_group_a = Ok st'
    /\ loadingTimetable st' = false
    /\ timetableData st' = VObj []
    /\ timetableData st' <> VNull
    /\ renderTimetableFilter st' = Throw TypeError
    /\ exists st'',
         fetchTodayClasses "/data" (fun _ => Responded (Some (VObj [])))
                           "Monday" Samples.in_group_a = Ok st''
         /\ todayClasses st'' = [].
Proof.
  eexists. split; [reflexivity|]. cbn.
  repeat split; try discriminate.
  eexists. split; reflexivity.
Qed.

(** ** The search page and the debounced effect *)

Lemma searchEffect_away (w : World) :
  currentPage (app w) <> "search" ->
  searchEffect w = {| app := setSearchResults [] (app w);
                      timer := None; inflight := inflight w |}.
Proof.
  intros H. unfold searchEffect.
  apply String.eqb_neq in H. now rewrite H.
Qed.

Lemma searchEffect_inflight (w : World) : inflight (searchEffect w) = inflight w.
Proof. unfold searchEffect. now destruct (negb _). Qed.

Lemma commit_inflight (before : AppState) (w : World) :
  inflight (commit before w) = inflight w.
Proof.
  unfold commit.
  destruct (option_string_eqb _ _);
    destruct (_ && _); rewrite ?searchEffect_inflight; reflexivity.
Qed.

Lemma groupEffect_frame (st : AppState) :
  searchQuery (groupEffect st) = searchQuery st
  /\ searchResults (groupEffect st) = searchResults st
  /\ selectedGroup (groupEffect st) = selectedGroup st.
Proof. unfold groupEffect. now destruct (truthy_group _). Qed.

(** A commit that changes the page, to one that is not the search page,
    runs the search effect, which clears the timer and the results. *)
Lemma commit_leaves_search (before : AppState) (w : World) :
  currentPage before = "search" ->
  currentPage (app (commit before w)) <> "search" ->
  timer (commit before w) = None
  /\ searchResults (app (commit before w)) = [].
Proof.
  intros Hb Ha. unfold commit in *.
  set (w1 := if option_string_eqb (selectedGroup before) (selectedGroup (app w))
             then w else with_app groupEffect w) in *.
  destruct (String.eqb (searchQuery before) (searchQuery (app w1))
            && String.eqb (currentPage before) (currentPage (app w1))) eqn:E.
  - apply andb_true_iff in E as [_ E]. apply String.eqb_eq in E. congruence.
  - unfold searchEffect in *.
    destruct (negb (String.eqb (currentPage (app w1)) "search")) eqn:E2.
    + split; reflexivity.
    + cbn [app] in Ha. apply negb_false_iff, String.eqb_eq in E2. contradiction.
Qed.

(** Whichever event leaves the search view, it cancels the pending timer
    and clears the results at once; searches in flight stay in flight. *)
Lemma leaving_search (base : string) (w : World) (ev : Event) :
  currentPage (app w) = "search" ->
  currentPage (app (step base w ev)) <> "search" ->
  timer (step base w ev) = None
  /\ searchResults (app (step base w ev)) = []
  /\ inflight (step base w ev) = inflight w.
Proof.
  intros Hs Ha. destruct ev as [q|page| |g| |n outcome]; cbn [step] in *.
  - rewrite Hs in *. cbn [String.eqb Ascii.eqb Bool.eqb] in *.
    rewrite commit_inflight.
    destruct (commit_leaves_search _ _ Hs Ha). auto.
  - destruct (negb _ && _); [|contradiction].
    rewrite commit_inflight.
    destruct (commit_leaves_search _ _ Hs Ha). auto.
  - destruct (negb _ && _); [|contradiction].
    rewrite commit_inflight.
    destruct (commit_leaves_search _ _ Hs Ha). auto.
  - destruct (String.eqb _ _); [|contradiction].
    rewrite commit_inflight.
    destruct (commit_leaves_search _ _ Hs Ha). auto.
  - destruct (timer w) as [call|]; [|contradiction].
    destruct (negb _); cbn [app] in Ha; contradiction.
  - destruct (nth_error _ _) as [call|]; [|contradiction].
    cbn [app] in Ha. exfalso. apply Ha.
    unfold handleSearch_settle.
    destruct (try_catch _ _) as [st1|e] eqn:E; cbn [bind]; [|exact Hs].
    unfold try_catch in E.
    destruct (bind _ _) as [st2|e2] eqn:E2.
    + injection E as <-.
      destruct (fetch_json _ _) as [doc|]; cbn [bind] in E2; [|discriminate].
      destruct (search_js _ _ _); cbn [bind] in E2; [|discriminate].
      injection E2 as <-. exact Hs.
    + injection E as <-. exact Hs.
Qed.

Lemma option_string_eqb_refl (a : option string) : option_string_eqb a a = true.
Proof. destruct a; cbn; [apply String.eqb_refl | reflexivity]. Qed.

Lemma searchEffect_page (w : World) :
  currentPage (app (searchEffect w)) = currentPage (app w).
Proof. unfold searchEffect. now destruct (negb _). Qed.

Lemma groupEffect_page (st : AppState) :
  currentPage (groupEffect st) = "home"
  \/ currentPage (groupEffect st) = "groupSelect".
Proof. unfold groupEffect. destruct (truthy_group _); cbn; auto. Qed.

(** The page after a commit: the group effect decides it when the selected
    group changed, the update itself otherwise. *)
Lemma commit_page (before : AppState) (w : World) :
  currentPage (app (commit before w))
  = if option_string_eqb (selectedGroup before) (selectedGroup (app w))
    then currentPage (app w) else currentPage (groupEffect (app w)).
Proof.
  unfold commit.
  destruct (option_string_eqb _ _); destruct (_ && _);
    rewrite ?searchEffect_page; reflexivity.
Qed.

(** A commit started with no timer and no results, and ending on a page
    other than the search page, ends with no timer and no results. *)
Lemma commit_at_rest (before : AppState) (w : World) :
  timer w = None -> searchResults (app w) = [] ->
  currentPage (app (commit before w)) <> "search" ->
  timer (commit before w) = None /\ searchResults (app (commit before w)) = [].
Proof.
  intros Ht Hr Hp. unfold commit in *.
  set (w1 := if option_string_eqb (selectedGroup before) (selectedGroup (app w))
             then w else with_app groupEffect w) in *.
  assert (H1 : timer w1 = None /\ searchResults (app w1) = []).
  { subst w1. destruct (option_string_eqb _ _); [auto|].
    cbn [with_app timer app]. split; [exact Ht|].
    now rewrite (proj1 (proj2 (groupEffect_frame (app w)))). }
  destruct (_ && _); [exact H1|].
  rewrite searchEffect_page in Hp. rewrite (searchEffect_away _ Hp).
  split; reflexivity.
Qed.

Lemma step_stays_away (base : string) (w : World) (ev : Event) :
  currentPage (app w) <> "search" -> stays_away ev = true ->
  currentPage (app (step base w ev)) <> "search".
Proof.
  intros Hp Hev. destruct ev as [q|page| |g| |n outcome]; cbn [step].
  - rewrite (proj2 (String.eqb_neq _ _) Hp). exact Hp.
  - destruct (negb _ && _); [|exact Hp].
    rewrite commit_page. cbn [with_app app selectedGroup setCurrentPage currentPage].
    rewrite option_string_eqb_refl.
    cbn [stays_away] in Hev. now apply negb_true_iff, String.eqb_neq in Hev.
  - destruct (negb _ && truthy_group (selectedGroup (app w))) eqn:E; [|exact Hp].
    apply andb_true_iff in E as [_ E].
    rewrite commit_page. cbn [with_app app selectedGroup setCurrentPage
      setSelectedGroup currentPage].
    destruct (selectedGroup (app w)) as [g|]; [|discriminate E].
    cbn [option_string_eqb]. cbn. discriminate.
  - destruct (String.eqb (currentPage (app w)) "groupSelect") eqn:E; [|exact Hp].
    rewrite commit_page.
    destruct (option_string_eqb _ _).
    + cbn [with_app app setSelectedGroup currentPage]. exact Hp.
    + destruct (groupEffect_page (app (with_app (setSelectedGroup (Some g)) w)))
        as [-> | ->]; discriminate.
  - destruct (timer w) as [call|]; [|exact Hp].
    destruct (negb _); exact Hp.
  - destruct (nth_error _ _) as [call|]; [|exact Hp].
    cbn [app]. unfold handleSearch_settle.
    destruct (try_catch _ _) as [st1|e] eqn:E; cbn [bind]; [|exact Hp].
    unfold try_catch in E.
    destruct (bind _ _) as [st2|e2] eqn:E2.
    + injection E as <-.
      destruct (fetch_json _ _) as [doc|]; cbn [bind] in E2; [|discriminate].
      destruct (search_js _ _ _); cbn [bind] in E2; [|discriminate].
      injection E2 as <-. exact Hp.
    + injection E as <-. exact Hp.
Qed.

(** While the search view stays closed and no search is in flight, nothing
    of a search comes back. *)
Lemma step_at_rest (base : string) (w : World) (ev : Event) :
  search_at_rest w -> stays_away ev = true -> search_at_rest (step base w ev).
Proof.
  intros (Hp & Ht & Hi & Hr) Hev.
  pose proof (step_stays_away base w ev Hp Hev) as Hp'.
  split; [exact Hp'|].
  destruct ev as [q|page| |g| |n outcome]; cbn [step] in *.
  - rewrite (proj2 (String.eqb_neq _ _) Hp). auto.
  - destruct (negb _ && _); [|auto].
    rewrite commit_inflight.
    destruct (commit_at_rest (app w) (with_app (setCurrentPage page) w));
      auto.
  - destruct (negb _ && _); [|auto].
    rewrite commit_inflight.
    destruct (commit_at_rest (app w)
                (with_app (fun s => setCurrentPage "groupSelect"
                                      (setSelectedGroup None s)) w)); auto.
  - destruct (String.eqb _ _); [|auto].
    rewrite commit_inflight.
    destruct (commit_at_rest (app w) (with_app (setSelectedGroup (Some g)) w));
      auto.
  - rewrite Ht. auto.
  - rewrite Hi. destruct n; cbn [nth_error]; auto.
Qed.

Lemma run_at_rest (base : string) (evs : list Event) (w : World) :
  search_at_rest w -> forallb stays_away evs = true ->
  search_at_rest (run base evs w).
Proof.
  revert w. induction evs as [|ev evs IH]; intros w Hw Hevs; [exact Hw|].
  cbn [forallb] in Hevs. apply andb_true_iff in Hevs as [Hev Hevs].
  cbn [run fold_left]. apply IH; [|exact Hevs].
  now apply step_at_rest.
Qed.

(** Opening the search page arms the timer and shows no results yet. *)
Lemma return_to_search (base : string) (w : World) :
  search_at_rest w ->
  searchResults (app (step base w (Navigate "search"))) = []
  /\ inflight (step base w (Navigate "search")) = []
  /\ (currentPage (app (step base w (Navigate "search"))) = "search" ->
      timer (step base w (Navigate "search"))
      = Some {| call_query := searchQuery (app w);
                call_group := selectedGroup (app w) |}).
Proof.
  intros (Hp & Ht & Hi & Hr). cbn [step].
  destruct (negb _ && _).
  - rewrite commit_inflight. cbn [with_app inflight].
    unfold commit. cbn [with_app app selectedGroup setCurrentPage searchQuery
      currentPage].
    rewrite option_string_eqb_refl, String.eqb_refl. cbn [andb].
    change (currentPage (app (with_app (setCurrentPage "search") w)))
      with "search".
    rewrite (proj2 (String.eqb_neq _ _) Hp).
    unfold searchEffect. cbn. auto.
  - rewrite Hr, Hi. split; [reflexivity|]. split; [reflexivity|].
    intros H. contradiction.
Qed.

(** C8, as the code has it.  Whichever event leaves the search view, it
    cancels the pending debounce timer (the timer's callback never runs)
    and clears the stored results at once, and it leaves the searches in
    flight as they are.  When no search is in flight at that moment, then
    for as long as the search view is not opened again there is no timer,
    no search in flight and no result, and opening the search view again
    shows no result. *)
Theorem leaving_search_cancels_timer_and_clears_results
  (base : string) (w : World) (ev : Event) (evs : list Event) :
  currentPage (app w) = "search" ->
  currentPage (app (step base w ev)) <> "search" ->
  timer (step base w ev) = None
  /\ step base (step base w ev) TimerFires = step base w ev
  /\ searchResults (app (step base w ev)) = []
  /\ inflight (step base w ev) = inflight w
  /\ (inflight w = [] -> forallb stays_away evs = true ->
      currentPage (app (run base evs (step base w ev))) <> "search"
      /\ timer (run base evs (step base w ev)) = None
      /\ inflight (run base evs (step base w ev)) = []
      /\ searchResults (app (run base evs (step base w ev))) = []
      /\ searchResults
           (app (step base (run base evs (step base w ev)) (Navigate "search")))
         = []).
Proof.
  intros Hs Ha.
  destruct (leaving_search base w ev Hs Ha) as (Ht & Hr & Hi).
  split; [exact Ht|]. split; [cbn [step]; now rewrite Ht|].
  split; [exact Hr|]. split; [exact Hi|].
  intros Hnone Hevs.
  assert (Hrest : search_at_rest (run base evs (step base w ev))).
  { apply run_at_rest; [|exact Hevs].
    repeat split; try assumption. congruence. }
  destruct Hrest as (H1 & H2 & H3 & H4).
  repeat split; try assumption.
  apply return_to_search. repeat split; assumption.
Qed.

Lemma leaving_search_cancels_timer_and_clears_results_witness :
  let w := run "/data" [Navigate "search"; TypeQuery "room"]
               (mount (Some "A") false) in
  let left := step "/data" w (Navigate "home") in
  let evs := [TimerFires; Navigate "courses"; SwitchGroup; SelectGroup "B";
              Navigate "timetable"] in
  timer w = Some {| call_query := "room"; call_group := Some "A" |}
  /\ timer left = None
  /\ step "/data" left TimerFires = left
  /\ searchResults (app left) = []
  /\ inflight left = inflight w
  /\ (inflight w = [] -> forallb stays_away evs = true ->
      currentPage (app (run "/data" evs left)) <> "search"
      /\ timer (run "/data" evs left) = None
      /\ inflight (run "/data" evs left) = []
      /\ searchResults (app (run "/data" evs left)) = []
      /\ searchResults
           (app (step "/data" (run "/data" evs left) (Navigate "search")))
         = []).
Proof.
  split; [reflexivity|].
  apply (leaving_search_cancels_timer_and_clears_results "/data"
           (run "/data" [Navigate "search"; TypeQuery "room"]
                (mount (Some "A") false))
           (Navigate "home")).
  - reflexivity.
  - discriminate.
Defined.

(** C8 as stated fails: a search in flight is not cancelled by leaving the
    search view.  The query "room" is typed, the timer fires and the fetch
    starts; the user leaves for the home page (the results are cleared, the
    search stays in flight); the fetch settles and stores its results; back
    on the search page, with no new query, the results of the earlier
    search are shown at once.  With a change of group in between, the
    results shown are those of group A while group B is selected. *)
Lemma search_in_flight_survives_leaving :
  let served := Samples.served "/data/timetable.json" in
  let start := run "/data" [Navigate "search"; TypeQuery "room"; TimerFires]
                   (mount (Some "A") false) in
  let left := step "/data" start (Navigate "home") in
  let back := run "/data" [FetchSettles 0 served; Navigate "search"] left in
  let other := run "/data" [SwitchGroup; SelectGroup "B";
                            FetchSettles 0 served; Navigate "search"] start in
  searchResults (app left) = []
  /\ timer left = None
  /\ inflight left = [{| call_query := "room"; call_group := Some "A" |}]
  /\ currentPage (app back) = "search"
  /\ searchQuery (app back) = "room"
  /\ searchPageView (app back)
     = ShowResults
         (map json_of_result
            [tag Samples.group_a Samples.mon_1400;
             tag Samples.group_a Samples.mon_0900;
             tag Samples.group_a Samples.lower_monday])
  /\ currentPage (app other) = "search"
  /\ selectedGroup (app other) = Some "B"
  /\ searchPageView (app other)
     = ShowResults
         (map json_of_result
            [tag Samples.group_a Samples.mon_1400;
             tag Samples.group_a Samples.mon_0900;
             tag Samples.group_a Samples.lower_monday]).
Proof. cbv zeta. repeat split; vm_compute; reflexivity. Qed.

(** C6 at the input where the code departs from it: the query [" "], white
    space only.  The debounced effect treats it as no query (it runs no
    search and stores no results), yet [SearchPage] shows the message for a
    query without matches, as it does for "zzz", which matches nothing; the
    prompt for a query is shown for the empty string only. *)
Theorem blank_query_shows_no_results_message :
  let opened := run "/data" [Navigate "search"] (mount (Some "A") false) in
  let spaces := run "/data" [TypeQuery " "; TimerFires] opened in
  let nothing := run "/data"
                   [TypeQuery "zzz"; TimerFires;
                    FetchSettles 0 (Samples.served "/data/timetable.json")]
                   opened in
  blank " " = true
  /\ searchPageView (app opened) = StartTyping
  /\ timer spaces = None /\ inflight spaces = []
  /\ searchResults (app spaces) = []
  /\ searchPageView (app spaces) = NoResultsFor " "
  /\ searchPageView (app nothing) = NoResultsFor "zzz".
Proof. cbv zeta. repeat split; vm_compute; reflexivity. Qed.

(** * Further properties *)

(** ** Search: refining, letter case, the group filter *)

Lemma lower_char_space (c : ascii) : is_space (lower_char c) = is_space c.
Proof.
  unfold lower_char. destruct (is_upper c) eqn:E; [|reflexivity].
  apply is_upper_spec in E. unfold is_space; cbv zeta.
  rewrite N_ascii_embedding by lia.
  repeat match goal with
    | |- context [(?a <=? ?b)%N] => destruct (N.leb_spec a b)
    | |- context [(?a =? ?b)%N] => destruct (N.eqb_spec a b)
    end; cbn; try reflexivity; lia.
Qed.

Lemma blank_lower (s : string) : blank (toLowerCase s) = blank s.
Proof.
  induction s as [|c s IH]; cbn [toLowerCase blank]; [reflexivity|].
  now rewrite lower_char_space, IH.
Qed.

Lemma blank_app (a b : string) : blank (a ++ b) = blank a && blank b.
Proof.
  induction a as [|c a IH]; cbn [append blank]; [reflexivity|].
  now rewrite IH, andb_assoc.
Qed.

Lemma blank_substring (q s : string) :
  substring_of q s -> blank s = true -> blank q = true.
Proof.
  intros (pre & post & ->). rewrite !blank_app, !andb_true_iff. tauto.
Qed.

Lemma substring_of_trans (a b c : string) :
  substring_of a b -> substring_of b c -> substring_of a c.
Proof.
  intros (p1 & s1 & ->) (p2 & s2 & ->). exists (p2 ++ p1), (s1 ++ s2).
  assert (Happ : forall x y z : string, (x ++ y) ++ z = x ++ y ++ z).
  { intros x y z. induction x as [|ch x IH]; cbn; [reflexivity | now rewrite IH]. }
  now rewrite !Happ.
Qed.

(** The two loops as one expression: dataset by dataset, the matching
    entries of a dataset that is not skipped. *)
Lemma search_groups_flat (searchQuery : string) (selectedGroup : option string)
  (gs : list GroupDataset) (results : list SearchResult) :
  search_groups (toLowerCase searchQuery) selectedGroup results gs
  = (results
     ++ flat_map (fun g => if skips_group selectedGroup g then []
                           else map (tag g)
                                  (filter (entry_matches searchQuery) (entries g)))
          gs)%list.
Proof.
  revert results. induction gs as [|g gs IH]; intros results;
    cbn [search_groups flat_map].
  - now rewrite app_nil_r.
  - destruct (skips_group selectedGroup g).
    + apply IH.
    + rewrite IH, search_entries_filter, <- app_assoc. reflexivity.
Qed.

Lemma filter_flat_map {A B : Type} (p : B -> bool) (f : A -> list B) (l : list A) :
  filter p (flat_map f l) = flat_map (fun x => filter p (f x)) l.
Proof.
  induction l as [|x l IH]; cbn [flat_map filter]; [reflexivity|].
  now rewrite filter_app, IH.
Qed.

Lemma filter_map_comp {A B : Type} (p : B -> bool) (f : A -> B) (l : list A) :
  filter p (map f l) = map f (filter (fun x => p (f x)) l).
Proof.
  induction l as [|x l IH]; cbn [map filter]; [reflexivity|].
  destruct (p (f x)); cbn [map]; now rewrite IH.
Qed.

Lemma filter_filter {A : Type} (p q : A -> bool) (l : list A) :
  filter p (filter q l) = filter (fun x => q x && p x) l.
Proof.
  induction l as [|x l IH]; cbn [filter]; [reflexivity|].
  destruct (q x); cbn [filter andb]; [|exact IH].
  destruct (p x); now rewrite IH.
Qed.

Lemma entry_matches_narrows (q1 q2 : string) (e : ScheduleEntry) :
  substring_of (toLowerCase q1) (toLowerCase q2) ->
  entry_matches q2 e = true -> entry_matches q1 e = true.
Proof.
  unfold entry_matches. rewrite !matches_query. unfold query_matches.
  intros Hsub H.
  repeat destruct H as [H | H]; eauto 6 using substring_of_trans.
Qed.

(** Refining a query filters the results already found: when the query
    [q1] is not blank and occurs in [q2] up to letter case, the results for
    [q2] are those results for [q1] whose entry matches [q2], in the same
    order; so typing more never brings in a new result. *)
Theorem search_refines
  (T : AggregateDataset) (q1 q2 : string) (selectedGroup : option string) :
  blank q1 = false ->
  substring_of (toLowerCase q1) (toLowerCase q2) ->
  searchTimetable T q2 selectedGroup
  = filter (fun r => entry_matches q2 (result_entry r))
           (searchTimetable T q1 selectedGroup)
  /\ (forall r, In r (searchTimetable T q2 selectedGroup) ->
                In r (searchTimetable T q1 selectedGroup)).
Proof.
  intros Hq1 Hsub.
  assert (Hq2 : blank q2 = false).
  { destruct (blank q2) eqn:E; [|reflexivity].
    rewrite <- blank_lower in E. apply (blank_substring _ _ Hsub) in E.
    rewrite blank_lower in E. congruence. }
  assert (Heq : searchTimetable T q2 selectedGroup
                = filter (fun r => entry_matches q2 (result_entry r))
                         (searchTimetable T q1 selectedGroup)).
  { unfold searchTimetable. rewrite Hq1, Hq2, !search_groups_flat.
    rewrite !app_nil_l, filter_flat_map. apply flat_map_ext. intros g.
    destruct (skips_group selectedGroup g); [reflexivity|].
    rewrite filter_map_comp. cbn [tag result_entry]. f_equal.
    rewrite filter_filter. apply filter_ext. intros e.
    destruct (entry_matches q2 e) eqn:E2; [|now rewrite andb_false_r].
    now rewrite (entry_matches_narrows q1 q2 e Hsub E2). }
  split; [exact Heq|].
  intros r Hr. rewrite Heq in Hr. now apply filter_In in Hr.
Qed.

Lemma search_refines_witness :
  searchTimetable Samples.timetable "Room 20" (Some "A")
  = filter (fun r => entry_matches "Room 20" (result_entry r))
           (searchTimetable Samples.timetable "room" (Some "A"))
  /\ (forall r, In r (searchTimetable Samples.timetable "Room 20" (Some "A")) ->
                In r (searchTimetable Samples.timetable "room" (Some "A"))).
Proof.
  apply (search_refines Samples.timetable "room" "Room 20" (Some "A")).
  - reflexivity.
  - exists "", " 20". reflexivity.
Defined.

Lemma skips_group_same_filter (a b : option string) (g : GroupDataset) :
  same_filter a b -> skips_group a g = skips_group b g.
Proof.
  destruct a as [x|], b as [y|]; cbn [same_filter]; try tauto.
  intros H. unfold skips_group.
  rewrite (proj1 (eq_nocase_lower x y) H).
  now destruct H.
Qed.

(** The search ignores letter case in the query and in the group filter:
    queries equal up to letter case, with filters equal up to letter case,
    give the same results. *)
Theorem search_ignores_letter_case
  (T : AggregateDataset) (q q' : string) (sel sel' : option string) :
  eq_nocase q q' ->
  same_filter sel sel' ->
  searchTimetable T q sel = searchTimetable T q' sel'.
Proof.
  intros Hq Hsel. apply eq_nocase_lower in Hq.
  unfold searchTimetable.
  rewrite <- (blank_lower q), <- (blank_lower q'), Hq.
  destruct (blank (toLowerCase q')); [reflexivity|].
  generalize (@nil SearchResult).
  induction (data T) as [|g gs IH]; intros acc; cbn [search_groups];
    [reflexivity|].
  rewrite (skips_group_same_filter sel sel' g Hsel).
  destruct (skips_group sel' g); apply IH.
Qed.

Lemma search_ignores_letter_case_witness :
  searchTimetable Samples.timetable "ROOM 204" (Some "a")
  = searchTimetable Samples.timetable "room 204" (Some "A").
Proof.
  apply (search_ignores_letter_case Samples.timetable
           "ROOM 204" "room 204" (Some "a") (Some "A")).
  - apply eq_nocase_lower. reflexivity.
  - apply eq_nocase_lower. reflexivity.
Defined.

Lemma filter_none {A : Type} (p : A -> bool) (l : list A) :
  (forall x, In x l -> p x = false) -> filter p l = [].
Proof.
  induction l as [|x l IH]; intros H; cbn [filter]; [reflexivity|].
  rewrite (H x (or_introl eq_refl)). apply IH. intros y Hy. apply H. now right.
Qed.

Lemma filter_all {A : Type} (p : A -> bool) (l : list A) :
  (forall x, In x l -> p x = true) -> filter p l = l.
Proof.
  induction l as [|x l IH]; intros H; cbn [filter]; [reflexivity|].
  rewrite (H x (or_introl eq_refl)). f_equal. apply IH.
  intros y Hy. apply H. now right.
Qed.

(** Searching with a group selected gives the results of the search over
    all groups that were found in a dataset of that group (up to letter
    case), in the same order. *)
Theorem search_with_group_filters_global_search
  (T : AggregateDataset) (searchQuery g : string) :
  truthy_string g = true ->
  searchTimetable T searchQuery (Some g)
  = filter (result_in_group g) (searchTimetable T searchQuery None).
Proof.
  intros Hg. unfold searchTimetable.
  destruct (blank searchQuery); [reflexivity|].
  rewrite !search_groups_flat, !app_nil_l, filter_flat_map.
  apply flat_map_ext. intros d. cbn [skips_group]. rewrite Hg. cbn [andb].
  destruct (String.eqb (toLowerCase (group d)) (toLowerCase g)) eqn:E;
    cbn [negb].
  - symmetry. apply filter_all. intros r Hr.
    apply in_map_iff in Hr as (e & <- & _). exact E.
  - symmetry. apply filter_none. intros r Hr.
    apply in_map_iff in Hr as (e & <- & _). exact E.
Qed.

Lemma search_with_group_filters_global_search_witness :
  searchTimetable Samples.timetable "room" (Some "b")
  = filter (result_in_group "b") (searchTimetable Samples.timetable "room" None).
Proof.
  apply (search_with_group_filters_global_search Samples.timetable "room" "b").
  reflexivity.
Defined.

(** ** The weekly view: order, ties, counts *)

Lemma Permutation_filter_same {A : Type} (p : A -> bool) (l l' : list A) :
  Permutation l l' -> Permutation (filter p l) (filter p l').
Proof.
  induction 1 as [|x l l' _ IH|x y l|l l' l'' _ IH1 _ IH2]; cbn [filter].
  - constructor.
  - destruct (p x); [now constructor | exact IH].
  - destruct (p x), (p y); try reflexivity. apply perm_swap.
  - now transitivity (filter p l').
Qed.

Lemma string_leb_refl (s : string) : String.leb s s = true.
Proof.
  unfold String.leb. pose proof (String.compare_antisym s s) as H.
  now destruct (String.compare s s).
Qed.

Lemma sorted_strings_unique (l1 l2 : list string) :
  StronglySorted (fun a b => String.leb a b = true) l1 ->
  StronglySorted (fun a b => String.leb a b = true) l2 ->
  Permutation l1 l2 -> l1 = l2.
Proof.
  revert l2. induction l1 as [|a l1 IH]; intros l2 H1 H2 Hp.
  - now apply Permutation_nil in Hp.
  - destruct l2 as [|b l2]; [now apply Permutation_sym, Permutation_nil in Hp|].
    inversion H1 as [|? ? H1' Ha]; subst. inversion H2 as [|? ? H2' Hb]; subst.
    rewrite Forall_forall in Ha, Hb.
    assert (Hba : String.leb b a = true).
    { destruct (Permutation_in a Hp (or_introl eq_refl)) as [->|Hin];
        [apply string_leb_refl | now apply Hb]. }
    assert (Hab : String.leb a b = true).
    { destruct (Permutation_in b (Permutation_sym Hp) (or_introl eq_refl))
        as [->|Hin]; [apply string_leb_refl | now apply Ha]. }
    assert (a = b) by now apply String.leb_antisym. subst b.
    f_equal. apply IH; try assumption. now apply Permutation_cons_inv in Hp.
Qed.

Lemma StronglySorted_start_of (l : list ScheduleEntry) :
  StronglySorted start_lex_le l ->
  StronglySorted (fun a b => String.leb a b = true) (map start_of l).
Proof.
  induction 1 as [|a l _ IH Ha]; cbn [map]; constructor; [exact IH|].
  rewrite Forall_forall in *. intros s Hs.
  apply in_map_iff in Hs as (e & <- & He). now apply Ha.
Qed.

Lemma sorted_classes_unique (l1 l2 : list ScheduleEntry) :
  (forall a b, In a l1 -> In b l1 -> start_of a = start_of b -> a = b) ->
  StronglySorted start_lex_le l1 -> StronglySorted start_lex_le l2 ->
  Permutation l1 l2 -> l1 = l2.
Proof.
  revert l2. induction l1 as [|a l1 IH]; intros l2 Hinj H1 H2 Hp.
  - now apply Permutation_nil in Hp.
  - destruct l2 as [|b l2]; [now apply Permutation_sym, Permutation_nil in Hp|].
    inversion H1 as [|? ? H1' Ha]; subst. inversion H2 as [|? ? H2' Hb]; subst.
    rewrite Forall_forall in Ha, Hb.
    pose proof (Permutation_in b (Permutation_sym Hp) (or_introl eq_refl)) as Hbin.
    assert (Hba : String.leb (start_of b) (start_of a) = true).
    { destruct (Permutation_in a Hp (or_introl eq_refl)) as [->|Hin];
        [apply string_leb_refl | now apply Hb]. }
    assert (Hab : String.leb (start_of a) (start_of b) = true).
    { destruct Hbin as [->|Hin]; [apply string_leb_refl | now apply Ha]. }
    assert (a = b).
    { apply Hinj; [now left | exact Hbin | now apply String.leb_antisym]. }
    subst b. f_equal. apply IH; try assumption.
    + intros x y Hx Hy. apply Hinj; now right.
    + now apply Permutation_cons_inv in Hp.
Qed.

Section WeeklyOrder.
Context {collation : Collation}.

Lemma weeklyView_card (G : GroupDataset) (card : DayCard) :
  In card (weeklyView G) ->
  In (card_day card) days
  /\ card_count card = List.length (dayClasses G (card_day card))
  /\ card_classes card = js_sort by_start_time (dayClasses G (card_day card)).
Proof.
  intros Hin. unfold weeklyView in Hin. apply in_map_iff in Hin.
  destruct Hin as (d & <- & Hd). cbn. auto.
Qed.

Lemma sorted_day (G G' : GroupDataset) (d : string) :
  Permutation (entries G) (entries G') ->
  Forall has_hhmm_start (entries G) ->
  Permutation (js_sort by_start_time (dayClasses G d))
              (js_sort by_start_time (dayClasses G' d))
  /\ StronglySorted start_lex_le (js_sort by_start_time (dayClasses G d))
  /\ StronglySorted start_lex_le (js_sort by_start_time (dayClasses G' d)).
Proof.
  intros Hp Hwf.
  assert (Hwf' : Forall has_hhmm_start (entries G')).
  { rewrite Forall_forall in *. intros e He. apply Hwf.
    now apply (Permutation_in _ (Permutation_sym Hp)). }
  split; [|split; now apply weekly_bucket].
  rewrite !js_sort_perm. unfold dayClasses. now apply Permutation_filter_same.
Qed.

End WeeklyOrder.

(** The weekly view does not depend on the order of the dataset: two
    datasets with the same entries in any order (start times in ["HH:MM"]
    format) give the same days, the same counts and the same sequence of
    start times in every card; when no two entries of a day start at the
    same time, they give the same cards. *)
Theorem weekly_view_ignores_dataset_order
  (collation : Collation) (G G' : GroupDataset) :
  Permutation (entries G) (entries G') ->
  Forall has_hhmm_start (entries G) ->
  map card_day (weeklyView G) = map card_day (weeklyView G')
  /\ map card_count (weeklyView G) = map card_count (weeklyView G')
  /\ map (fun card => map start_of (card_classes card)) (weeklyView G)
     = map (fun card => map start_of (card_classes card)) (weeklyView G')
  /\ ((forall a b, In a (entries G) -> In b (entries G) ->
                   day a = day b -> start_of a = start_of b -> a = b) ->
      weeklyView G = weeklyView G').
Proof.
  intros Hp Hwf. unfold weeklyView. rewrite !map_map. cbn [card_day card_count card_classes].
  split; [reflexivity|]. split; [|split].
  - apply map_ext. intros d. apply Permutation_length.
    unfold dayClasses. now apply Permutation_filter_same.
  - apply map_ext. intros d.
    destruct (sorted_day G G' d Hp Hwf) as (Hperm & Hs & Hs').
    apply sorted_strings_unique; try now apply StronglySorted_start_of.
    now apply Permutation_map.
  - intros Hinj. apply map_ext. intros d.
    destruct (sorted_day G G' d Hp Hwf) as (Hperm & Hs & Hs').
    assert (Hlen : List.length (dayClasses G d) = List.length (dayClasses G' d)).
    { apply Permutation_length. unfold dayClasses.
      now apply Permutation_filter_same. }
    rewrite Hlen. f_equal.
    apply sorted_classes_unique; try assumption.
    intros a b Ha Hb.
    apply (Permutation_in _ (js_sort_perm _ _)) in Ha, Hb.
    unfold dayClasses in Ha, Hb. apply filter_In in Ha as [Ha Hda], Hb as [Hb Hdb].
    apply String.eqb_eq in Hda, Hdb. apply Hinj; congruence.
Qed.

Lemma weekly_view_ignores_dataset_order_witness :
  weeklyView Samples.group_a
  = weeklyView {| group := "A"; entries := rev (entries Samples.group_a) |}.
Proof.
  apply (weekly_view_ignores_dataset_order unit_collation Samples.group_a
           {| group := "A"; entries := rev (entries Samples.group_a) |}).
  - apply Permutation_rev.
  - repeat constructor.
  - cbn [entries Samples.group_a]. intros a b Ha Hb.
    cbn [In] in Ha, Hb.
    repeat destruct Ha as [<- | Ha]; try contradiction;
      repeat destruct Hb as [<- | Hb]; try contradiction;
      intros Hd Hs; try reflexivity; discriminate.
Defined.

Section SortStability.
Context {A : Type}.
Variable compareFn : A -> A -> Z.
Variable p : A -> bool.

Lemma sort_insert_filter (x : A) (l : list A) :
  (p x = true -> forall y, In y l -> p y = true -> (compareFn x y <=? 0) = true) ->
  filter p (sort_insert compareFn x l) = filter p (x :: l).
Proof.
  induction l as [|y l IH]; intros H; cbn [sort_insert]; [reflexivity|].
  destruct (compareFn x y <=? 0) eqn:E; [reflexivity|].
  cbn [filter]. rewrite IH by (intros Hx z Hz; apply H; [exact Hx | now right]).
  cbn [filter].
  destruct (p x) eqn:Ex, (p y) eqn:Ey; try reflexivity.
  rewrite (H eq_refl y (or_introl eq_refl) Ey) in E. discriminate.
Qed.

Lemma js_sort_filter (l : list A) :
  (forall x y, In x l -> In y l -> p x = true -> p y = true ->
               (compareFn x y <=? 0) = true) ->
  filter p (js_sort compareFn l) = filter p l.
Proof.
  induction l as [|x l IH]; intros H; cbn [js_sort]; [reflexivity|].
  rewrite sort_insert_filter.
  - cbn [filter]. rewrite IH; [reflexivity|].
    intros a b Ha Hb. apply H; now right.
  - intros Hx y Hy Hpy. apply H; auto; [now left|].
    right. now apply (Permutation_in _ (js_sort_perm compareFn l)).
Qed.

End SortStability.

(** Classes of a day that start at the same time are listed in the order
    of the dataset: the sort moves no class past another one with the same
    start time. *)
Theorem weekly_view_keeps_dataset_order_on_ties
  (collation : Collation) (G : GroupDataset) (card : DayCard) (t : string) :
  Forall has_hhmm_start (entries G) ->
  In card (weeklyView G) ->
  filter (starts_at t) (card_classes card)
  = filter (starts_at t) (dayClasses G (card_day card)).
Proof.
  intros Hwf Hin. destruct (weeklyView_card G card Hin) as (_ & _ & ->).
  apply js_sort_filter. intros a b Ha Hb Hat Hbt.
  unfold starts_at in Hat, Hbt. apply String.eqb_eq in Hat, Hbt.
  rewrite Forall_forall in Hwf.
  unfold dayClasses in Ha, Hb. apply filter_In in Ha as [Ha _], Hb as [Hb _].
  rewrite by_start_time_leb by now apply Hwf.
  rewrite Hat, Hbt. apply string_leb_refl.
Qed.

Lemma weekly_view_keeps_dataset_order_on_ties_witness :
  let twin := {| day := "Monday"; time_slot := Samples.slot "09:00" "09:50" 50;
                 room := "Lab 2"; entry_type := "Lab";
                 course := Samples.networks |} in
  let G := {| group := "A";
              entries := [Samples.mon_1400; twin; Samples.mon_0900] |} in
  let monday := {| card_day := "Monday"; card_count := 3;
                   card_classes := [twin; Samples.mon_0900; Samples.mon_1400] |} in
  filter (starts_at "09:00") (card_classes monday)
  = filter (starts_at "09:00") (dayClasses G (card_day monday)).
Proof.
  cbv zeta.
  apply (weekly_view_keeps_dataset_order_on_ties unit_collation
           {| group := "A";
              entries := [Samples.mon_1400;
                          {| day := "Monday";
                             time_slot := Samples.slot "09:00" "09:50" 50;
                             room := "Lab 2"; entry_type := "Lab";
                             course := Samples.networks |};
                          Samples.mon_0900] |}).
  - repeat constructor.
  - left. reflexivity.
Defined.

Lemma count_disjoint {A : Type} (p q : A -> bool) (l : list A) :
  (forall x, p x = true -> q x = false) ->
  List.length (filter (fun x => p x || q x) l)
  = (List.length (filter p l) + List.length (filter q l))%nat.
Proof.
  intros H. induction l as [|x l IH]; cbn [filter]; [reflexivity|].
  destruct (p x) eqn:Ep; cbn [orb].
  - rewrite (H x Ep). cbn [List.length]. now rewrite IH.
  - destruct (q x); cbn [List.length]; rewrite IH; lia.
Qed.

Lemma count_by_day (ds : list string) (l : list ScheduleEntry) :
  NoDup ds ->
  list_sum (map (fun d => List.length
                            (filter (fun e => String.eqb (day e) d) l)) ds)
  = List.length (filter (fun e => existsb (String.eqb (day e)) ds) l).
Proof.
  induction 1 as [|d ds Hd _ IH]; cbn [map list_sum fold_right existsb].
  - induction l as [|e l IHl]; [reflexivity | exact IHl].
  - fold (list_sum (map (fun d0 => List.length
                          (filter (fun e => String.eqb (day e) d0) l)) ds)).
    rewrite IH, count_disjoint; [reflexivity|].
    intros e He. apply String.eqb_eq in He.
    destruct (existsb (String.eqb (day e)) ds) eqn:E; [|reflexivity].
    apply existsb_exists in E as (d' & Hd' & E). apply String.eqb_eq in E.
    congruence.
Qed.

(** The counts of the weekly view: the number in a card's header is the
    number of classes listed in the card; the counts add up to the number of
    entries whose day is one of the five names, so never to more than the
    dataset holds; and no entry is listed in the cards of two days. *)
Theorem weekly_view_counts (collation : Collation) (G : GroupDataset) :
  (forall card, In card (weeklyView G) ->
                card_count card = List.length (card_classes card))
  /\ list_sum (map card_count (weeklyView G))
     = List.length (filter on_weekday (entries G))
  /\ (list_sum (map card_count (weeklyView G)) <= List.length (entries G))%nat
  /\ (forall c1 c2 e, In c1 (weeklyView G) -> In c2 (weeklyView G) ->
                      In e (card_classes c1) -> In e (card_classes c2) ->
                      c1 = c2).
Proof.
  assert (Hsum : list_sum (map card_count (weeklyView G))
                 = List.length (filter on_weekday (entries G))).
  { unfold weeklyView. rewrite map_map. cbn [card_count]. unfold dayClasses.
    apply count_by_day. unfold days.
    repeat constructor; cbn [In]; intuition discriminate. }
  split; [|split; [exact Hsum | split]].
  - intros card Hin. destruct (weeklyView_card G card Hin) as (_ & -> & ->).
    symmetry. apply Permutation_length, js_sort_perm.
  - rewrite Hsum. apply filter_length_le.
  - intros c1 c2 e H1 H2 He1 He2.
    assert (Hday : forall c, In c (weeklyView G) -> In e (card_classes c) ->
                             card_day c = day e).
    { intros c Hc He. destruct (weeklyView_card G c Hc) as (_ & _ & Hcl).
      rewrite Hcl in He. apply (Permutation_in _ (js_sort_perm _ _)) in He.
      unfold dayClasses in He. apply filter_In in He as [_ He].
      apply String.eqb_eq in He. now symmetry. }
    pose proof (Hday c1 H1 He1) as D1. pose proof (Hday c2 H2 He2) as D2.
    unfold weeklyView in H1, H2.
    apply in_map_iff in H1 as (d1 & <- & _), H2 as (d2 & <- & _).
    cbn [card_day] in D1, D2. congruence.
Qed.

Lemma days_differ_beyond_case (a b : string) :
  In a days -> In b days -> toLowerCase a = toLowerCase b -> a = b.
Proof.
  unfold days. cbn [In]. intros Ha Hb H.
  repeat destruct Ha as [Ha | Ha]; try contradiction; subst a;
    repeat destruct Hb as [Hb | Hb]; try contradiction; subst b;
    try reflexivity; vm_compute in H; discriminate H.
Qed.

(** The weekly view against today's classes.  Every class listed under a
    day is among today's classes of that day; an entry whose day equals the
    name only up to letter case is among today's classes and in no card;
    when every such entry spells the day as the card does, the card lists
    today's classes, in a possibly different order. *)
Theorem weekly_card_within_todays_classes
  (collation : Collation) (G : GroupDataset) (card : DayCard) :
  In card (weeklyView G) ->
  (forall e, In e (card_classes card) ->
             In e (todaysClasses G (card_day card)))
  /\ (forall e, In e (entries G) -> eq_nocase (day e) (card_day card) ->
                day e <> card_day card ->
                In e (todaysClasses G (card_day card))
                /\ forall c, In c (weeklyView G) -> ~ In e (card_classes c))
  /\ ((forall e, In e (entries G) -> eq_nocase (day e) (card_day card) ->
                 day e = card_day card) ->
      Permutation (todaysClasses G (card_day card)) (card_classes card)).
Proof.
  intros Hin. pose proof (weeklyView_card G card Hin) as (Hd & _ & Hcl).
  split; [|split].
  - intros e He. rewrite Hcl in He.
    apply (Permutation_in _ (js_sort_perm _ _)) in He.
    unfold dayClasses in He. apply filter_In in He as [He Hday].
    apply String.eqb_eq in Hday. unfold todaysClasses. apply filter_In.
    split; [exact He|]. rewrite Hday. apply String.eqb_refl.
  - intros e He Hcase Hne. split.
    + unfold todaysClasses. apply filter_In. split; [exact He|].
      now apply eqb_lower_nocase.
    + intros c Hc Hec. destruct (weeklyView_card G c Hc) as (Hcd & _ & Hccl).
      rewrite Hccl in Hec. apply (Permutation_in _ (js_sort_perm _ _)) in Hec.
      unfold dayClasses in Hec. apply filter_In in Hec as [_ Hec].
      apply String.eqb_eq in Hec.
      assert (Hsame : eq_nocase (card_day c) (card_day card)) by now rewrite <- Hec.
      apply Hne. rewrite Hec.
      apply eq_nocase_lower in Hsame.
      now apply days_differ_beyond_case.
  - intros Hexact. rewrite Hcl, js_sort_perm.
    unfold todaysClasses, dayClasses.
    erewrite filter_ext_in; [reflexivity|].
    intros e He. cbv beta.
    destruct (String.eqb (toLowerCase (day e)) (toLowerCase (card_day card))) eqn:E.
    + apply eqb_lower_nocase in E. rewrite (Hexact e He E).
      symmetry. apply String.eqb_refl.
    + symmetry. apply String.eqb_neq. intros Heq. rewrite Heq in E.
      now rewrite String.eqb_refl in E.
Qed.

Lemma weekly_card_within_todays_classes_witness :
  let monday := {| card_day := "Monday"; card_count := 2;
                   card_classes := [Samples.mon_0900; Samples.mon_1400] |} in
  In monday (weeklyView Samples.group_a)
  /\ (forall e, In e (card_classes monday) ->
                In e (todaysClasses Samples.group_a "Monday"))
  /\ In Samples.lower_monday (todaysClasses Samples.group_a "Monday")
  /\ forall c, In c (weeklyView Samples.group_a) ->
               ~ In Samples.lower_monday (card_classes c).
Proof.
  cbv zeta.
  assert (Hin : In {| card_day := "Monday"; card_count := 2;
                      card_classes := [Samples.mon_0900; Samples.mon_1400] |}
                   (weeklyView Samples.group_a)) by (left; reflexivity).
  destruct (weekly_card_within_todays_classes unit_collation Samples.group_a
              _ Hin) as (H1 & H2 & _).
  split; [exact Hin|]. split; [exact H1|].
  apply (H2 Samples.lower_monday).
  - cbn. tauto.
  - apply eq_nocase_lower. reflexivity.
  - discriminate.
Defined.

(** ** The home page: live classes and the next class *)

Section HomePageProperties.
Context {numerics : JsNumerics}.

Lemma live_hhmm (now : Clock) (e : ScheduleEntry) :
  has_hhmm_times e ->
  isCurrentClass now (start_time (time_slot e)) (end_time (time_slot e))
  = (start_minutes e <=? currentTime now) && (currentTime now <=? end_minutes e).
Proof. intros [Hs He]. now apply isCurrentClass_hhmm. Qed.


Lemma nextClass_skips_started (now : Clock) (l1 l2 : list ScheduleEntry) :
  Forall has_hhmm_start l1 ->
  Forall (fun e => start_minutes e <= currentTime now) l1 ->
  nextClass now (l1 ++ l2) = nextClass now l2.
Proof.
  intros Hwf Hst. induction l1 as [|a l1 IH]; [reflexivity|].
  inversion Hwf as [|? ? Ha Hl]; subst. inversion Hst as [|? ? Hsa Hsl]; subst.
  cbn [List.app]. rewrite nextClass_cons, (is_future_hhmm now a Ha).
  replace (currentTime now <? start_minutes a) with false
    by (symmetry; apply Z.ltb_ge; exact Hsa).
  now apply IH.
Qed.

End HomePageProperties.



(** Both ends of a class are inclusive, so of two classes of which the
    second starts at the minute the first ends, both are live at that
    minute; and a class whose end time is earlier than its start time (one
    that would run past midnight) is never live. *)
Theorem live_at_shared_minute_and_never_past_midnight
  (numerics : JsNumerics) (now : Clock) (a b : ScheduleEntry) :
  has_hhmm_times a -> has_hhmm_times b ->
  (start_minutes a <= end_minutes a -> start_minutes b <= end_minutes b ->
   end_minutes a = start_minutes b -> currentTime now = end_minutes a ->
   liveFlags now [a; b] = [true; true])
  /\ (end_minutes a < start_minutes a -> liveFlags now [a] = [false]).
Proof.
  intros Ha Hb. unfold liveFlags. cbn [map].
  rewrite (live_hhmm now a Ha), (live_hhmm now b Hb). split.
  - intros H1 H2 H3 H4.
    repeat f_equal; apply andb_true_iff; split; apply Z.leb_le; lia.
  - intros H. f_equal.
    destruct (start_minutes a <=? currentTime now) eqn:E1; [|reflexivity].
    apply Z.leb_le in E1. cbn [andb]. apply Z.leb_gt. lia.
Qed.

Lemma live_at_shared_minute_and_never_past_midnight_witness :
  let first := {| day := "Monday"; time_slot := Samples.slot "09:00" "10:00" 60;
                  room := "Room 1"; entry_type := "Lecture";
                  course := Samples.algorithms |} in
  let second := {| day := "Monday"; time_slot := Samples.slot "10:00" "11:00" 60;
                   room := "Room 2"; entry_type := "Lecture";
                   course := Samples.networks |} in
  let night := {| day := "Monday"; time_slot := Samples.slot "23:00" "01:00" 120;
                  room := "Room 3"; entry_type := "Lab";
                  course := Samples.networks |} in
  liveFlags {| getHours := 10; getMinutes := 0 |} [first; second] = [true; true]
  /\ liveFlags {| getHours := 23; getMinutes := 30 |} [night] = [false].
Proof.
  cbv zeta. split.
  - apply (live_at_shared_minute_and_never_past_midnight exact_numerics
             {| getHours := 10; getMinutes := 0 |});
      try (split; reflexivity); cbn; lia.
  - apply (live_at_shared_minute_and_never_past_midnight exact_numerics
             {| getHours := 23; getMinutes := 30 |}
             {| day := "Monday"; time_slot := Samples.slot "23:00" "01:00" 120;
                room := "Room 3"; entry_type := "Lab";
                course := Samples.networks |} Samples.mon_0900);
      try (split; reflexivity); cbn; lia.
Defined.

(** While a class is live, the header shows the class that follows it in
    the list: on a list sorted by start time, if the class [c] is live and
    ends before the next entry [n] starts, [nextClass] is [n]. *)
Theorem next_class_follows_live_class
  (numerics : JsNumerics) (now : Clock)
  (before after : list ScheduleEntry) (c n : ScheduleEntry) :
  Forall has_hhmm_start (before ++ c :: n :: after) ->
  Sorted starts_no_later (before ++ c :: n :: after) ->
  is_hhmm (end_time (time_slot c)) = true ->
  isCurrentClass now (start_time (time_slot c)) (end_time (time_slot c)) = true ->
  ends_before c n ->
  nextClass now (before ++ c :: n :: after) = Some n.
Proof.
  intros Hwf Hs Hend Hlive Hsep.
  apply Sorted_StronglySorted in Hs; [|exact starts_no_later_trans].
  assert (Hc : has_hhmm_start c).
  { rewrite Forall_forall in Hwf. apply Hwf. apply in_or_app. right. now left. }
  assert (Hn : has_hhmm_start n).
  { rewrite Forall_forall in Hwf. apply Hwf. apply in_or_app. right. right. now left. }
  rewrite (isCurrentClass_hhmm now _ _ Hc Hend) in Hlive.
  apply andb_true_iff in Hlive as [H1 H2]. apply Z.leb_le in H1, H2.
  fold (start_minutes c) in H1. fold (end_minutes c) in H2.
  change (before ++ c :: n :: after)%list
    with (before ++ [c] ++ n :: after)%list.
  rewrite app_assoc. rewrite nextClass_skips_started.
  - rewrite nextClass_cons, (is_future_hhmm now n Hn).
    unfold ends_before in Hsep.
    now replace (currentTime now <? start_minutes n) with true
      by (symmetry; apply Z.ltb_lt; lia).
  - rewrite Forall_forall in *. intros e He. apply Hwf.
    apply in_app_or in He as [He | [<- | []]]; apply in_or_app;
      [now left | right; now left].
  - rewrite Forall_forall. intros e He.
    apply in_app_or in He as [He | [<- | []]]; [|exact H1].
    clear Hwf. induction before as [|x before IH]; [contradiction|].
    cbn [List.app] in Hs. inversion Hs as [|? ? Hs' Hx]; subst.
    destruct He as [<- | He]; [|now apply IH].
    rewrite Forall_forall in Hx.
    assert (Hxc : starts_no_later x c)
      by (apply Hx, in_or_app; right; now left).
    unfold starts_no_later in Hxc. lia.
Qed.

Lemma next_class_follows_live_class_witness :
  nextClass {| getHours := 9; getMinutes := 45 |}
            ([] ++ Samples.mon_0900 :: Samples.mon_1100 :: [Samples.mon_1400])
  = Some Samples.mon_1100.
Proof.
  apply (next_class_follows_live_class exact_numerics).
  - repeat constructor.
  - repeat constructor; unfold starts_no_later; cbn; lia.
  - reflexivity.
  - reflexivity.
  - unfold ends_before; cbn; lia.
Defined.

(** ** The refresh button, and what every reachable state satisfies *)



Lemma handleSearch_settle_shape (base : string) (call : SearchCall)
  (outcome : FetchOutcome) (st : AppState) :
  exists rs,
    handleSearch_settle base call outcome st
    = Ok (setLoading false (setSearchResults rs st)).
Proof.
  unfold handleSearch_settle, fetch_json.
  destruct outcome as [|[doc|]]; cbn [bind try_catch]; eauto.
  destruct (search_js doc (call_query call) (call_group call));
    cbn [bind try_catch]; eauto.
Qed.

Lemma commit_group (before : AppState) (w : World) :
  selectedGroup (app (commit before w)) = selectedGroup (app w).
Proof.
  unfold commit, searchEffect, with_app, groupEffect.
  repeat match goal with |- context [if ?b then _ else _] => destruct b end;
    reflexivity.
Qed.

Lemma commit_query (before : AppState) (w : World) :
  searchQuery (app (commit before w)) = searchQuery (app w).
Proof.
  unfold commit, searchEffect, with_app, groupEffect.
  repeat match goal with |- context [if ?b then _ else _] => destruct b end;
    reflexivity.
Qed.

Lemma commit_loading (before : AppState) (w : World) :
  loading (app (commit before w)) = loading (app w).
Proof.
  unfold commit, searchEffect, with_app, groupEffect.
  repeat match goal with |- context [if ?b then _ else _] => destruct b end;
    reflexivity.
Qed.

(** The timer after a commit: untouched when neither the query nor the
    page changed; otherwise set for the current query on the search page,
    and cleared on any other page. *)
Lemma commit_timer (before : AppState) (w : World) :
  let after := commit before w in
  timer after
  = if String.eqb (searchQuery before) (searchQuery (app after))
       && String.eqb (currentPage before) (currentPage (app after))
    then timer w
    else if String.eqb (currentPage (app after)) "search"
         then Some {| call_query := searchQuery (app after);
                      call_group := selectedGroup (app after) |}
         else None.
Proof.
  cbv zeta. rewrite commit_query, commit_group, commit_page.
  unfold commit.
  set (w1 := if option_string_eqb (selectedGroup before) (selectedGroup (app w))
             then w else with_app groupEffect w).
  assert (Hq : searchQuery (app w1) = searchQuery (app w)).
  { subst w1. destruct (option_string_eqb _ _); [reflexivity|].
    cbn [with_app app]. apply groupEffect_frame. }
  assert (Hg : selectedGroup (app w1) = selectedGroup (app w)).
  { subst w1. destruct (option_string_eqb _ _); [reflexivity|].
    cbn [with_app app]. apply groupEffect_frame. }
  assert (Hp : currentPage (app w1)
               = if option_string_eqb (selectedGroup before) (selectedGroup (app w))
                 then currentPage (app w) else currentPage (groupEffect (app w))).
  { subst w1. now destruct (option_string_eqb _ _). }
  assert (Ht : timer w1 = timer w).
  { subst w1. now destruct (option_string_eqb _ _). }
  rewrite <- Hp, Hq.
  destruct (String.eqb (searchQuery before) (searchQuery (app w))
            && String.eqb (currentPage before) (currentPage (app w1)));
    [exact Ht|].
  unfold searchEffect. rewrite Hq, Hg.
  now destruct (String.eqb (currentPage (app w1)) "search").
Qed.

Lemma option_string_eqb_eq (a b : option string) :
  option_string_eqb a b = true -> a = b.
Proof.
  destruct a as [x|], b as [y|]; cbn; try discriminate; [|reflexivity].
  intros H. apply String.eqb_eq in H. now subst.
Qed.

(** A state update followed by its effects keeps the invariant, when the
    page it ends on is a known one, is the group selection page exactly
    when no group is selected, and the group changes only together with
    the page. *)
Lemma commit_invariant (w : World) (f : AppState -> AppState) :
  world_invariant w ->
  loading (f (app w)) = loading (app w) ->
  In (currentPage (app (commit (app w) (with_app f w)))) pages ->
  (currentPage (app (commit (app w) (with_app f w))) = "groupSelect"
   <-> truthy_group (selectedGroup (f (app w))) = false) ->
  (selectedGroup (f (app w)) = selectedGroup (app w)
   \/ currentPage (app (commit (app w) (with_app f w))) <> "search"
   \/ currentPage (app w) <> currentPage (app (commit (app w) (with_app f w)))) ->
  world_invariant (commit (app w) (with_app f w)).
Proof.
  intros (_ & _ & Htimer & Hload & Hfl) Hl Hpages Hiff Hgrp.
  split; [exact Hpages|]. split.
  { rewrite commit_group. exact Hiff. }
  split; [|split].
  - intros c Hc. pose proof (commit_timer (app w) (with_app f w)) as Ht.
    cbv zeta in Ht. rewrite Ht in Hc. clear Ht.
    destruct (String.eqb (searchQuery (app w))
                (searchQuery (app (commit (app w) (with_app f w))))
              && String.eqb (currentPage (app w))
                   (currentPage (app (commit (app w) (with_app f w))))) eqn:E.
    + apply andb_true_iff in E as [Eq Ep].
      apply String.eqb_eq in Eq, Ep.
      destruct (Htimer c Hc) as [Hsearch ->].
      split; [congruence|].
      rewrite <- Eq. f_equal. rewrite commit_group. cbn [with_app app].
      destruct Hgrp as [Hg | [Hg | Hg]]; [now symmetry | | contradiction].
      exfalso. apply Hg. congruence.
    + destruct (String.eqb (currentPage (app (commit (app w) (with_app f w))))
                  "search") eqn:Es; [|discriminate].
      apply String.eqb_eq in Es. injection Hc as <-. auto.
  - rewrite commit_loading, commit_inflight. cbn [with_app app inflight].
    rewrite Hl. exact Hload.
  - rewrite commit_inflight. exact Hfl.
Qed.

Lemma mount_invariant (stored : option string) (dark : bool) :
  world_invariant (mount stored dark).
Proof.
  unfold mount, searchEffect, groupEffect, initialState, world_invariant.
  cbn [app currentPage selectedGroup].
  destruct (truthy_group stored) eqn:E; rewrite ?E; cbn; rewrite ?E; cbn;
    repeat split; auto; try discriminate; try (intros; discriminate).
Qed.

Lemma step_invariant (base : string) (w : World) (ev : Event) :
  world_invariant w -> world_invariant (step base w ev).
Proof.
  intros Hw. pose proof Hw as (Hpages & Hiff & Htimer & Hload & Hfl).
  destruct ev as [q|page| |g| |n outcome]; cbn [step].
  - (* typing *)
    destruct (String.eqb (currentPage (app w)) "search") eqn:E; [|exact Hw].
    assert (Hp : currentPage (app (commit (app w) (with_app (setSearchQuery q) w)))
                 = currentPage (app w)).
    { rewrite commit_page. cbn [with_app app selectedGroup setSearchQuery].
      now rewrite option_string_eqb_refl. }
    apply commit_invariant; try assumption; try reflexivity.
    + now rewrite Hp.
    + rewrite Hp. exact Hiff.
    + now left.
  - (* navigation *)
    destruct (negb (String.eqb (currentPage (app w)) "groupSelect")
              && existsb (String.eqb page) nav_ids) eqn:E; [|exact Hw].
    apply andb_true_iff in E as [Eg En].
    apply negb_true_iff, String.eqb_neq in Eg.
    assert (Hp : currentPage (app (commit (app w) (with_app (setCurrentPage page) w)))
                 = page).
    { rewrite commit_page. cbn [with_app app selectedGroup setCurrentPage].
      now rewrite option_string_eqb_refl. }
    assert (Hnav : In page nav_ids).
    { apply existsb_exists in En as (x & Hx & Ex).
      apply String.eqb_eq in Ex. now subst. }
    apply commit_invariant; try assumption; try reflexivity.
    + rewrite Hp. unfold nav_ids in Hnav. unfold pages. cbn [In] in *. tauto.
    + rewrite Hp. cbn [selectedGroup setCurrentPage]. split.
      * intros ->. unfold nav_ids in Hnav. cbn [In] in Hnav.
        exfalso. intuition discriminate.
      * intros Hf. exfalso. apply Eg. now apply Hiff.
    + now left.
  - (* switching the group *)
    destruct (negb (String.eqb (currentPage (app w)) "groupSelect")
              && truthy_group (selectedGroup (app w))) eqn:E; [|exact Hw].
    apply andb_true_iff in E as [Eg Et].
    assert (Hp : currentPage
                   (app (commit (app w)
                           (with_app (fun s => setCurrentPage "groupSelect"
                                                 (setSelectedGroup None s)) w)))
                 = "groupSelect").
    { rewrite commit_page.
      cbn [with_app app selectedGroup setCurrentPage setSelectedGroup].
      destruct (selectedGroup (app w)); [reflexivity | discriminate]. }
    apply (commit_invariant w
             (fun s => setCurrentPage "groupSelect" (setSelectedGroup None s)));
      try assumption; try reflexivity.
    + rewrite Hp. unfold pages. now left.
    + rewrite Hp. cbn. tauto.
    + right. left. rewrite Hp. discriminate.
  - (* selecting a group *)
    destruct (String.eqb (currentPage (app w)) "groupSelect") eqn:E; [|exact Hw].
    apply String.eqb_eq in E.
    assert (Hp : currentPage
                   (app (commit (app w) (with_app (setSelectedGroup (Some g)) w)))
                 = if option_string_eqb (selectedGroup (app w)) (Some g)
                   then "groupSelect"
                   else if truthy_string g then "home" else "groupSelect").
    { rewrite commit_page. cbn [with_app app selectedGroup setSelectedGroup].
      destruct (option_string_eqb _ _); [exact E|].
      unfold groupEffect. cbn [selectedGroup setSelectedGroup truthy_group].
      now destruct (truthy_string g). }
    apply commit_invariant; try assumption; try reflexivity.
    + rewrite Hp. unfold pages.
      destruct (option_string_eqb _ _); [|destruct (truthy_string g)];
        cbn; tauto.
    + rewrite Hp. cbn [selectedGroup setSelectedGroup truthy_group].
      destruct (option_string_eqb (selectedGroup (app w)) (Some g)) eqn:Eo.
      * apply option_string_eqb_eq in Eo.
        pose proof (proj1 Hiff E) as Hf. rewrite Eo in Hf. cbn in Hf. tauto.
      * destruct (truthy_string g); split; intros; try reflexivity;
          discriminate.
    + right. left. rewrite Hp.
      destruct (option_string_eqb _ _); [|destruct (truthy_string g)];
        discriminate.
  - (* the timer *)
    destruct (timer w) as [call|] eqn:Et; [|exact Hw].
    destruct (Htimer call eq_refl) as [Hs Hc].
    destruct (negb (blank (call_query call))) eqn:Eb.
    + split; [exact Hpages|]. split; [exact Hiff|].
      split; [intros c H; discriminate H|]. split.
      * intros _ H. cbn [inflight] in H. now apply app_eq_nil in H as [_ H].
      * cbn [inflight]. apply Forall_app. split; [exact Hfl|].
        constructor; [|constructor]. now apply negb_true_iff in Eb.
    + split; [exact Hpages|]. split; [exact Hiff|].
      split; [intros c H; discriminate H|]. split; [exact Hload | exact Hfl].
  - (* a fetch settles *)
    destruct (nth_error (inflight w) n) as [call|] eqn:En; [|exact Hw].
    destruct (handleSearch_settle_shape base call outcome (app w)) as [rs ->].
    split; [exact Hpages|]. split; [exact Hiff|]. split; [exact Htimer|].
    split; [intros H; discriminate H|].
    cbn [inflight]. clear - Hfl. revert n.
    induction (inflight w) as [|x l IH]; intros n; [destruct n; constructor|].
    inversion Hfl; subst. destruct n; cbn [remove_nth]; [assumption|].
    constructor; auto.
Qed.

Lemma run_invariant (base : string) (evs : list Event) (w : World) :
  world_invariant w -> world_invariant (run base evs w).
Proof.
  revert w. induction evs as [|ev evs IH]; intros w Hw; [exact Hw|].
  cbn [run fold_left]. apply IH. now apply step_invariant.
Qed.

(** After any sequence of events from the first render, the page is one of
    the six the program names, and the group selection page is shown
    exactly when no group is selected: every other page is shown with a
    group, so the guard [if (!selectedGroup) return] of the fetchers never
    fires there; and whenever the navigation bar is shown, exactly one of
    its five buttons is highlighted. *)
Theorem group_selection_page_iff_no_group
  (base : string) (stored : option string) (dark : bool) (evs : list Event) :
  In (currentPage (app (run base evs (mount stored dark))))
     ["groupSelect"; "home"; "timetable"; "courses"; "search"; "admin"]
  /\ (renderPage (app (run base evs (mount stored dark))) = GroupSelectShown
      <-> truthy_group (selectedGroup (app (run base evs (mount stored dark))))
          = false)
  /\ (renderPage (app (run base evs (mount stored dark))) <> GroupSelectShown ->
      List.length
        (filter (String.eqb (currentPage (app (run base evs (mount stored dark)))))
                ["home"; "timetable"; "courses"; "search"; "admin"])
      = 1%nat).
Proof.
  destruct (run_invariant base evs _ (mount_invariant stored dark))
    as (Hpages & Hiff & _).
  split; [exact Hpages|]. split.
  - rewrite <- Hiff. unfold renderPage. cbv zeta.
    destruct (String.eqb_spec
                (currentPage (app (run base evs (mount stored dark))))
                "groupSelect") as [->|Hne]; [tauto|].
    split; [|contradiction].
    repeat match goal with
      | |- context [if ?b then _ else _] => destruct b
      end; discriminate.
  - unfold pages in Hpages. cbn [In] in Hpages. unfold renderPage. cbv zeta.
    destruct Hpages as [<-|[<-|[<-|[<-|[<-|[<-|[]]]]]]];
      cbn; intros H; try reflexivity; contradiction.
Qed.

(** After any sequence of events from the first render: a debounce timer
    is pending only on the search page, and then for the query in the input
    and the selected group; the spinner of the search page is shown only
    while a search is in flight; and no search in flight has a blank
    query. *)
Theorem pending_search_is_for_current_query
  (base : string) (stored : option string) (dark : bool) (evs : list Event) :
  (forall c, timer (run base evs (mount stored dark)) = Some c ->
     renderPage (app (run base evs (mount stored dark))) = SearchShown
     /\ call_query c = searchQuery (app (run base evs (mount stored dark)))
     /\ call_group c = selectedGroup (app (run base evs (mount stored dark))))
  /\ (searchPageView (app (run base evs (mount stored dark))) = Searching ->
      inflight (run base evs (mount stored dark)) <> [])
  /\ Forall (fun c => blank (call_query c) = false)
            (inflight (run base evs (mount stored dark))).
Proof.
  destruct (run_invariant base evs _ (mount_invariant stored dark))
    as (_ & _ & Htimer & Hload & Hfl).
  split; [|split; [|exact Hfl]].
  - intros c Hc. destruct (Htimer c Hc) as [Hs ->].
    unfold renderPage. rewrite Hs. cbn. auto.
  - intros Hv. apply Hload. unfold searchPageView in Hv.
    destruct (loading _); [reflexivity|].
    repeat match type of Hv with
      | (if ?b then _ else _) = _ => destruct b
      end; discriminate.
Qed.

Lemma commit_results_on_search (before : AppState) (w : World) :
  currentPage (app (commit before w)) = "search" ->
  searchResults (app (commit before w)) = searchResults (app w).
Proof.
  unfold commit.
  set (w1 := if option_string_eqb (selectedGroup before) (selectedGroup (app w))
             then w else with_app groupEffect w).
  assert (Hr : searchResults (app w1) = searchResults (app w)).
  { subst w1. destruct (option_string_eqb _ _); [reflexivity|].
    cbn [with_app app]. apply groupEffect_frame. }
  destruct (_ && _); [intros _; exact Hr|].
  rewrite searchEffect_page. intros Hs. unfold searchEffect.
  rewrite Hs. cbn. exact Hr.
Qed.

(** A keystroke on the search page, while the timer is pending for the
    query shown, leaves the timer pending for the new query and starts
    nothing. *)
Lemma typing_restarts_timer (base : string) (w : World) (q : string) :
  currentPage (app w) = "search" ->
  timer w = Some {| call_query := searchQuery (app w);
                    call_group := selectedGroup (app w) |} ->
  currentPage (app (step base w (TypeQuery q))) = "search"
  /\ searchQuery (app (step base w (TypeQuery q))) = q
  /\ selectedGroup (app (step base w (TypeQuery q))) = selectedGroup (app w)
  /\ timer (step base w (TypeQuery q))
     = Some {| call_query := q; call_group := selectedGroup (app w) |}
  /\ inflight (step base w (TypeQuery q)) = inflight w
  /\ searchResults (app (step base w (TypeQuery q))) = searchResults (app w)
  /\ loading (app (step base w (TypeQuery q))) = loading (app w).
Proof.
  intros Hs Ht. cbn [step]. rewrite Hs. cbn [String.eqb Ascii.eqb Bool.eqb].
  assert (Hp : currentPage (app (commit (app w) (with_app (setSearchQuery q) w)))
               = "search").
  { rewrite commit_page. cbn [with_app app selectedGroup setSearchQuery].
    now rewrite option_string_eqb_refl. }
  split; [exact Hp|].
  split; [now rewrite commit_query|].
  split; [now rewrite commit_group|].
  split; [|split; [now rewrite commit_inflight|split]].
  - pose proof (commit_timer (app w) (with_app (setSearchQuery q) w)) as H.
    cbv zeta in H. rewrite H, Hp, commit_query, commit_group.
    cbn [with_app app timer searchQuery selectedGroup setSearchQuery].
    rewrite Hs. cbn [String.eqb Ascii.eqb Bool.eqb]. rewrite andb_true_r.
    destruct (String.eqb_spec (searchQuery (app w)) q) as [<-|]; [exact Ht|].
    reflexivity.
  - now rewrite (commit_results_on_search _ _ Hp).
  - now rewrite commit_loading.
Qed.

Lemma last_cons {A : Type} (a d : A) (l : list A) : last (a :: l) d = last l a.
Proof.
  revert a d. induction l as [|b l IH]; intros a d; [reflexivity|].
  change (last (a :: b :: l) d) with (last (b :: l) d). now rewrite !IH.
Qed.

(** The debounce: on the search page, with the timer pending, a burst of
    keystrokes starts no search and changes no result; when the timer then
    fires, exactly one search starts, for the last query typed and the
    selected group, or, if that query is blank, none starts and the results
    are cleared. *)
Theorem debounce_searches_last_query_only
  (base : string) (w : World) (qs : list string) :
  currentPage (app w) = "search" ->
  timer w = Some {| call_query := searchQuery (app w);
                    call_group := selectedGroup (app w) |} ->
  searchQuery (app (run base (map TypeQuery qs) w))
  = last qs (searchQuery (app w))
  /\ inflight (run base (map TypeQuery qs) w) = inflight w
  /\ searchResults (app (run base (map TypeQuery qs) w)) = searchResults (app w)
  /\ timer (step base (run base (map TypeQuery qs) w) TimerFires) = None
  /\ (blank (last qs (searchQuery (app w))) = false ->
      inflight (step base (run base (map TypeQuery qs) w) TimerFires)
      = (inflight w ++ [{| call_query := last qs (searchQuery (app w));
                           call_group := selectedGroup (app w) |}])%list
      /\ searchResults (app (step base (run base (map TypeQuery qs) w) TimerFires))
         = searchResults (app w))
  /\ (blank (last qs (searchQuery (app w))) = true ->
      inflight (step base (run base (map TypeQuery qs) w) TimerFires) = inflight w
      /\ searchResults (app (step base (run base (map TypeQuery qs) w) TimerFires))
         = []).
Proof.
  revert w. induction qs as [|q qs IH]; intros w Hs Ht.
  - cbn [map run fold_left last step]. rewrite Ht. cbn [call_query].
    split; [reflexivity|]. split; [reflexivity|]. split; [reflexivity|].
    destruct (blank (searchQuery (app w))); cbn [negb timer inflight app];
      (split; [reflexivity|]); split; intros H; try discriminate H;
      split; reflexivity.
  - destruct (typing_restarts_timer base w q Hs Ht)
      as (Hs' & Hq' & Hg' & Ht' & Hi' & Hr' & _).
    assert (Ht2 : timer (step base w (TypeQuery q))
                  = Some {| call_query :=
                              searchQuery (app (step base w (TypeQuery q)));
                            call_group :=
                              selectedGroup (app (step base w (TypeQuery q))) |})
      by now rewrite Ht', Hq', Hg'.
    pose proof (IH _ Hs' Ht2) as H. rewrite Hq', Hg', Hi', Hr' in H.
    change (run base (map TypeQuery (q :: qs)) w)
      with (run base (map TypeQuery qs) (step base w (TypeQuery q))).
    rewrite last_cons. exact H.
Qed.

Lemma debounce_searches_last_query_only_witness :
  let w := step "/data" (mount (Some "A") false) (Navigate "search") in
  searchQuery (app (run "/data" (map TypeQuery ["r"; "ro"; "roo"; "room"]) w))
  = "room"
  /\ inflight (step "/data"
                 (run "/data" (map TypeQuery ["r"; "ro"; "roo"; "room"]) w)
                 TimerFires)
     = [{| call_query := "room"; call_group := Some "A" |}].
Proof.
  cbv zeta.
  destruct (debounce_searches_last_query_only "/data"
              (step "/data" (mount (Some "A") false) (Navigate "search"))
              ["r"; "ro"; "roo"; "room"] eq_refl eq_refl)
    as (H1 & _ & _ & _ & H2 & _).
  split; [exact H1|]. exact (proj1 (H2 eq_refl)).
Defined.

(** ** Searches that settle *)

(** When the fetch of a search in flight settles with the document of an
    aggregate, the results shown become those of that search, for the query
    and group it was started with, whatever the input holds by then and
    whichever search was started last; the spinner is taken down even if
    other searches are still in flight; the query, the page and the pending
    timer are left alone. *)
Theorem settled_search_replaces_results
  (base : string) (stored : option string) (dark : bool) (evs : list Event)
  (n : nat) (call : SearchCall) (T : AggregateDataset) :
  nth_error (inflight (run base evs (mount stored dark))) n = Some call ->
  searchResults
    (app (step base (run base evs (mount stored dark))
            (FetchSettles n (Responded (Some (json_of_aggregate T))))))
  = map json_of_result
        (searchTimetable T (call_query call) (call_group call))
  /\ loading
       (app (step base (run base evs (mount stored dark))
               (FetchSettles n (Responded (Some (json_of_aggregate T))))))
     = false
  /\ inflight (step base (run base evs (mount stored dark))
                 (FetchSettles n (Responded (Some (json_of_aggregate T)))))
     = remove_nth n (inflight (run base evs (mount stored dark)))
  /\ searchQuery
       (app (step base (run base evs (mount stored dark))
               (FetchSettles n (Responded (Some (json_of_aggregate T))))))
     = searchQuery (app (run base evs (mount stored dark)))
  /\ currentPage
       (app (step base (run base evs (mount stored dark))
               (FetchSettles n (Responded (Some (json_of_aggregate T))))))
     = currentPage (app (run base evs (mount stored dark)))
  /\ timer (step base (run base evs (mount stored dark))
              (FetchSettles n (Responded (Some (json_of_aggregate T)))))
     = timer (run base evs (mount stored dark)).
Proof.
  intros Hn.
  destruct (run_invariant base evs _ (mount_invariant stored dark))
    as (_ & _ & _ & _ & Hfl).
  assert (Hq : blank (call_query call) = false).
  { rewrite Forall_forall in Hfl. apply Hfl. eapply nth_error_In, Hn. }
  cbn [step]. rewrite Hn. unfold handleSearch_settle, fetch_json.
  cbn [bind try_catch]. rewrite search_js_typed. cbn [bind try_catch].
  unfold searchTimetable. rewrite Hq.
  repeat split; reflexivity.
Qed.

Lemma settled_search_replaces_results_witness :
  let evs := [Navigate "search"; TypeQuery "room"; TimerFires;
              TypeQuery "lab"; TimerFires;
              FetchSettles 1 (Responded (Some (json_of_aggregate Samples.timetable)))] in
  searchQuery (app (run "/data" evs (mount (Some "A") false))) = "lab"
  /\ searchResults
       (app (step "/data" (run "/data" evs (mount (Some "A") false))
               (FetchSettles 0
                  (Responded (Some (json_of_aggregate Samples.timetable))))))
     = map json_of_result (searchTimetable Samples.timetable "room" (Some "A")).
Proof.
  cbv zeta. split; [reflexivity|].
  exact (proj1 (settled_search_replaces_results "/data" (Some "A") false
                  [Navigate "search"; TypeQuery "room"; TimerFires;
                   TypeQuery "lab"; TimerFires;
                   FetchSettles 1
                     (Responded (Some (json_of_aggregate Samples.timetable)))]
                  0 {| call_query := "room"; call_group := Some "A" |}
                  Samples.timetable eq_refl)).
Defined.

(** ** What a fetcher leaves alone *)

Lemma setTodayClasses_same (st : AppState) :
  setLoadingToday (loadingToday st) (setTodayClasses (todayClasses st) st) = st.
Proof. now destruct st. Qed.

Lemma setTimetableData_same (st : AppState) :
  setLoadingTimetable (loadingTimetable st)
    (setTimetableData (timetableData st) st) = st.
Proof. now destruct st. Qed.

(** Each fetcher changes its own two fields of the state and nothing else,
    whatever the network answers: the page, the selected group, the query,
    the theme and the data of the other fetchers stay as they were.  After
    [fetchCourses] the loading flag is down and [courses] is truthy: an
    array, or whatever truthy value the document had there. *)
Theorem fetchers_change_only_their_fields
  (base : string) (net : Network) (currentDay : string) (st : AppState) :
  (exists found flag,
      fetchTodayClasses base net currentDay st
      = Ok (setLoadingToday flag (setTodayClasses found st)))
  /\ (exists doc flag,
        fetchTimetableData base net st
        = Ok (setLoadingTimetable flag (setTimetableData doc st)))
  /\ (exists cs,
        fetchCourses base net st
        = Ok (setLoadingCourses false (setCourses cs st))
        /\ truthy cs = true)
  /\ (exists results flag,
        handleSearch base net st
        = Ok (setLoading flag (setSearchResults results st))).
Proof.
  split; [|split; [|split]].
  - unfold fetchTodayClasses.
    assert (Hsame : exists found flag,
               Ok (A := AppState) st
               = Ok (setLoadingToday flag (setTodayClasses found st))).
    { exists (todayClasses st), (loadingToday st).
      now rewrite setTodayClasses_same. }
    destruct (selectedGroup st) as [g|]; [|exact Hsame].
    destruct (truthy_string g); [|exact Hsame].
    destruct (fetch_json net (group_url base g)) as [doc|e];
      cbn [bind try_catch]; [|now exists [], false].
    destruct (todaysClasses_js doc currentDay) as [found|e];
      cbn [bind try_catch]; [now exists found, false | now exists [], false].
  - unfold fetchTimetableData.
    assert (Hsame : exists doc flag,
               Ok (A := AppState) st
               = Ok (setLoadingTimetable flag (setTimetableData doc st))).
    { exists (timetableData st), (loadingTimetable st).
      now rewrite setTimetableData_same. }
    destruct (selectedGroup st) as [g|]; [|exact Hsame].
    destruct (truthy_string g); [|exact Hsame].
    destruct (fetch_json net (group_url base g)) as [doc|e];
      cbn [bind try_catch]; [now exists doc, false | now exists VNull, false].
  - unfold fetchCourses.
    destruct (fetch_json net (courses_url base)) as [doc|e];
      cbn [bind try_catch]; [|now exists (VArr [])].
    destruct (get doc "courses") as [cs|e];
      cbn [bind try_catch]; [|now exists (VArr [])].
    exists (js_or cs (VArr [])). split; [reflexivity|].
    unfold js_or. now destruct (truthy cs) eqn:E.
  - unfold handleSearch.
    destruct (blank (searchQuery st)).
    + exists [], (loading st). now destruct st.
    + destruct (handleSearch_settle_shape base
                  {| call_query := searchQuery st;
                     call_group := selectedGroup st |}
                  (net (timetable_url base)) (setLoading true st)) as [rs ->].
      exists rs, false. reflexivity.
Qed.

(** ** The timetable page on the document of a dataset *)

Lemma filterM_day (d : string) (es : list ScheduleEntry) :
  filterM (fun entry =>
             v <- get entry "day" ;;
             Ok (match v with VStr s => String.eqb s d | _ => false end))
          (map json_of_entry es)
  = Ok (map json_of_entry (filter (fun e => String.eqb (day e) d) es)).
Proof.
  induction es as [|e es IH]; [reflexivity|].
  cbn [map filterM]. rewrite IH. cbn.
  now destruct (String.eqb (day e) d).
Qed.

Lemma dayClasses_js_typed (G : GroupDataset) (d : string) :
  dayClasses_js (json_of_group G) d = Ok (map json_of_entry (dayClasses G d)).
Proof. unfold dayClasses_js. cbn. apply filterM_day. Qed.

Lemma day_cards_js_typed (G : GroupDataset) (ds : list string) :
  day_cards_js (json_of_group G) ds
  = Ok (map (fun d => (d, map json_of_entry (dayClasses G d))) ds).
Proof.
  induction ds as [|d ds IH]; [reflexivity|].
  cbn [day_cards_js map]. rewrite dayClasses_js_typed, IH. reflexivity.
Qed.



(** ** A failed request and a free day *)

(** The home page cannot tell a failed request from a day without classes:
    [fetchTodayClasses] ends in the same state when the request for the
    group's file fails and when the file holds a dataset with no class on
    that day.  The timetable page can: after [fetchTimetableData] it shows
    the failure notice in the first case and the five cards in the
    second. *)
Theorem failed_fetch_looks_like_free_day
  (base : string) (broken working : Network) (currentDay g : string)
  (st : AppState) (G : GroupDataset) :
  selectedGroup st = Some g ->
  truthy_string g = true ->
  failed (broken (group_url base g)) ->
  working (group_url base g) = Responded (Some (json_of_group G)) ->
  todaysClasses G currentDay = [] ->
  fetchTodayClasses base broken currentDay st
  = fetchTodayClasses base working currentDay st
  /\ (exists st', fetchTimetableData base broken st = Ok st'
                  /\ renderTimetableFilter st' = Ok TimetableFailed)
  /\ (exists st' cards,
        fetchTimetableData base working st = Ok st'
        /\ renderTimetableFilter st' = Ok (TimetableCards cards)).
Proof.
  intros Hsel Hg Hfail Hnet Hfree.
  destruct (fetch_json_failed _ _ Hfail) as [e He].
  split; [|split].
  - unfold fetchTodayClasses. rewrite Hsel, Hg, He.
    unfold fetch_json. rewrite Hnet. cbn [bind try_catch].
    rewrite todaysClasses_js_typed, Hfree. reflexivity.
  - unfold fetchTimetableData. rewrite Hsel, Hg, He. cbn [bind try_catch].
    eexists. split; reflexivity.
  - unfold fetchTimetableData, fetch_json. rewrite Hsel, Hg, Hnet.
    cbn [bind try_catch]. eexists. eexists. split; [reflexivity|].
    unfold renderTimetableFilter.
    cbn [loadingTimetable timetableData setLoadingTimetable setTimetableData].
    change (truthy (json_of_group G)) with true. cbv iota.
    rewrite day_cards_js_typed. reflexivity.
Qed.

Lemma failed_fetch_looks_like_free_day_witness :
  fetchTodayClasses "/data" (fun _ => NetworkFailure) "Sunday" Samples.in_group_a
  = fetchTodayClasses "/data" Samples.served "Sunday" Samples.in_group_a
  /\ (exists st', fetchTimetableData "/data" (fun _ => NetworkFailure)
                    Samples.in_group_a = Ok st'
                  /\ renderTimetableFilter st' = Ok TimetableFailed)
  /\ (exists st' cards,
        fetchTimetableData "/data" Samples.served Samples.in_group_a = Ok st'
        /\ renderTimetableFilter st' = Ok (TimetableCards cards)).
Proof.
  apply (failed_fetch_looks_like_free_day "/data" (fun _ => NetworkFailure)
           Samples.served "Sunday" "A" Samples.in_group_a Samples.group_a);
    try reflexivity.
  left. reflexivity.
Defined.

(** ** The stored group and theme *)

Lemma commit_same (before : AppState) (w : World) :
  selectedGroup (app w) = selectedGroup before ->
  searchQuery (app w) = searchQuery before ->
  currentPage (app w) = currentPage before ->
  commit before w = w.
Proof.
  intros Hg Hq Hp. unfold commit.
  rewrite Hg, option_string_eqb_refl, Hq, Hp, !String.eqb_refl. reflexivity.
Qed.

Lemma commit_darkMode (before : AppState) (w : World) :
  darkMode (app (commit before w)) = darkMode (app w).
Proof.
  unfold commit, searchEffect, with_app, groupEffect.
  repeat match goal with |- context [if ?b then _ else _] => destruct b end;
    reflexivity.
Qed.

Lemma step_darkMode (base : string) (w : World) (ev : Event) :
  darkMode (app (step base w ev)) = darkMode (app w).
Proof.
  destruct ev as [q|page| |g| |n outcome]; cbn [step].
  - destruct (String.eqb _ _); [rewrite commit_darkMode|]; reflexivity.
  - destruct (negb _ && _); [rewrite commit_darkMode|]; reflexivity.
  - destruct (negb _ && _); [rewrite commit_darkMode|]; reflexivity.
  - destruct (String.eqb _ _); [rewrite commit_darkMode|]; reflexivity.
  - destruct (timer w); [destruct (negb _)|]; reflexivity.
  - destruct (nth_error _ _) as [call|]; [|reflexivity].
    now destruct (handleSearch_settle_shape base call outcome (app w))
      as [rs ->].
Qed.

(** The selected group changes on the two group events only. *)
Lemma step_selectedGroup (base : string) (w : World) (ev : Event) :
  selectedGroup (app (step base w ev))
  = match ev with
    | SwitchGroup =>
        if negb (String.eqb (currentPage (app w)) "groupSelect")
           && truthy_group (selectedGroup (app w))
        then None else selectedGroup (app w)
    | SelectGroup g =>
        if String.eqb (currentPage (app w)) "groupSelect"
        then Some g else selectedGroup (app w)
    | _ => selectedGroup (app w)
    end.
Proof.
  destruct ev as [q|page| |g| |n outcome]; cbn [step].
  - destruct (String.eqb _ _); [rewrite commit_group|]; reflexivity.
  - destruct (negb _ && _); [rewrite commit_group|]; reflexivity.
  - destruct (negb _ && _); [rewrite commit_group|]; reflexivity.
  - destruct (String.eqb _ _); [rewrite commit_group|]; reflexivity.
  - destruct (timer w); [destruct (negb _)|]; reflexivity.
  - destruct (nth_error _ _) as [call|]; [|reflexivity].
    now destruct (handleSearch_settle_shape base call outcome (app w))
      as [rs ->].
Qed.

Lemma mount_reads (stored : option string) (dark : bool) :
  selectedGroup (app (mount stored dark)) = or_null stored
  /\ darkMode (app (mount stored dark)) = dark
  /\ currentPage (app (mount stored dark))
     = if truthy_group stored then "home" else "groupSelect".
Proof.
  unfold mount, searchEffect, groupEffect, initialState, or_null.
  cbn [app currentPage selectedGroup].
  destruct (truthy_group stored) eqn:E; rewrite ?E; cbn; rewrite ?E; cbn; auto.
Qed.

Lemma or_null_idem (o : option string) : or_null (or_null o) = or_null o.
Proof. unfold or_null. destruct (truthy_group o) eqn:E; cbn; now rewrite ?E. Qed.

Lemma boot_invariant (s : Storage) : browser_invariant (boot s).
Proof.
  destruct (mount_reads (item_selectedGroup s) (stored_darkMode s))
    as (Hg & Hd & _).
  split; [apply mount_invariant|]. unfold boot. cbn [world storage].
  unfold darkEffect_storage, groupEffect_storage. rewrite Hg, Hd.
  split; [|reflexivity]. cbn [setItem_darkMode item_selectedGroup].
  rewrite or_null_idem. destruct s as [[g|] d]; cbn; [|reflexivity].
  unfold or_null. cbn. destruct (truthy_string g) eqn:Eg; cbn; rewrite ?Eg;
    cbn; rewrite ?Eg; reflexivity.
Qed.

Lemma browser_step_invariant (base : string) (b : Browser) (ev : BrowserEvent) :
  browser_invariant b -> browser_invariant (browser_step base b ev).
Proof.
  intros (Hw & Hg & Hd). destruct ev as [ev| |]; cbn [browser_step].
  - split; [now apply step_invariant|]. cbn [world storage].
    unfold commit_storage. rewrite step_darkMode, Bool.eqb_reflx.
    unfold groupEffect_storage. rewrite !step_selectedGroup.
    destruct ev as [q|page| |g| |n outcome];
      try (rewrite option_string_eqb_refl; split; assumption).
    + (* switching the group *)
      destruct (negb (String.eqb (currentPage (app (world b))) "groupSelect")
                && truthy_group (selectedGroup (app (world b)))) eqn:E.
      * apply andb_true_iff in E as [_ E].
        destruct (selectedGroup (app (world b))) as [g|]; [|discriminate E].
        cbn [option_string_eqb removeItem_selectedGroup item_selectedGroup
             item_darkMode].
        split; [reflexivity | exact Hd].
      * rewrite option_string_eqb_refl. split; assumption.
    + (* selecting a group *)
      destruct (String.eqb (currentPage (app (world b))) "groupSelect") eqn:E;
        [|rewrite option_string_eqb_refl; split; assumption].
      apply String.eqb_eq in E.
      destruct Hw as (_ & Hiff & _). apply Hiff in E.
      destruct (option_string_eqb (selectedGroup (app (world b))) (Some g))
        eqn:Eo.
      * apply option_string_eqb_eq in Eo. rewrite <- Eo. split; assumption.
      * destruct (truthy_string g) eqn:Eg.
        -- cbn [setItem_selectedGroup item_selectedGroup item_darkMode].
           split; [reflexivity | exact Hd].
        -- split; [|exact Hd]. rewrite Hg. unfold or_null. rewrite E.
           cbn [truthy_group]. now rewrite Eg.
  - destruct (String.eqb (currentPage (app (world b))) "groupSelect");
      [now split|].
    rewrite commit_same by reflexivity. cbn [world storage].
    split; [exact Hw|].
    unfold commit_storage.
    cbn [with_app app selectedGroup darkMode setDarkMode].
    rewrite option_string_eqb_refl.
    assert (Hneq : Bool.eqb (darkMode (app (world b)))
                     (negb (darkMode (app (world b)))) = false)
      by now destruct (darkMode (app (world b))).
    rewrite Hneq. unfold darkEffect_storage.
    cbn [setItem_darkMode item_selectedGroup item_darkMode darkMode
         setDarkMode selectedGroup].
    split; [exact Hg | reflexivity].
  - apply boot_invariant.
Qed.

Lemma browser_run_invariant (base : string) (evs : list BrowserEvent)
  (b : Browser) :
  browser_invariant b -> browser_invariant (browser_run base evs b).
Proof.
  revert b. induction evs as [|ev evs IH]; intros b Hb; [exact Hb|].
  cbn [browser_run fold_left]. apply IH. now apply browser_step_invariant.
Qed.

(** The selected group and the theme survive a reload.  After any
    sequence of events (those of the page, the theme button, reloads) from
    a first load with any storage, loading the page again gives the
    selected group back (no group if none, or an empty one, was selected)
    and the same theme, and writes nothing new to the storage; the page
    itself is not kept: the reloaded page is the home page when a group is
    selected and the group selection page otherwise. *)
Theorem reload_restores_group_and_theme
  (base : string) (s0 : Storage) (evs : list BrowserEvent) :
  selectedGroup (app (world (boot (storage (browser_run base evs (boot s0))))))
  = or_null (selectedGroup (app (world (browser_run base evs (boot s0)))))
  /\ darkMode (app (world (boot (storage (browser_run base evs (boot s0))))))
     = darkMode (app (world (browser_run base evs (boot s0))))
  /\ storage (boot (storage (browser_run base evs (boot s0))))
     = storage (browser_run base evs (boot s0))
  /\ currentPage
       (app (world (boot (storage (browser_run base evs (boot s0))))))
     = if truthy_group
            (selectedGroup (app (world (browser_run base evs (boot s0)))))
       then "home" else "groupSelect".
Proof.
  destruct (browser_run_invariant base evs _ (boot_invariant s0))
    as (_ & Hg & Hd).
  set (b := browser_run base evs (boot s0)) in *.
  destruct (mount_reads (item_selectedGroup (storage b))
              (stored_darkMode (storage b))) as (Mg & Md & Mp).
  assert (Hdark : stored_darkMode (storage b) = darkMode (app (world b))).
  { unfold stored_darkMode. rewrite Hd.
    now destruct (darkMode (app (world b))). }
  assert (Htruthy : truthy_group (item_selectedGroup (storage b))
                    = truthy_group (selectedGroup (app (world b)))).
  { unfold or_null in Hg.
    destruct (truthy_group (item_selectedGroup (storage b))) eqn:E1;
      destruct (truthy_group (selectedGroup (app (world b)))) eqn:E2;
      try reflexivity.
    - rewrite Hg in E1. discriminate E1.
    - rewrite <- Hg in E2. discriminate E2. }
  unfold boot. cbn [world storage].
  split; [now rewrite Mg|]. split; [now rewrite Md|].
  split; [|now rewrite Mp, Htruthy].
  unfold darkEffect_storage, groupEffect_storage. rewrite Mg, Md, Hdark.
  destruct (storage b) as [ig id]. cbn [item_selectedGroup item_darkMode] in *.
  unfold or_null. destruct ig as [g|]; cbn [truthy_group].
  - unfold setItem_darkMode, setItem_selectedGroup. cbn.
    destruct (truthy_string g) eqn:Eg; cbn; rewrite ?Eg; cbn; rewrite Hd;
      reflexivity.
  - unfold setItem_darkMode. cbn. now rewrite Hd.
Qed.

(** ** Times with seconds *)

Lemma split_colon_nonempty (s : string) : split_colon s <> [].
Proof.
  induction s as [|c r IH]; cbn; [discriminate|].
  destruct (Ascii.eqb c ":"); [discriminate|].
  destruct (split_colon r); discriminate.
Qed.

Lemma split_colon_app (s r : string) :
  split_colon (s ++ ":" ++ r) = (split_colon s ++ split_colon r)%list.
Proof.
  induction s as [|c s IH]; [reflexivity|].
  cbn [String.append split_colon] in *.
  destruct (Ascii.eqb c ":"); [now rewrite IH|].
  rewrite IH. pose proof (split_colon_nonempty s) as Hne.
  destruct (split_colon s) as [|piece rest]; [contradiction | reflexivity].
Qed.

Lemma has_colon_split (s : string) :
  has_colon s = true -> exists h m rest, split_colon s = h :: m :: rest.
Proof.
  induction s as [|c s IH]; cbn [has_colon split_colon]; [discriminate|].
  destruct (Ascii.eqb c ":"); cbn [orb].
  - intros _. pose proof (split_colon_nonempty s) as Hne.
    destruct (split_colon s) as [|m rest]; [contradiction|]. eauto.
  - intros H. destruct (IH H) as (h & m & rest & ->). eauto.
Qed.

Section Seconds.
Context {numerics : JsNumerics}.

Lemma minutesOf_app (s r : string) :
  has_colon s = true -> minutesOf (s ++ ":" ++ r) = minutesOf s.
Proof.
  intros H. unfold minutesOf. rewrite split_colon_app.
  destruct (has_colon_split s H) as (h & m & rest & ->). reflexivity.
Qed.

End Seconds.

(** Only the first two colon-separated pieces of a time are read: a time
    followed by a colon and anything (seconds, say) gives the same minutes,
    and so the same Live flag, as the time without it. *)
Theorem seconds_are_ignored
  (numerics : JsNumerics) (now : Clock) (startTime endTime s1 s2 : string) :
  has_colon startTime = true ->
  has_colon endTime = true ->
  minutesOf (startTime ++ ":" ++ s1) = minutesOf startTime
  /\ minutesOf (endTime ++ ":" ++ s2) = minutesOf endTime
  /\ isCurrentClass now (startTime ++ ":" ++ s1) (endTime ++ ":" ++ s2)
     = isCurrentClass now startTime endTime.
Proof.
  intros Hs He. split; [now apply minutesOf_app|].
  split; [now apply minutesOf_app|].
  unfold isCurrentClass. now rewrite !minutesOf_app.
Qed.

Lemma seconds_are_ignored_witness :
  minutesOf "09:00:30" = minutesOf "09:00"
  /\ minutesOf "10:30:00" = minutesOf "10:30"
  /\ isCurrentClass {| getHours := 9; getMinutes := 30 |} "09:00:30" "10:30:00"
     = isCurrentClass {| getHours := 9; getMinutes := 30 |} "09:00" "10:30".
Proof.
  apply (seconds_are_ignored exact_numerics
           {| getHours := 9; getMinutes := 30 |} "09:00" "10:30" "30" "00");
    reflexivity.
Defined.
